(** * Nexus Robotics: resilient client and civilian mission controller

    A shallow embedding of

    - [BaseClient] (src/integrations/BaseClient.ts): retry with backoff and
      the circuit breaker wrapped around one collaborator endpoint;
    - [GraphRAGClient], [VideoAgentClient], [MageAgentClient]: the three
      collaborators the mission loop talks to;
    - [MissionController]: the ReAct loop (assess, plan, act, observe,
      evaluate, finalize).

    Conventions.  Milliseconds, counters and HTTP statuses are integers
    ([Z], [nat]); measurements (battery, wind, visibility, confidence,
    importance) are rationals ([Q]) standing for the JavaScript numbers,
    so NaN, infinities and rounding are outside the model.  Asynchronous
    code is sequential state passing: a promise that rejects is the
    outcome [Threw], an [await] is a bind.  Synchronous code takes no time;
    the clock advances only by the latency of a transport attempt and by
    [sleep].  Template strings that embed serialised objects are kept as
    structured values. *)

From Stdlib Require Import ZArith List String Ascii Bool Lia QArith DecimalString.
Import ListNotations.
Local Open Scope Z_scope.
Local Open Scope string_scope.

(** ** Outcomes and the state-and-exception monad *)

Inductive Details : Type :=
| NoDetails
| ServiceDetails (service originalError : string)
| MissionDetails (missionId : string) (iteration : nat).

(** What a promise can reject with: [RoboticsError] (message, code,
    statusCode, details), its subclass [MissionError] (code MISSION_ERROR,
    status 500) and the [TypeError] the runtime raises on a property read
    of [undefined]. *)
Inductive Exn : Type :=
| RoboticsError (message code : string) (statusCode : Z) (details : Details)
| MissionError (message : string) (details : Details)
| TypeError (message : string).

Definition exn_message (e : Exn) : string :=
  match e with
  | RoboticsError m _ _ _ => m
  | MissionError m _ => m
  | TypeError m => m
  end.

Definition exn_code (e : Exn) : option string :=
  match e with
  | RoboticsError _ c _ _ => Some c
  | MissionError _ _ => Some "MISSION_ERROR"
  | TypeError _ => None
  end.

Definition exn_statusCode (e : Exn) : option Z :=
  match e with
  | RoboticsError _ _ s _ => Some s
  | MissionError _ _ => Some 500
  | TypeError _ => None
  end.

Inductive Outcome (A : Type) : Type :=
| Returned (a : A)
| Threw (e : Exn).
Arguments Returned {A} a.
Arguments Threw {A} e.

Definition Eff (S A : Type) : Type := S -> Outcome A * S.

Definition ret {S A} (a : A) : Eff S A := fun s => (Returned a, s).

Definition throw {S A} (e : Exn) : Eff S A := fun s => (Threw e, s).

Definition bind {S A B} (m : Eff S A) (k : A -> Eff S B) : Eff S B :=
  fun s =>
    match m s with
    | (Returned a, s') => k a s'
    | (Threw e, s') => (Threw e, s')
    end.

Definition tryCatch {S A} (m : Eff S A) (handler : Exn -> Eff S A) : Eff S A :=
  fun s =>
    match m s with
    | (Returned a, s') => (Returned a, s')
    | (Threw e, s') => handler e s'
    end.

Definition gets {S A} (f : S -> A) : Eff S A := fun s => (Returned (f s), s).

Definition modify {S} (f : S -> S) : Eff S unit := fun s => (Returned tt, f s).

Declare Scope eff_scope.
Delimit Scope eff_scope with eff.
Notation "x <- m ;; k" := (bind m (fun x => k))
  (at level 61, m at next level, right associativity) : eff_scope.
Notation "m ;; k" := (bind m (fun _ => k))
  (at level 61, right associativity) : eff_scope.
Local Open Scope eff_scope.

(** JavaScript [a || b] on strings: the empty string and [undefined] are
    falsy. *)
Definition str_or (a : option string) (b : string) : string :=
  match a with
  | Some s => if String.eqb s "" then b else s
  | None => b
  end.

(** ** BaseClient *)

Module BaseClient.

Inductive BreakerState : Type := CLOSED | OPEN | HALF_OPEN.

Definition BreakerState_eqb (a b : BreakerState) : bool :=
  match a, b with
  | CLOSED, CLOSED | OPEN, OPEN | HALF_OPEN, HALF_OPEN => true
  | _, _ => false
  end.

Record CircuitBreaker : Type := mkBreaker {
  failures : nat;
  lastFailureTime : Z;
  state : BreakerState
}.

Record RetryConfig : Type := mkRetry {
  maxAttempts : nat;
  delayMs : Z;
  backoffMultiplier : Z
}.

(** API_CONSTANTS of shared/src/constants. *)
Definition MAX_RETRY_ATTEMPTS : nat := 3.
Definition RETRY_DELAY_MS : Z := 1000.
Definition RETRY_BACKOFF_MULTIPLIER : Z := 2.

Definition defaultRetryConfig : RetryConfig :=
  mkRetry MAX_RETRY_ATTEMPTS RETRY_DELAY_MS RETRY_BACKOFF_MULTIPLIER.

(** What the axios instance rejects with. *)
Inductive Failure : Type :=
| AxiosResponse (status : Z) (dataMessage dataCode : option string) (message : string)
| AxiosNoResponse (message : string)
| OtherError (message : string).

Inductive Reply (T : Type) : Type :=
| Fulfilled (data : T)
| Rejected (error : Failure).
Arguments Fulfilled {T} data.
Arguments Rejected {T} error.

(** The body of a request; the collaborator is free to answer anything, so
    the bodies matter only to what is recorded as sent. *)
Record Request (B : Type) : Type := mkRequest {
  method : string;
  url : string;
  body : option B
}.
Arguments mkRequest {B} method url body.
Arguments method {B} r.
Arguments url {B} r.
Arguments body {B} r.

(** One client instance.  [wire n] is the collaborator's answer to the
    n-th transport attempt made through this instance, with its latency.
    [sent] and [transitions] are ghost logs: the requests put on the wire
    and every value assigned to [circuitBreaker.state], latest first. *)
Record Client (B T : Type) : Type := mkClient {
  serviceName : string;
  retryConfig : RetryConfig;
  circuitBreaker : CircuitBreaker;
  wire : nat -> Reply T * Z;
  sent : list (Request B);
  transitions : list BreakerState
}.
Arguments mkClient {B T} serviceName retryConfig circuitBreaker wire sent transitions.
Arguments serviceName {B T} c.
Arguments retryConfig {B T} c.
Arguments circuitBreaker {B T} c.
Arguments wire {B T} c n.
Arguments sent {B T} c.
Arguments transitions {B T} c.

(** The constructor: breaker CLOSED with no failures; the circuit-breaker
    configuration argument is accepted and ignored. *)
Definition new {B T} (serviceName : string) (retryConfig : option RetryConfig)
    (wire : nat -> Reply T * Z) : Client B T :=
  mkClient serviceName
    (match retryConfig with Some c => c | None => defaultRetryConfig end)
    (mkBreaker 0 0 CLOSED) wire [] [CLOSED].

(** A client at work: the clock, the delays slept so far (ghost, latest
    first) and the instance. *)
Record Sys (B T : Type) : Type := mkSys {
  time : Z;
  slept : list Z;
  self : Client B T
}.
Arguments mkSys {B T} time slept self.
Arguments time {B T} s.
Arguments slept {B T} s.
Arguments self {B T} s.

Section Instance.
Context {B T : Type}.

Definition set_breaker (cb : CircuitBreaker) (c : Client B T) : Client B T :=
  mkClient (serviceName c) (retryConfig c) cb (wire c) (sent c) (transitions c).

(** An assignment [this.circuitBreaker.state = v]. *)
Definition assign_state (v : BreakerState) (c : Client B T) : Client B T :=
  mkClient (serviceName c) (retryConfig c)
    (mkBreaker (failures (circuitBreaker c)) (lastFailureTime (circuitBreaker c)) v)
    (wire c) (sent c) (v :: transitions c).

Definition on_self (f : Client B T -> Client B T) (s : Sys B T) : Sys B T :=
  mkSys (time s) (slept s) (f (self s)).

Definition sleep (ms : Z) : Eff (Sys B T) unit :=
  modify (fun s => mkSys (time s + ms) (ms :: slept s) (self s)).

Definition THRESHOLD : nat := 5.
Definition RESET_TIMEOUT : Z := 30000.

Definition incrementCircuitBreakerFailure : Eff (Sys B T) unit :=
  fun s =>
    let cb := circuitBreaker (self s) in
    let c1 := set_breaker (mkBreaker (S (failures cb)) (time s) (state cb)) (self s) in
    if (THRESHOLD <=? failures (circuitBreaker c1))%nat
    then (Returned tt, mkSys (time s) (slept s) (assign_state OPEN c1))
    else (Returned tt, mkSys (time s) (slept s) c1).

Definition resetCircuitBreaker : Eff (Sys B T) unit :=
  modify (on_self (fun c =>
    assign_state CLOSED
      (set_breaker (mkBreaker 0 (lastFailureTime (circuitBreaker c))
                      (state (circuitBreaker c))) c))).

(** One transport attempt through the axios instance: the response
    interceptor resets the breaker on a fulfilled response and only logs a
    rejected one. *)
Definition transport (req : Request B) : Sys B T -> Reply T * Sys B T :=
  fun s =>
    let c := self s in
    let '(reply, latency) := wire c (List.length (sent c)) in
    let s1 := mkSys (time s + latency) (slept s)
                (mkClient (serviceName c) (retryConfig c) (circuitBreaker c)
                   (wire c) (req :: sent c) (transitions c)) in
    match reply with
    | Fulfilled data => (Fulfilled data, snd (resetCircuitBreaker s1))
    | Rejected error => (Rejected error, s1)
    end.

(** [axios.isAxiosError(error) && error.response?.status &&
    error.response.status < 500]. *)
Definition isClientError (error : Failure) : bool :=
  match error with
  | AxiosResponse status _ _ _ => negb (status =? 0)%Z && (status <? 500)%Z
  | _ => false
  end.

Definition transformError (serviceName : string) (error : option Failure) : Exn :=
  match error with
  | Some (AxiosResponse status dataMessage dataCode message) =>
      RoboticsError (serviceName ++ ": " ++ str_or dataMessage message)
        (str_or dataCode "SERVICE_ERROR")
        (if (status =? 0)%Z then 500 else status)
        (ServiceDetails serviceName message)
  | Some (AxiosNoResponse message) =>
      RoboticsError (serviceName ++ ": " ++ message) "SERVICE_ERROR" 500
        (ServiceDetails serviceName message)
  | Some (OtherError message) =>
      RoboticsError (serviceName ++ ": " ++ message) "UNKNOWN_ERROR" 500
        (ServiceDetails serviceName message)
  | None => TypeError "Cannot read properties of undefined (reading 'message')"
  end.

(** The delay slept after a failed attempt that is not the last. *)
Definition retryDelay (cfg : RetryConfig) (attempt : nat) : Z :=
  delayMs cfg * backoffMultiplier cfg ^ (Z.of_nat attempt - 1).

(** The loop [for (attempt = 1; attempt <= maxAttempts; attempt++)]:
    [remaining] counts the iterations left, [maxAttempts + 1 - attempt]. *)
Fixpoint attempts (remaining attempt maxAttempts : nat) (req : Request B)
    (lastError : option Failure) : Eff (Sys B T) T :=
  match remaining with
  | O => fun s => throw (transformError (serviceName (self s)) lastError) s
  | S remaining' =>
      fun s =>
        match transport req s with
        | (Fulfilled data, s1) => (Returned data, s1)
        | (Rejected error, s1) =>
            if isClientError error
            then (Threw (transformError (serviceName (self s1)) (Some error)), s1)
            else
              (incrementCircuitBreakerFailure ;;
               (if (attempt <? maxAttempts)%nat
                then sleep (retryDelay (retryConfig (self s1)) attempt)
                else ret tt) ;;
               attempts remaining' (S attempt) maxAttempts req (Some error)) s1
        end
  end.

Definition breakerOpenError (serviceName : string) : Exn :=
  RoboticsError
    ("Circuit breaker OPEN for " ++ serviceName ++ ". Service temporarily unavailable.")
    "CIRCUIT_BREAKER_OPEN" 503 NoDetails.

(** The check at the head of [executeWithRetry]. *)
Definition checkCircuitBreaker : Eff (Sys B T) unit :=
  fun s =>
    match state (circuitBreaker (self s)) with
    | OPEN =>
        let timeSinceLastFailure := time s - lastFailureTime (circuitBreaker (self s)) in
        if (timeSinceLastFailure <? RESET_TIMEOUT)%Z
        then (Threw (breakerOpenError (serviceName (self s))), s)
        else (Returned tt, on_self (assign_state HALF_OPEN) s)
    | _ => (Returned tt, s)
    end.

Definition executeWithRetry (retries : option nat) (req : Request B) : Eff (Sys B T) T :=
  fun s =>
    let maxAttempts :=
      match retries with Some n => n | None => maxAttempts (retryConfig (self s)) end in
    (checkCircuitBreaker ;; attempts maxAttempts 1 maxAttempts req None) s.

Definition get (url : string) : Eff (Sys B T) T :=
  executeWithRetry None (mkRequest "GET" url None).

Definition post (url : string) (data : B) : Eff (Sys B T) T :=
  executeWithRetry None (mkRequest "POST" url (Some data)).

Definition put (url : string) (data : B) : Eff (Sys B T) T :=
  executeWithRetry None (mkRequest "PUT" url (Some data)).

Definition delete (url : string) : Eff (Sys B T) T :=
  executeWithRetry None (mkRequest "DELETE" url None).

Definition healthCheck : Eff (Sys B T) bool :=
  tryCatch (get "/health" ;; ret true) (fun _ => ret false).

End Instance.

End BaseClient.

(** ** shared/src/types *)

Inductive ObjectClassification : Type :=
| UNKNOWN | PERSON | VEHICLE | BICYCLE | ANIMAL | BUILDING | TREE | SIGN
| TRAFFIC_LIGHT | PACKAGE | EQUIPMENT | INFRASTRUCTURE.

Definition ObjectClassification_eqb (a b : ObjectClassification) : bool :=
  match a, b with
  | UNKNOWN, UNKNOWN | PERSON, PERSON | VEHICLE, VEHICLE | BICYCLE, BICYCLE
  | ANIMAL, ANIMAL | BUILDING, BUILDING | TREE, TREE | SIGN, SIGN
  | TRAFFIC_LIGHT, TRAFFIC_LIGHT | PACKAGE, PACKAGE | EQUIPMENT, EQUIPMENT
  | INFRASTRUCTURE, INFRASTRUCTURE => true
  | _, _ => false
  end.

Inductive Priority : Type := LOW | MEDIUM | HIGH.

Definition Priority_eqb (a b : Priority) : bool :=
  match a, b with
  | LOW, LOW | MEDIUM, MEDIUM | HIGH, HIGH => true
  | _, _ => false
  end.

Inductive MissionType : Type :=
| DELIVERY | INSPECTION | SURVEILLANCE | MAPPING | SEARCH_AND_RESCUE
| AGRICULTURE | ENVIRONMENTAL_MONITORING | INFRASTRUCTURE_MONITORING
| CARGO_TRANSPORT | PATROL | DATA_COLLECTION | EMERGENCY_RESPONSE.

Definition MissionType_name (t : MissionType) : string :=
  match t with
  | DELIVERY => "DELIVERY"
  | INSPECTION => "INSPECTION"
  | SURVEILLANCE => "SURVEILLANCE"
  | MAPPING => "MAPPING"
  | SEARCH_AND_RESCUE => "SEARCH_AND_RESCUE"
  | AGRICULTURE => "AGRICULTURE"
  | ENVIRONMENTAL_MONITORING => "ENVIRONMENTAL_MONITORING"
  | INFRASTRUCTURE_MONITORING => "INFRASTRUCTURE_MONITORING"
  | CARGO_TRANSPORT => "CARGO_TRANSPORT"
  | PATROL => "PATROL"
  | DATA_COLLECTION => "DATA_COLLECTION"
  | EMERGENCY_RESPONSE => "EMERGENCY_RESPONSE"
  end.

Inductive MissionStatus : Type :=
| PLANNING | READY | IN_PROGRESS | PAUSED | COMPLETED | FAILED | ABORTED.

Definition MissionStatus_eqb (a b : MissionStatus) : bool :=
  match a, b with
  | PLANNING, PLANNING | READY, READY | IN_PROGRESS, IN_PROGRESS
  | PAUSED, PAUSED | COMPLETED, COMPLETED | FAILED, FAILED
  | ABORTED, ABORTED => true
  | _, _ => false
  end.

Inductive MissionMode : Type := MANUAL | SEMI_AUTONOMOUS | AUTONOMOUS.

Inductive ObjectiveType : Type := PRIMARY | SECONDARY | OPTIONAL.

Module Position3D.
Record t : Type := mk {
  latitude : Q;
  longitude : Q;
  altitude : Q;
  timestamp : Z
}.
End Position3D.

Module Velocity3D.
Record t : Type := mk { vx : Q; vy : Q; vz : Q; speed : Q; heading : Q }.
End Velocity3D.

(** [Obstacle] and [CommunicationLink]: the controller only ever builds
    empty lists of them, so their fields are cut down to the identifier. *)
Module Obstacle.
Record t : Type := mk { id : string }.
End Obstacle.

Module CommunicationLink.
Record t : Type := mk { id : string }.
End CommunicationLink.

Module Detection.
Record t : Type := mk {
  id : option string;
  category : string;
  label : string;
  confidence : Q
}.
End Detection.

(** The identifier of a tracked object: the detection's own, or the
    generated [obj_<Date.now()>_<Math.random()>], whose random part is not
    modelled. *)
Inductive ObjectId : Type :=
| GivenId (id : string)
| GeneratedId (now : Z).

Module TrackedObject.
Record t : Type := mk {
  id : ObjectId;
  position : Position3D.t;
  classification : ObjectClassification;
  confidence : Q;
  priority : Priority;
  firstDetected : Z;
  lastSeen : Z;
  trackingHistory : list Position3D.t;
  metadata_type : string;
  metadata_description : string
}.
End TrackedObject.

Module MissionObjective.
Record t : Type := mk {
  id : string;
  type : ObjectiveType;
  description : string;
  completed : bool
}.
End MissionObjective.

Module WeatherLimits.
Record t : Type := mk {
  maxWindSpeed : option Q;
  minVisibility : option Q;
  maxPrecipitation : option Q
}.
End WeatherLimits.

Module MissionConstraints.
Record t : Type := mk {
  maxAltitude : option Q;
  batteryReserve : Q;
  weatherLimits : WeatherLimits.t;
  safetyDistance : Q
}.
End MissionConstraints.

(** A mission, with the fields the controller reads or writes. *)
Module Mission.
Record t : Type := mk {
  id : string;
  name : string;
  type : MissionType;
  status : MissionStatus;
  mode : MissionMode;
  objectives : list MissionObjective.t;
  constraints : MissionConstraints.t
}.

(** [mission.status = v] *)
Definition set_status (v : MissionStatus) (m : t) : t :=
  mk (id m) (name m) (type m) v (mode m) (objectives m) (constraints m).
End Mission.

Module Health.
Record t : Type := mk { battery : Q; temperature : Q; errors : list string }.
End Health.

Module Environment.
Record t : Type := mk {
  windSpeed : option Q;
  temperature : option Q;
  humidity : option Q;
  visibility : option Q
}.
End Environment.

Module WorldState.
Record t : Type := mk {
  timestamp : Z;
  position : Position3D.t;
  velocity : Velocity3D.t;
  attitude : Q * Q * Q;
  obstacles : list Obstacle.t;
  trackedObjects : list TrackedObject.t;
  communication : list CommunicationLink.t;
  health : Health.t;
  environment : Environment.t
}.

Definition set_trackedObjects (v : list TrackedObject.t) (w : t) : t :=
  mk (timestamp w) (position w) (velocity w) (attitude w) (obstacles w) v
     (communication w) (health w) (environment w).
End WorldState.

Module MissionResult.
Record t : Type := mk {
  missionId : string;
  status : MissionStatus;
  objectivesCompleted : nat;
  objectivesTotal : nat;
  duration : Q;
  distanceTraveled : Q;
  energyConsumed : Q;
  lessons : list string;
  telemetry : list unit
}.
End MissionResult.

(** JavaScript truthiness of an optional number, [a < b] and [a || b]. *)
Definition Qlt_bool (a b : Q) : bool := negb (Qle_bool b a).

Definition truthy (x : option Q) : bool :=
  match x with
  | Some q => negb (Qeq_bool q 0)
  | None => false
  end.

Definition num_or (a : Q) (b : Q) : Q := if Qeq_bool a 0 then b else a.

Definition optnum_or (a : option Q) (b : Q) : Q :=
  match a with
  | Some q => num_or q b
  | None => b
  end.

(** [String.prototype.toLowerCase] on ASCII text. *)
Definition lower_ascii (c : ascii) : ascii :=
  let n := nat_of_ascii c in
  if ((65 <=? n) && (n <=? 90))%nat then ascii_of_nat (n + 32) else c.

Fixpoint toLowerCase (s : string) : string :=
  match s with
  | EmptyString => EmptyString
  | String c rest => String (lower_ascii c) (toLowerCase rest)
  end.

(** [`${n}`] for a natural number. *)
Definition show_nat (n : nat) : string := NilZero.string_of_uint (Nat.to_uint n).

(** ** Payloads exchanged with the collaborators *)

(** The [reason] of an evaluation. *)
Inductive Reason : Type :=
| NoMissionOrWorldState
| MultiplePeopleNearby (count : nat) (safetyDistance : Q)
| WindExceedsLimits (windSpeed : Q)
| VisibilityBelowLimits (visibility : Q)
| LowBattery (battery : Q)
| SystemErrorsDetected (errors : list string)
| ReplanningRequired.

Module InspectionData.
Record t : Type := mk {
  position : Position3D.t;
  timestamp : Z;
  objectsObserved : nat;
  weatherConditions : Environment.t
}.
End InspectionData.

Module DataCollected.
Record t : Type := mk {
  position : Position3D.t;
  timestamp : Z;
  environmentalData : Environment.t;
  samples : list string
}.
End DataCollected.

(** The [content] of an episode. *)
Inductive EpisodeContent : Type :=
| MissionStarted (name : string) (type : MissionType)
| ActionExecuted (type reasoning : string)
| WorldStateUpdated
| MissionReplanning (reason : Reason)
| AreaInspectionCompleted (data : InspectionData.t)
| DataCollectedAt (data : DataCollected.t)
| PackageDeliveredAt (position : Position3D.t)
| PeopleDetectedAt (count : nat) (position : Position3D.t)
| SafetyPause (count : nat).

(** Bodies posted to the knowledge store. *)
Inductive MemoryBody : Type :=
| EpisodeBody (content : EpisodeContent) (type : string) (importance : Q) (timestamp : Z)
| DocumentBody (title : string) (content : MissionResult.t) (missionId : string) (timestamp : Z)
| PatternBody (missionType : MissionType) (iterations : nat) (confidence : Q)
    (tags : list string).

Module VideoProcessingRequest.
Record t : Type := mk {
  imageUrl : string;
  operations : list string;
  modelPreference : string
}.
End VideoProcessingRequest.

Module VideoProcessingResponse.
Record t : Type := mk {
  jobId : string;
  detections : option (list Detection.t);
  processingTime : Z
}.
End VideoProcessingResponse.

Inductive ConstraintText : Type :=
| MaxAltitudeText (metres : Q)
| SafetyDistanceText (metres : Q)
| BatteryReserveText (percent : Q)
| WeatherLimitsText (maxWind : option Q).

Module DecisionRequest.
Record t : Type := mk {
  missionType : MissionType;
  position : Position3D.t;
  peopleNearby : nat;
  battery : Q;
  options : list string;
  constraints : list ConstraintText;
  model : string
}.
End DecisionRequest.

Module Decision.
Record t : Type := mk { decision : string; reasoning : string; confidence : Q }.
End Decision.

Module Action.
Record t : Type := mk { type : string; reasoning : string; confidence : Q }.
End Action.

Module PersonSeen.
Record t : Type := mk { id : ObjectId; position : Position3D.t; confidence : Q }.
End PersonSeen.

(** What an action result carries besides [success] and [message]. *)
Inductive ResultData : Type :=
| NoData
| ActionTag (action : string)
| InspectionResult (data : InspectionData.t)
| CollectionResult (data : DataCollected.t)
| DeliveryLocation (location : Position3D.t)
| PeopleDetected (people : list PersonSeen.t)
| PauseDuration (duration : Z).

Module ActionResult.
Record t : Type := mk { success : bool; message : string; data : ResultData }.
End ActionResult.

Module Observation.
Record t : Type := mk { actionSuccess : bool; newState : WorldState.t; timestamp : Z }.
End Observation.

Module Evaluation.
Record t : Type := mk {
  needsReplanning : bool;
  shouldAbort : bool;
  reason : option Reason
}.
End Evaluation.

(** ** The running system: clock, collaborators and controller fields *)

Record World : Type := mkWorld {
  now : Z;
  slept : list Z;
  videoAgent : BaseClient.Client VideoProcessingRequest.t VideoProcessingResponse.t;
  mageAgent : BaseClient.Client DecisionRequest.t Decision.t;
  graphRAG : BaseClient.Client MemoryBody unit;
  mission : option Mission.t;
  worldState : option WorldState.t;
  iteration : nat;
  startTime : Z
}.

Definition set_mission (v : option Mission.t) (w : World) : World :=
  mkWorld (now w) (slept w) (videoAgent w) (mageAgent w) (graphRAG w) v
    (worldState w) (iteration w) (startTime w).

Definition set_worldState (v : option WorldState.t) (w : World) : World :=
  mkWorld (now w) (slept w) (videoAgent w) (mageAgent w) (graphRAG w) (mission w)
    v (iteration w) (startTime w).

Definition set_iteration (v : nat) (w : World) : World :=
  mkWorld (now w) (slept w) (videoAgent w) (mageAgent w) (graphRAG w) (mission w)
    (worldState w) v (startTime w).

Definition set_startTime (v : Z) (w : World) : World :=
  mkWorld (now w) (slept w) (videoAgent w) (mageAgent w) (graphRAG w) (mission w)
    (worldState w) (iteration w) v.

(** Running a client method inside the world: the client sees the shared
    clock, and what it did to the clock and to itself is written back. *)
Definition viaVideoAgent {A}
    (m : Eff (BaseClient.Sys VideoProcessingRequest.t VideoProcessingResponse.t) A)
    : Eff World A :=
  fun w =>
    let '(r, s) := m (BaseClient.mkSys (now w) (slept w) (videoAgent w)) in
    (r, mkWorld (BaseClient.time s) (BaseClient.slept s) (BaseClient.self s)
          (mageAgent w) (graphRAG w) (mission w) (worldState w) (iteration w)
          (startTime w)).

Definition viaMageAgent {A}
    (m : Eff (BaseClient.Sys DecisionRequest.t Decision.t) A) : Eff World A :=
  fun w =>
    let '(r, s) := m (BaseClient.mkSys (now w) (slept w) (mageAgent w)) in
    (r, mkWorld (BaseClient.time s) (BaseClient.slept s) (videoAgent w)
          (BaseClient.self s) (graphRAG w) (mission w) (worldState w) (iteration w)
          (startTime w)).

Definition viaGraphRAG {A}
    (m : Eff (BaseClient.Sys MemoryBody unit) A) : Eff World A :=
  fun w =>
    let '(r, s) := m (BaseClient.mkSys (now w) (slept w) (graphRAG w)) in
    (r, mkWorld (BaseClient.time s) (BaseClient.slept s) (videoAgent w)
          (mageAgent w) (BaseClient.self s) (mission w) (worldState w) (iteration w)
          (startTime w)).

(** ** GraphRAGClient *)

Module GraphRAGClient.

Definition storeEpisode (content : EpisodeContent) (type : string) (importance : Q)
    : Eff World unit :=
  timestamp <- gets now ;;
  viaGraphRAG (BaseClient.post "/api/memory/episodes"
                 (EpisodeBody content type importance timestamp)).

Definition storeDocument (title : string) (content : MissionResult.t)
    (missionId : string) (timestamp : Z) : Eff World unit :=
  viaGraphRAG (BaseClient.post "/api/documents"
                 (DocumentBody title content missionId timestamp)).

Definition storePattern (missionType : MissionType) (iterations : nat) (confidence : Q)
    (tags : list string) : Eff World unit :=
  viaGraphRAG (BaseClient.post "/api/patterns"
                 (PatternBody missionType iterations confidence tags)).

Definition storeMissionResult (missionId : string) (result : MissionResult.t)
    : Eff World unit :=
  timestamp <- gets now ;;
  storeDocument ("Mission Result: " ++ missionId) result missionId timestamp.

End GraphRAGClient.

(** ** VideoAgentClient *)

Module VideoAgentClient.

Definition processFrame (request : VideoProcessingRequest.t)
    : Eff World VideoProcessingResponse.t :=
  tryCatch (viaVideoAgent (BaseClient.post "/api/process" request))
           (fun error => throw error).

(** A failure of the perception call degrades to the empty list. *)
Definition detectObjects (imageUrl : string) (threshold : Q)
    : Eff World (list Detection.t) :=
  tryCatch
    (response <- processFrame
        (VideoProcessingRequest.mk imageUrl ["object_detection"] "fast") ;;
     ret (filter (fun d => Qle_bool threshold (Detection.confidence d))
            (match VideoProcessingResponse.detections response with
             | Some ds => ds
             | None => []
             end)))
    (fun _ => ret []).

End VideoAgentClient.

(** ** MageAgentClient *)

Module MageAgentClient.

Definition makeStrategicDecision (request : DecisionRequest.t) : Eff World Decision.t :=
  tryCatch (viaMageAgent (BaseClient.post "/api/decision" request))
           (fun error => throw error).

End MageAgentClient.

(** ** MissionController *)

Module MissionController.

Definition maxIterations : nat := 50.

Definition sleep (ms : Z) : Eff World unit :=
  modify (fun w =>
    mkWorld (now w + ms) (ms :: slept w) (videoAgent w) (mageAgent w) (graphRAG w)
      (mission w) (worldState w) (iteration w) (startTime w)).

Definition isPerson (obj : TrackedObject.t) : bool :=
  ObjectClassification_eqb (TrackedObject.classification obj) PERSON.

Definition isHighPriorityPerson (obj : TrackedObject.t) : bool :=
  isPerson obj && Priority_eqb (TrackedObject.priority obj) HIGH.

(** The lookup in [categoryMap], on its own keys. *)
Definition mapToObjectClassification (category : string) : ObjectClassification :=
  let c := toLowerCase category in
  if String.eqb c "person" then PERSON
  else if String.eqb c "vehicle" then VEHICLE
  else if String.eqb c "bicycle" then BICYCLE
  else if String.eqb c "animal" then ANIMAL
  else if String.eqb c "building" then BUILDING
  else if String.eqb c "tree" then TREE
  else if String.eqb c "sign" then SIGN
  else if String.eqb c "traffic_light" then TRAFFIC_LIGHT
  else if String.eqb c "package" then PACKAGE
  else if String.eqb c "equipment" then EQUIPMENT
  else if String.eqb c "infrastructure" then INFRASTRUCTURE
  else UNKNOWN.

Definition calculateSafetyPriority (category : string) : Priority :=
  if String.eqb (toLowerCase category) "person" then HIGH
  else if String.eqb (toLowerCase category) "vehicle" then HIGH
  else if String.eqb (toLowerCase category) "bicycle" then MEDIUM
  else LOW.

Definition toTrackedObject (position : Position3D.t) (t : Z) (detection : Detection.t)
    : TrackedObject.t :=
  TrackedObject.mk
    (match Detection.id detection with
     | Some i => if String.eqb i "" then GeneratedId t else GivenId i
     | None => GeneratedId t
     end)
    position
    (mapToObjectClassification (Detection.category detection))
    (Detection.confidence detection)
    (calculateSafetyPriority (Detection.category detection))
    t t [position]
    (Detection.category detection)
    (Detection.label detection).

(** The snapshot built from the detections; [t0] is the clock before the
    perception call and [t1] the clock after it. *)
Definition buildWorldState (t0 t1 : Z) (visualData : list Detection.t) : WorldState.t :=
  let position := Position3D.mk 0 0 0 t0 in
  WorldState.mk t1 position
    (Velocity3D.mk 0 0 0 0 0)
    (0%Q, 0%Q, 0%Q)
    []
    (map (toTrackedObject position t1) visualData)
    []
    (Health.mk 100 25 [])
    (Environment.mk (Some 5%Q) (Some 20%Q) (Some 60%Q) (Some 10000%Q)).

Definition assessSituation : Eff World WorldState.t :=
  t0 <- gets now ;;
  visualData <- VideoAgentClient.detectObjects "current_frame_url" (7 # 10) ;;
  t1 <- gets now ;;
  let state := buildWorldState t0 t1 visualData in
  modify (set_worldState (Some state)) ;;
  ret state.

Definition actionOptions : list string :=
  ["continue_path"; "avoid_obstacle"; "inspect_area"; "collect_data";
   "deliver_package"; "scan_for_people"; "return_to_base"; "pause_for_safety"].

Definition planNextAction (state : WorldState.t) : Eff World Action.t :=
  m <- gets mission ;;
  match m with
  | None => throw (MissionError "No active mission" NoDetails)
  | Some mission =>
      let peopleNearby := filter isPerson (WorldState.trackedObjects state) in
      let c := Mission.constraints mission in
      let safetyDistance := num_or (MissionConstraints.safetyDistance c) 5 in
      let constraints :=
        [MaxAltitudeText (optnum_or (MissionConstraints.maxAltitude c) 120);
         SafetyDistanceText safetyDistance;
         BatteryReserveText (MissionConstraints.batteryReserve c);
         WeatherLimitsText
           (WeatherLimits.maxWindSpeed (MissionConstraints.weatherLimits c))] in
      decision <- MageAgentClient.makeStrategicDecision
        (DecisionRequest.mk (Mission.type mission) (WorldState.position state)
           (List.length peopleNearby) (Health.battery (WorldState.health state))
           actionOptions constraints "claude-3-7-sonnet") ;;
      ret (Action.mk (Decision.decision decision) (Decision.reasoning decision)
             (Decision.confidence decision))
  end.

Definition noMissionOrWorldState : ActionResult.t :=
  ActionResult.mk false "No mission or world state" NoData.

Definition inspectArea : Eff World ActionResult.t :=
  m <- gets mission ;;
  ws <- gets worldState ;;
  match m, ws with
  | Some _, Some ws =>
      t <- gets now ;;
      let inspectionData :=
        InspectionData.mk (WorldState.position ws) t
          (List.length (WorldState.trackedObjects ws)) (WorldState.environment ws) in
      GraphRAGClient.storeEpisode (AreaInspectionCompleted inspectionData)
        "inspection" (8 # 10) ;;
      ret (ActionResult.mk true "Area inspection completed"
             (InspectionResult inspectionData))
  | _, _ => ret noMissionOrWorldState
  end.

Definition collectData : Eff World ActionResult.t :=
  m <- gets mission ;;
  ws <- gets worldState ;;
  match m, ws with
  | Some _, Some ws =>
      t <- gets now ;;
      let dataCollected :=
        DataCollected.mk (WorldState.position ws) t (WorldState.environment ws)
          ["temperature"; "humidity"; "imagery"] in
      GraphRAGClient.storeEpisode (DataCollectedAt dataCollected)
        "data_collection" (7 # 10) ;;
      ret (ActionResult.mk true "Data collection completed"
             (CollectionResult dataCollected))
  | _, _ => ret noMissionOrWorldState
  end.

Definition deliverPackage : Eff World ActionResult.t :=
  m <- gets mission ;;
  ws <- gets worldState ;;
  match m, ws with
  | Some _, Some ws =>
      let peopleNearby := filter isPerson (WorldState.trackedObjects ws) in
      if (List.length peopleNearby =? 0)%nat
      then ret (ActionResult.mk false "No recipient detected, aborting delivery" NoData)
      else
        GraphRAGClient.storeEpisode (PackageDeliveredAt (WorldState.position ws))
          "delivery" (9 # 10) ;;
        ret (ActionResult.mk true "Package delivered successfully"
               (DeliveryLocation (WorldState.position ws)))
  | _, _ => ret noMissionOrWorldState
  end.

Definition scanForPeople : Eff World ActionResult.t :=
  m <- gets mission ;;
  ws <- gets worldState ;;
  match m, ws with
  | Some _, Some ws =>
      let peopleDetected := filter isPerson (WorldState.trackedObjects ws) in
      (if (0 <? List.length peopleDetected)%nat
       then GraphRAGClient.storeEpisode
              (PeopleDetectedAt (List.length peopleDetected) (WorldState.position ws))
              "person_detection" 1
       else ret tt) ;;
      ret (ActionResult.mk true
             ("Scan complete: " ++ show_nat (List.length peopleDetected)
                ++ " people detected")
             (PeopleDetected
                (map (fun p => PersonSeen.mk (TrackedObject.id p)
                                 (TrackedObject.position p)
                                 (TrackedObject.confidence p))
                     peopleDetected)))
  | _, _ => ret noMissionOrWorldState
  end.

Definition pauseForSafety : Eff World ActionResult.t :=
  ws <- gets worldState ;;
  match ws with
  | None => ret (ActionResult.mk false "No world state" NoData)
  | Some ws =>
      let peopleNearby := filter isPerson (WorldState.trackedObjects ws) in
      GraphRAGClient.storeEpisode (SafetyPause (List.length peopleNearby))
        "safety_pause" (8 # 10) ;;
      sleep 5000 ;;
      ret (ActionResult.mk true "Safety pause completed" (PauseDuration 5000))
  end.

Definition executeAction (action : Action.t) : Eff World ActionResult.t :=
  GraphRAGClient.storeEpisode
    (ActionExecuted (Action.type action) (Action.reasoning action)) "action" (7 # 10) ;;
  let type := Action.type action in
  if String.eqb type "continue_path"
  then ret (ActionResult.mk true "Continuing on planned path" NoData)
  else if String.eqb type "avoid_obstacle"
  then ret (ActionResult.mk true "Obstacle avoidance maneuver executed" NoData)
  else if String.eqb type "inspect_area" then inspectArea
  else if String.eqb type "collect_data" then collectData
  else if String.eqb type "deliver_package" then deliverPackage
  else if String.eqb type "scan_for_people" then scanForPeople
  else if String.eqb type "return_to_base"
  then ret (ActionResult.mk true "Returning to base" (ActionTag "RTB"))
  else if String.eqb type "pause_for_safety" then pauseForSafety
  else if String.eqb type "abort"
  then ret (ActionResult.mk false "Mission aborted" NoData)
  else ret (ActionResult.mk false "Unknown action" NoData).

Definition observeOutcome (actionResult : ActionResult.t) : Eff World Observation.t :=
  updatedState <- assessSituation ;;
  t <- gets now ;;
  ret (Observation.mk (ActionResult.success actionResult) updatedState t).

Definition updateWorldModel (observation : Observation.t) : Eff World unit :=
  modify (set_worldState (Some (Observation.newState observation))) ;;
  GraphRAGClient.storeEpisode WorldStateUpdated "observation" (5 # 10).

Definition continueEvaluation : Evaluation.t := Evaluation.mk false false None.

(** [value && limit && value > limit]: the value, when the test passes. *)
Definition above (value limit : option Q) : option Q :=
  match value, limit with
  | Some v, Some l =>
      if negb (Qeq_bool v 0) && negb (Qeq_bool l 0) && Qlt_bool l v
      then Some v else None
  | _, _ => None
  end.

(** [value && limit && value < limit]: the value, when the test passes. *)
Definition below (value limit : option Q) : option Q :=
  match value, limit with
  | Some v, Some l =>
      if negb (Qeq_bool v 0) && negb (Qeq_bool l 0) && Qlt_bool v l
      then Some v else None
  | _, _ => None
  end.

(** [evaluateProgress] reads [this.mission] and [this.worldState] and
    touches nothing else; [evaluate] is its body.  The progress ratio it
    computes is only logged. *)
Definition evaluate (m : option Mission.t) (ws : option WorldState.t) : Evaluation.t :=
  match m, ws with
  | Some mission, Some worldState =>
      let peopleNearby :=
        filter isHighPriorityPerson (WorldState.trackedObjects worldState) in
      let c := Mission.constraints mission in
      let safetyDistance := num_or (MissionConstraints.safetyDistance c) 5 in
      if (3 <? List.length peopleNearby)%nat
      then Evaluation.mk true false
             (Some (MultiplePeopleNearby (List.length peopleNearby) safetyDistance))
      else
        let weatherLimits := MissionConstraints.weatherLimits c in
        let env := WorldState.environment worldState in
        match above (Environment.windSpeed env)
                    (WeatherLimits.maxWindSpeed weatherLimits) with
        | Some windSpeed =>
            Evaluation.mk false true (Some (WindExceedsLimits windSpeed))
        | None =>
            match below (Environment.visibility env)
                        (WeatherLimits.minVisibility weatherLimits) with
            | Some visibility =>
                Evaluation.mk false true (Some (VisibilityBelowLimits visibility))
            | None =>
                let batteryReserve :=
                  num_or (MissionConstraints.batteryReserve c) 20 in
                let health := WorldState.health worldState in
                if Qlt_bool (Health.battery health) batteryReserve
                then Evaluation.mk false true
                       (Some (LowBattery (Health.battery health)))
                else
                  if (0 <? List.length (Health.errors health))%nat
                  then Evaluation.mk true false
                         (Some (SystemErrorsDetected (Health.errors health)))
                  else continueEvaluation
            end
        end
  | _, _ => Evaluation.mk false true (Some NoMissionOrWorldState)
  end.

Definition evaluateProgress : Eff World Evaluation.t :=
  m <- gets mission ;;
  ws <- gets worldState ;;
  ret (evaluate m ws).

Definition replanMission (reason : Reason) : Eff World unit :=
  GraphRAGClient.storeEpisode (MissionReplanning reason) "replanning" (8 # 10).

Definition isMissionComplete (w : World) : bool :=
  match mission w with
  | None => false
  | Some m =>
      let allObjectivesComplete :=
        forallb MissionObjective.completed (Mission.objectives m) in
      let missionAborted := MissionStatus_eqb (Mission.status m) ABORTED in
      let missionFailed := MissionStatus_eqb (Mission.status m) FAILED in
      allObjectivesComplete || missionAborted || missionFailed
  end.

(** [mission.status = v]: the mission object is the one [this.mission]
    refers to. *)
Definition assignStatus (v : MissionStatus) : Eff World unit :=
  modify (fun w => set_mission (option_map (Mission.set_status v) (mission w)) w).

Definition finalizeMission : Eff World MissionResult.t :=
  m <- gets mission ;;
  match m with
  | None => throw (MissionError "No active mission to finalize" NoDetails)
  | Some mission =>
      endTime <- gets now ;;
      start <- gets startTime ;;
      iterations <- gets iteration ;;
      let duration := Qmake (endTime - start) 1000 in
      let completedObjectives :=
        List.length (filter MissionObjective.completed (Mission.objectives mission)) in
      let total := List.length (Mission.objectives mission) in
      let result :=
        MissionResult.mk (Mission.id mission) (Mission.status mission)
          completedObjectives total duration 0 0
          ["Completed " ++ show_nat completedObjectives ++ "/" ++ show_nat total
             ++ " objectives";
           "Took " ++ show_nat iterations ++ " iterations";
           "Safety-first approach maintained throughout mission"]
          [] in
      GraphRAGClient.storeMissionResult (Mission.id mission) result ;;
      (if MissionStatus_eqb (MissionResult.status result) COMPLETED
       then GraphRAGClient.storePattern (Mission.type mission) iterations (9 # 10)
              ["mission"; "success"; "civilian"; MissionType_name (Mission.type mission)]
       else ret tt) ;;
      ret result
  end.

(** One pass through the body of the [while] loop; the result tells
    whether the pass ended in [break]. *)
Definition iterate : Eff World bool :=
  modify (fun w => set_iteration (S (iteration w)) w) ;;
  state <- assessSituation ;;
  action <- planNextAction state ;;
  actionResult <- executeAction action ;;
  observation <- observeOutcome actionResult ;;
  updateWorldModel observation ;;
  evaluation <- evaluateProgress ;;
  (if Evaluation.needsReplanning evaluation
   then replanMission (match Evaluation.reason evaluation with
                       | Some r => r
                       | None => ReplanningRequired
                       end)
   else ret tt) ;;
  if Evaluation.shouldAbort evaluation
  then assignStatus ABORTED ;; ret true
  else sleep 100 ;; ret false.

Definition loopGuard (w : World) : bool :=
  (iteration w <? maxIterations)%nat && negb (isMissionComplete w).

(** [while (this.iteration < this.maxIterations && !this.isMissionComplete())].
    Each pass adds one to [iteration], so [maxIterations - iteration] passes
    of fuel are never used up while the guard still holds
    (see [reactLoop_enough_fuel]). *)
Fixpoint reactLoop (fuel : nat) : Eff World unit :=
  fun w =>
    if loopGuard w
    then match fuel with
         | O => (Returned tt, w)
         | S fuel' =>
             (stop <- iterate ;; if (stop : bool) then ret tt else reactLoop fuel') w
         end
    else (Returned tt, w).

Definition executeMission (mission : Mission.t) : Eff World MissionResult.t :=
  modify (set_mission (Some mission)) ;;
  modify (set_iteration 0) ;;
  t <- gets now ;;
  modify (set_startTime t) ;;
  GraphRAGClient.storeEpisode (MissionStarted (Mission.name mission) (Mission.type mission))
    "mission_start" (9 # 10) ;;
  tryCatch
    (reactLoop maxIterations ;; finalizeMission)
    (fun error =>
       assignStatus FAILED ;;
       iterations <- gets iteration ;;
       throw (MissionError ("Mission execution failed: " ++ exn_message error)
                (MissionDetails (Mission.id mission) iterations))).

End MissionController.

(** * Vocabulary of the statements *)

Section ClientVocabulary.
Context {B T : Type}.
Import BaseClient.
Let Sys : Type := BaseClient.Sys B T.

(** A reply the retry loop retries: a rejection that is not a client error. *)
Definition retryable (r : Reply T * Z) : bool :=
  match fst r with
  | Fulfilled _ => false
  | Rejected error => negb (isClientError error)
  end.

(** The state right after a request went out and [latency] passed. *)
Definition afterSend (req : Request B) (latency : Z) (s : Sys) : Sys :=
  mkSys (time s + latency) (BaseClient.slept s)
    (mkClient (serviceName (self s)) (retryConfig (self s)) (circuitBreaker (self s))
       (wire (self s)) (req :: sent (self s)) (transitions (self s))).

(** The reply the collaborator gives to the next transport attempt. *)
Definition nextReply (s : Sys) : Reply T * Z :=
  wire (self s) (List.length (sent (self s))).

(** The delays of a run of retryable failures, first one first: after
    attempt [attempt], [attempt + 1], ... *)
Definition delaysFrom (cfg : RetryConfig) (attempt count : nat) : list Z :=
  map (retryDelay cfg) (seq attempt count).

(** The breaker lets a call starting now through. *)
Definition admits (s : Sys) : bool :=
  match state (circuitBreaker (self s)) with
  | OPEN => negb (time s - lastFailureTime (circuitBreaker (self s)) <? RESET_TIMEOUT)%Z
  | _ => true
  end.

(** The four transitions of the three-state breaker. *)
Definition specTransition (a b : BreakerState) : bool :=
  match a, b with
  | CLOSED, OPEN | OPEN, HALF_OPEN | HALF_OPEN, CLOSED | HALF_OPEN, OPEN => true
  | _, _ => false
  end.

(** The transitions the code makes: the four above and OPEN to CLOSED. *)
Definition codeTransition (a b : BreakerState) : bool :=
  specTransition a b ||
  match a, b with
  | OPEN, CLOSED => true
  | _, _ => false
  end.

(** Every change of value in a log of assignments (latest first) is an
    allowed transition. *)
Fixpoint follows (allowed : BreakerState -> BreakerState -> bool)
    (log : list BreakerState) : bool :=
  match log with
  | newer :: rest =>
      match rest with
      | older :: _ => (BreakerState_eqb older newer || allowed older newer)
                      && follows allowed rest
      | [] => true
      end
  | [] => true
  end.

(** A call made [elapsed] ms after the previous one returned. *)
Record Call : Type := mkCall {
  elapsed : Z;
  retries : option nat;
  request : Request B
}.

Definition pass (ms : Z) (s : Sys) : Sys :=
  mkSys (time s + ms) (BaseClient.slept s) (self s).

Fixpoint runCalls (calls : list Call) (s : Sys) : Sys :=
  match calls with
  | [] => s
  | c :: rest =>
      runCalls rest (snd (executeWithRetry (retries c) (request c) (pass (elapsed c) s)))
  end.

(** The log agrees with the breaker and only shows transitions of the code. *)
Definition traced (s : Sys) : Prop :=
  follows codeTransition (transitions (self s)) = true /\
  hd_error (transitions (self s)) = Some (state (circuitBreaker (self s))).

(** A retryable failure recorded when the clock shows [t]. *)
Definition failureAt (t : Z) (s : Sys) : Sys :=
  snd (incrementCircuitBreakerFailure (mkSys t (BaseClient.slept s) (self s))).

(** The call put at least one request on the wire. *)
Definition letThrough (retries : option nat) (req : Request B) (s : Sys) : bool :=
  (List.length (sent (self s))
   <? List.length (sent (self (snd (executeWithRetry retries req s)))))%nat.

End ClientVocabulary.

(** ** Concrete clients *)

Definition serverError : BaseClient.Reply unit :=
  BaseClient.Rejected
    (BaseClient.AxiosResponse 500 None None "Request failed with status code 500").

Definition notFound : BaseClient.Reply unit :=
  BaseClient.Rejected
    (BaseClient.AxiosResponse 404 None None "Request failed with status code 404").

(** A collaborator that answers from a script, each answer after 10 ms,
    and times out once the script is over. *)
Definition scripted {T} (answers : list (BaseClient.Reply T))
    : nat -> BaseClient.Reply T * Z :=
  fun n =>
    (nth n answers
       (BaseClient.Rejected (BaseClient.AxiosNoResponse "timeout of 30000ms exceeded")),
     10).

Definition ping : BaseClient.Request unit :=
  BaseClient.mkRequest "POST" "/api/memory/episodes" (Some tt).

Definition callAfter (ms : Z) : @Call unit := mkCall ms None ping.

Definition freshSys (answers : list (BaseClient.Reply unit)) : BaseClient.Sys unit unit :=
  BaseClient.mkSys 0 [] (BaseClient.new "GraphRAG" None (scripted answers)).

(** Five answers 500 and then a success, over two calls. *)
Definition closedAgain : BaseClient.Sys unit unit :=
  runCalls [callAfter 0; callAfter 0]
    (freshSys [serverError; serverError; serverError; serverError; serverError;
               BaseClient.Fulfilled tt]).

(** Six answers 500 over two calls, then 30 s of waiting, then a call
    answered 404. *)
Definition reopened : BaseClient.Sys unit unit :=
  runCalls [callAfter 0; callAfter 0]
    (freshSys [serverError; serverError; serverError; serverError; serverError;
               serverError; notFound; notFound]).

Definition waited : BaseClient.Sys unit unit := pass 30000 reopened.

Definition probed : BaseClient.Sys unit unit :=
  snd (BaseClient.executeWithRetry None ping waited).

(** ** What a computation leaves alone *)

Definition preserves {X A : Type} (f : World -> X) (m : Eff World A) : Prop :=
  forall w, f (snd (m w)) = f w.

(** A view of the world that the collaborators, the clock and the sleep
    log have no part in. *)
Definition controllerView {X : Type} (f : World -> X) : Prop :=
  forall w t sl v g r,
    f (mkWorld t sl v g r (mission w) (worldState w) (iteration w) (startTime w)) = f w.

(** A view that only the knowledge-store client, the clock and the sleep
    log have no part in. *)
Definition storeView {X : Type} (f : World -> X) : Prop :=
  forall w t sl r,
    f (mkWorld t sl (videoAgent w) (mageAgent w) r (mission w) (worldState w)
         (iteration w) (startTime w)) = f w.

(** Views that do not look at the stored world state either. *)
Definition ignoresWorldState {X : Type} (f : World -> X) : Prop :=
  forall v w, f (set_worldState v w) = f w.

Section TrackingVocabulary.
Import MissionController.

(** How a computation relates the mission object before and after. *)
Definition tracks {A : Type}
    (R : option Mission.t -> Outcome A -> option Mission.t -> Prop)
    (m : Eff World A) : Prop :=
  forall w, R (mission w) (fst (m w)) (mission (snd (m w))).

(** A pass of the loop leaves the mission object alone, except that a
    pass ending in [break] has set its status to ABORTED. *)
Definition passRelation (M : option Mission.t) (r : Outcome bool) (M' : option Mission.t)
    : Prop :=
  match r with
  | Returned true => M' = option_map (Mission.set_status ABORTED) M
  | _ => M' = M
  end.

End TrackingVocabulary.

Section OutcomeVocabulary.
Import MissionController.

(** The result [finalizeMission] builds, from the world it is called in. *)
Definition resultOf (m : Mission.t) (w : World) : MissionResult.t :=
  let completedObjectives :=
    List.length (filter MissionObjective.completed (Mission.objectives m)) in
  let total := List.length (Mission.objectives m) in
  MissionResult.mk (Mission.id m) (Mission.status m) completedObjectives total
    (Qmake (now w - startTime w) 1000) 0 0
    ["Completed " ++ show_nat completedObjectives ++ "/" ++ show_nat total
       ++ " objectives";
     "Took " ++ show_nat (iteration w) ++ " iterations";
     "Safety-first approach maintained throughout mission"]
    [].

(** The world in which the mission-start episode is written. *)
Definition started (m : Mission.t) (w : World) : World :=
  set_startTime (now w) (set_iteration 0 (set_mission (Some m) w)).

(** What the [catch] block of [executeMission] makes of an error. *)
Definition failedWith (m : Mission.t) (e : Exn) (w : World)
    : Outcome MissionResult.t * World :=
  (Threw (MissionError ("Mission execution failed: " ++ exn_message e)
            (MissionDetails (Mission.id m) (iteration w))),
   set_mission (option_map (Mission.set_status FAILED) (mission w)) w).

End OutcomeVocabulary.

Section EvaluatorVocabulary.
Import MissionController.

(** The evaluation rules, one by one: what each decides when it fires. *)
Definition Rule : Type := Mission.t -> WorldState.t -> option Evaluation.t.

Definition highPriorityPeople (ws : WorldState.t) : nat :=
  List.length (filter isHighPriorityPerson (WorldState.trackedObjects ws)).

Definition reserveOf (m : Mission.t) : Q :=
  num_or (MissionConstraints.batteryReserve (Mission.constraints m)) 20.

Definition replan (reason : Reason) : Evaluation.t :=
  Evaluation.mk true false (Some reason).

Definition abort (reason : Reason) : Evaluation.t :=
  Evaluation.mk false true (Some reason).

Definition crowdingRule : Rule := fun m ws =>
  if (3 <? highPriorityPeople ws)%nat
  then Some (replan (MultiplePeopleNearby (highPriorityPeople ws)
                       (num_or (MissionConstraints.safetyDistance (Mission.constraints m)) 5)))
  else None.

Definition windRule : Rule := fun m ws =>
  option_map (fun v => abort (WindExceedsLimits v))
    (above (Environment.windSpeed (WorldState.environment ws))
           (WeatherLimits.maxWindSpeed
              (MissionConstraints.weatherLimits (Mission.constraints m)))).

Definition visibilityRule : Rule := fun m ws =>
  option_map (fun v => abort (VisibilityBelowLimits v))
    (below (Environment.visibility (WorldState.environment ws))
           (WeatherLimits.minVisibility
              (MissionConstraints.weatherLimits (Mission.constraints m)))).

Definition batteryRule : Rule := fun m ws =>
  if Qlt_bool (Health.battery (WorldState.health ws)) (reserveOf m)
  then Some (abort (LowBattery (Health.battery (WorldState.health ws))))
  else None.

Definition systemErrorsRule : Rule := fun m ws =>
  match Health.errors (WorldState.health ws) with
  | [] => None
  | errors => Some (replan (SystemErrorsDetected errors))
  end.

(** The first rule that fires decides; when none does, continue. *)
Fixpoint firstMatch (rules : list Rule) (m : Mission.t) (ws : WorldState.t)
    : Evaluation.t :=
  match rules with
  | [] => continueEvaluation
  | rule :: rest =>
      match rule m ws with
      | Some decision => decision
      | None => firstMatch rest m ws
      end
  end.

Definition precedence : list Rule :=
  [crowdingRule; windRule; visibilityRule; batteryRule; systemErrorsRule].

End EvaluatorVocabulary.

(** ** Concrete worlds *)

Definition always {T} (answer : BaseClient.Reply T) : nat -> BaseClient.Reply T * Z :=
  fun _ => (answer, 10).

Definition detection (category : string) : Detection.t :=
  Detection.mk None category category (9 # 10).

Definition clearFrame : VideoProcessingResponse.t :=
  VideoProcessingResponse.mk "job-1" (Some [detection "vehicle"]) 12.

Definition keepGoing : Decision.t := Decision.mk "continue_path" "path is clear" (9 # 10).

(** A world with perception and reasoning up; [store] is the knowledge
    store. *)
Definition calm (store : nat -> BaseClient.Reply unit * Z) : World :=
  mkWorld 0 []
    (BaseClient.new "VideoAgent" None (always (BaseClient.Fulfilled clearFrame)))
    (BaseClient.new "MageAgent" None (always (BaseClient.Fulfilled keepGoing)))
    (BaseClient.new "GraphRAG" None store)
    None None 0 0.

Definition storeUp : nat -> BaseClient.Reply unit * Z := always (BaseClient.Fulfilled tt).

(** The knowledge store takes the mission-start episode and then answers
    500 three times. *)
Definition storeFlaky : nat -> BaseClient.Reply unit * Z :=
  scripted [BaseClient.Fulfilled tt; serverError; serverError; serverError].

Definition limits : MissionConstraints.t :=
  MissionConstraints.mk (Some 120%Q) 20 (WeatherLimits.mk (Some 10%Q) (Some 100%Q) None) 5.

Definition patrol : Mission.t :=
  Mission.mk "m1" "perimeter" PATROL IN_PROGRESS AUTONOMOUS
    [MissionObjective.mk "o1" PRIMARY "walk the perimeter" false] limits.

Definition doneMission : Mission.t :=
  Mission.mk "m2" "survey" MAPPING IN_PROGRESS AUTONOMOUS
    [MissionObjective.mk "o1" PRIMARY "map the field" true] limits.

Definition walk : Action.t := Action.mk "continue_path" "path is clear" (9 # 10).

Definition person (n : string) : TrackedObject.t :=
  TrackedObject.mk (GivenId n) (Position3D.mk 0 0 0 0) PERSON (9 # 10) HIGH 0 0 []
    "person" "person".

(** Wind 15 m/s against a limit of 10 and battery 10 % against a reserve
    of 20, with [people] in view. *)
Definition storm (people : list TrackedObject.t) : WorldState.t :=
  WorldState.mk 0 (Position3D.mk 0 0 0 0) (Velocity3D.mk 0 0 0 0 0) (0%Q, 0%Q, 0%Q)
    [] people [] (Health.mk 10 25 [])
    (Environment.mk (Some 15%Q) (Some 20%Q) (Some 60%Q) (Some 10000%Q)).

Definition crowd : list TrackedObject.t := [person "a"; person "b"; person "c"; person "d"].

Definition atDropOff : World :=
  set_worldState (Some (MissionController.buildWorldState 0 0 [detection "vehicle"]))
    (set_mission (Some patrol) (calm storeUp)).

(** A new client after two calls that timed out three times each: the
    breaker is OPEN. *)
Definition opened : BaseClient.Sys unit unit :=
  runCalls [callAfter 0; callAfter 0] (freshSys []).

Definition doneResult : MissionResult.t :=
  resultOf doneMission
    (snd (GraphRAGClient.storeEpisode (MissionStarted "survey" MAPPING) "mission_start"
            (9 # 10) (started doneMission (calm storeUp)))).

(** * Further parts of the program *)

(** ** shared/src/constants: the mission status machine *)


(** ** api/src/server.ts *)

Module Server.

Definition determineSafetyPriority (category : string) : Priority :=
  let categoryLower := toLowerCase category in
  if String.eqb categoryLower "person" then HIGH
  else if String.eqb categoryLower "vehicle" || String.eqb categoryLower "bicycle"
  then HIGH
  else if String.eqb categoryLower "animal" then MEDIUM
  else LOW.







End Server.

(** ** MageAgentClient: asynchronous tasks *)

Inductive TaskStatus : Type := pending | in_progress | completed | failed.

Module TaskResponse.
Record t : Type := mk {
  taskId : string;
  status : TaskStatus;
  result : option string;
  error : option string
}.
End TaskResponse.

(** How [waitForTask] ends: with the task, with what [getTask] raised, or
    with the plain [Error] of the timeout, whose message names the task
    and the timeout. *)
Inductive Waited : Type :=
| TaskResolved (task : TaskResponse.t)
| TaskRejected (error : Exn)
| TaskTimeout (taskId : string) (timeoutMs : Z).

Module MageAgentTasks.

Section Instance.
Context {B : Type}.

Definition getTask (taskId : string)
    : Eff (BaseClient.Sys B TaskResponse.t) TaskResponse.t :=
  tryCatch (BaseClient.get ("/api/tasks/" ++ taskId)) (fun error => throw error).

(** [task.status === 'completed' || task.status === 'failed'] *)
Definition isSettled (task : TaskResponse.t) : bool :=
  match TaskResponse.status task with
  | completed | failed => true
  | _ => false
  end.

(** [while (Date.now() - startTime < timeoutMs)]: a round polls once and,
    when the task is not settled, waits a second.  [None] is the loop out
    of fuel (see [waitForTask_ends]). *)
Fixpoint waitLoop (fuel : nat) (taskId : string) (timeoutMs startTime : Z)
    (s : BaseClient.Sys B TaskResponse.t)
    : option Waited * BaseClient.Sys B TaskResponse.t :=
  if (BaseClient.time s - startTime <? timeoutMs)%Z
  then match fuel with
       | O => (None, s)
       | S fuel' =>
           match getTask taskId s with
           | (Returned task, s1) =>
               if isSettled task
               then (Some (TaskResolved task), s1)
               else waitLoop fuel' taskId timeoutMs startTime
                      (snd (BaseClient.sleep 1000 s1))
           | (Threw error, s1) => (Some (TaskRejected error), s1)
           end
       end
  else (Some (TaskTimeout taskId timeoutMs), s).

Definition waitForTask (fuel : nat) (taskId : string) (timeoutMs : option Z)
    (s : BaseClient.Sys B TaskResponse.t)
    : option Waited * BaseClient.Sys B TaskResponse.t :=
  waitLoop fuel taskId (match timeoutMs with Some t => t | None => 60000 end)
    (BaseClient.time s) s.

End Instance.

End MageAgentTasks.

(** ** Vocabulary of the further properties *)


Section ClientHistoryVocabulary.
Context {B T : Type}.
Import BaseClient.

(** The answers the collaborator has given so far, oldest first. *)
Definition replies (s : BaseClient.Sys B T) : list (Reply T) :=
  map (fun k => fst (wire (self s) k)) (seq 0 (List.length (sent (self s)))).

(** What the failure counter should show after an answer: a fulfilled
    answer clears it, a retryable failure adds one, a client error leaves
    it. *)
Definition countReply (count : nat) (r : Reply T) : nat :=
  match r with
  | Fulfilled _ => 0%nat
  | Rejected error => if isClientError error then count else S count
  end.

Definition tally (history : list (Reply T)) : nat := fold_left countReply history 0%nat.

(** The breaker is CLOSED exactly when the counter is below the threshold. *)
Definition counted (s : BaseClient.Sys B T) : Prop :=
  match state (circuitBreaker (self s)) with
  | CLOSED => (failures (circuitBreaker (self s)) < THRESHOLD)%nat
  | _ => (THRESHOLD <= failures (circuitBreaker (self s)))%nat
  end.


(** The failure counter agrees with the answers given so far. *)
Definition tallied (s : BaseClient.Sys B T) : Prop :=
  failures (circuitBreaker (self s)) = tally (replies s).

End ClientHistoryVocabulary.


(** ** Vocabulary of the evaluation *)

(** The reasons the evaluator gives for replanning. *)
Definition isReplanReason (reason : Reason) : bool :=
  match reason with
  | MultiplePeopleNearby _ _ | SystemErrorsDetected _ => true
  | _ => false
  end.

(** ** Concrete runs *)

(** The world the loop of the patrol mission ends in, with every
    collaborator up, and the result built from it. *)
Definition patrolEnd : World :=
  snd (MissionController.reactLoop MissionController.maxIterations
         (snd (GraphRAGClient.storeEpisode (MissionStarted "perimeter" PATROL)
                 "mission_start" (9 # 10) (started patrol (calm storeUp))))).

Definition patrolResult : MissionResult.t := resultOf patrol patrolEnd.

(** ** Vocabulary of the knowledge-store writes *)

(** The pattern writes among the requests sent to the knowledge store. *)
Definition isPatternWrite (req : BaseClient.Request MemoryBody) : bool :=
  match BaseClient.body req with
  | Some (PatternBody _ _ _ _) => true
  | _ => false
  end.

Definition patternWrites (w : World) : list (BaseClient.Request MemoryBody) :=
  filter isPatternWrite (BaseClient.sent (graphRAG w)).

(** ** Vocabulary of the polling loop *)

(** The collaborator answers in no negative time and the configured
    delays are not negative. *)
Definition punctual {B T : Type} (s : BaseClient.Sys B T) : Prop :=
  (forall k, 0 <= snd (BaseClient.wire (BaseClient.self s) k)) /\
  0 <= BaseClient.delayMs (BaseClient.retryConfig (BaseClient.self s)) /\
  0 <= BaseClient.backoffMultiplier (BaseClient.retryConfig (BaseClient.self s)).

(** The request [getTask] sends. *)
Definition taskRequest {B : Type} (taskId : string) : BaseClient.Request B :=
  BaseClient.mkRequest "GET" ("/api/tasks/" ++ taskId) None.

(** A task service that reports the task as pending twice and then as
    completed. *)
Definition job (status : TaskStatus) : TaskResponse.t :=
  TaskResponse.mk "t1" status None None.

Definition taskService : BaseClient.Sys unit TaskResponse.t :=
  BaseClient.mkSys 0 []
    (BaseClient.new "MageAgent" None
       (scripted [BaseClient.Fulfilled (job pending); BaseClient.Fulfilled (job in_progress);
                  BaseClient.Fulfilled (job completed)])).

(** The patrol mission, handed over as already aborted. *)
Definition abortedPatrol : Mission.t := Mission.set_status ABORTED patrol.

(** * Properties of the resilient client *)

Section BaseClientFacts.
Context {B T : Type}.
Import BaseClient.
Let Sys : Type := BaseClient.Sys B T.

Lemma transport_rejected (req : Request B) (s : Sys) error latency :
  nextReply s = (Rejected error, latency) ->
  transport req s = (Rejected error, afterSend req latency s).
Proof.
  unfold nextReply, transport, afterSend. intros ->. reflexivity.
Qed.

Lemma transport_fulfilled (req : Request B) (s : Sys) data latency :
  nextReply s = (Fulfilled data, latency) ->
  transport req s =
    (Fulfilled data, snd (resetCircuitBreaker (afterSend req latency s))).
Proof.
  unfold nextReply, transport, afterSend. intros ->. reflexivity.
Qed.

(** Parts of the state the breaker bookkeeping leaves alone. *)
Lemma increment_frame (s : Sys) :
  let s' := snd (incrementCircuitBreakerFailure s) in
  fst (incrementCircuitBreakerFailure s) = Returned tt /\
  time s' = time s /\ BaseClient.slept s' = BaseClient.slept s /\
  wire (self s') = wire (self s) /\ sent (self s') = sent (self s) /\
  retryConfig (self s') = retryConfig (self s) /\
  serviceName (self s') = serviceName (self s).
Proof.
  unfold incrementCircuitBreakerFailure.
  destruct (THRESHOLD <=? _)%nat; simpl; repeat split; reflexivity.
Qed.

Lemma increment_breaker (s : Sys) :
  let cb := circuitBreaker (self s) in
  let cb' := circuitBreaker (self (snd (incrementCircuitBreakerFailure s))) in
  failures cb' = S (failures cb) /\
  lastFailureTime cb' = time s /\
  state cb' = if (4 <=? failures cb)%nat then OPEN else state cb.
Proof.
  unfold incrementCircuitBreakerFailure, THRESHOLD. simpl.
  destruct (failures (circuitBreaker (self s))) as [|[|[|[|n]]]]; simpl; auto.
Qed.

Lemma attempts_all_fail (req : Request B) :
  forall (remaining attempt maxAttempts : nat) (lastError : option Failure) (s : Sys),
    (attempt + remaining = S maxAttempts)%nat ->
    (1 <= remaining)%nat ->
    (forall k, (k < remaining)%nat ->
       retryable (wire (self s) (List.length (sent (self s)) + k)) = true) ->
    exists e s',
      attempts remaining attempt maxAttempts req lastError s = (Threw e, s') /\
      BaseClient.slept s' =
        (rev (delaysFrom (retryConfig (self s)) attempt (remaining - 1))
           ++ BaseClient.slept s)%list /\
      List.length (sent (self s')) = (List.length (sent (self s)) + remaining)%nat /\
      failures (circuitBreaker (self s')) =
        (failures (circuitBreaker (self s)) + remaining)%nat /\
      lastFailureTime (circuitBreaker (self s')) = time s' /\
      ((4 <= failures (circuitBreaker (self s)))%nat ->
       state (circuitBreaker (self s')) = OPEN).
Proof.
  induction remaining as [|remaining IH];
    intros attempt maxAttempts lastError s Hsum Hpos Hfail.
  - lia.
  - cbn [attempts].
    pose proof (Hfail 0%nat ltac:(lia)) as H0.
    rewrite Nat.add_0_r in H0. unfold retryable in H0.
    destruct (wire (self s) (List.length (sent (self s)))) as [reply latency] eqn:Hw.
    simpl in H0. destruct reply as [data|error]; [discriminate|].
    rewrite (transport_rejected req s error latency Hw).
    apply negb_true_iff in H0. rewrite H0.
    unfold bind at 1.
    pose proof (increment_frame (afterSend req latency s)) as Hfr.
    pose proof (increment_breaker (afterSend req latency s)) as Hbr.
    destruct (incrementCircuitBreakerFailure (afterSend req latency s)) as [r1 s1] eqn:Hinc.
    simpl in Hfr. destruct Hfr as (-> & Htime & Hslept & Hwire & Hsent & Hcfg & Hname).
    cbn in Hbr. destruct Hbr as (Hfl & Hlast & Hstate).
    destruct remaining as [|remaining].
    + (* the final attempt: no delay follows *)
      assert (attempt = maxAttempts) by lia. subst attempt.
      rewrite Nat.ltb_irrefl. unfold bind, ret. cbn [attempts]. unfold throw.
      eexists. eexists. split; [reflexivity|]. split; [|split; [|split; [|split]]].
      * cbn. rewrite Hslept. reflexivity.
      * rewrite Hsent. cbn. lia.
      * rewrite Hfl. lia.
      * rewrite Hlast, Htime. reflexivity.
      * intros H4. rewrite Hstate.
        destruct (failures (circuitBreaker (self s))) as [|[|[|[|m]]]]; (reflexivity || lia).
    + assert (Hlt : (attempt <? maxAttempts)%nat = true) by (apply Nat.ltb_lt; lia).
      rewrite Hlt. unfold bind at 1. unfold sleep, modify.
      set (s2 := mkSys (time s1 + retryDelay (retryConfig (self (afterSend req latency s))) attempt)
                   (retryDelay (retryConfig (self (afterSend req latency s))) attempt
                      :: BaseClient.slept s1) (self s1)).
      destruct (IH (S attempt) maxAttempts (Some error) s2)
        as (e & s' & Hrun & Hsl & Hlen & Hfl' & Hlast' & Hstate').
      * lia.
      * lia.
      * intros k Hk. subst s2. cbn [self]. rewrite Hwire, Hsent. cbn [afterSend self wire sent List.length].
        specialize (Hfail (S k) ltac:(lia)).
        replace (S (List.length (sent (self s))) + k)%nat
          with (List.length (sent (self s)) + S k)%nat by lia.
        exact Hfail.
      * exists e, s'. split; [exact Hrun|]. split; [|split; [|split; [|split]]].
        -- rewrite Hsl. subst s2. cbn [self BaseClient.slept]. rewrite Hcfg, Hslept.
           cbn [afterSend self retryConfig BaseClient.slept].
           replace (S (S remaining) - 1)%nat with (S remaining) by lia.
           replace (S remaining - 1)%nat with remaining by lia.
           unfold delaysFrom. cbn [seq map rev].
           rewrite <- app_assoc. reflexivity.
        -- rewrite Hlen. subst s2. cbn [self]. rewrite Hsent. cbn. lia.
        -- rewrite Hfl'. subst s2. cbn [self]. rewrite Hfl. lia.
        -- exact Hlast'.
        -- intros H4. apply Hstate'. subst s2. cbn [self]. rewrite Hfl. lia.
Qed.

Lemma check_admits (s : Sys) :
  admits s = true ->
  exists s1, checkCircuitBreaker s = (Returned tt, s1) /\
    time s1 = time s /\ BaseClient.slept s1 = BaseClient.slept s /\
    wire (self s1) = wire (self s) /\ sent (self s1) = sent (self s) /\
    retryConfig (self s1) = retryConfig (self s) /\
    serviceName (self s1) = serviceName (self s) /\
    failures (circuitBreaker (self s1)) = failures (circuitBreaker (self s)) /\
    lastFailureTime (circuitBreaker (self s1)) = lastFailureTime (circuitBreaker (self s)) /\
    state (circuitBreaker (self s1)) =
      match state (circuitBreaker (self s)) with OPEN => HALF_OPEN | st => st end.
Proof.
  unfold admits, checkCircuitBreaker. intros H.
  destruct (state (circuitBreaker (self s))) eqn:Hst.
  - exists s. rewrite Hst. repeat split; reflexivity.
  - apply negb_true_iff in H. rewrite H. eexists. split; [reflexivity|].
    cbn. repeat split; reflexivity.
  - exists s. rewrite Hst. repeat split; reflexivity.
Qed.

(** C7. With [maxAttempts = n], a call whose [n] transport attempts all
    fail retryably sleeps exactly [n - 1] times: after attempt [k] (before
    attempt [k + 1]) for [delayMs * backoffMultiplier ^ (k - 1)], and not
    after the last attempt.  For the configuration (3, 1000 ms, 2) the
    delays are 1000 ms then 2000 ms. *)
Theorem retry_delay_sequence (req : Request B) (s : Sys) :
  let cfg := retryConfig (self s) in
  let n := maxAttempts cfg in
  (1 <= n)%nat ->
  admits s = true ->
  (forall k, (k < n)%nat ->
     retryable (wire (self s) (List.length (sent (self s)) + k)) = true) ->
  exists e s',
    executeWithRetry None req s = (Threw e, s') /\
    List.length (sent (self s')) = (List.length (sent (self s)) + n)%nat /\
    rev (firstn (n - 1) (BaseClient.slept s')) =
      map (fun k => delayMs cfg * backoffMultiplier cfg ^ (Z.of_nat k - 1))
          (seq 1 (n - 1)) /\
    skipn (n - 1) (BaseClient.slept s') = BaseClient.slept s /\
    (cfg = mkRetry 3 1000 2 ->
     BaseClient.slept s' = (2000 :: 1000 :: BaseClient.slept s)%list).
Proof.
  intros cfg n Hn Hadm Hfail.
  destruct (check_admits s Hadm)
    as (s1 & Hchk & Ht & Hsl & Hw & Hsent & Hcfg & Hname & _).
  destruct (attempts_all_fail req n 1 n None s1) as (e & s' & Hrun & Hslept & Hlen & _).
  - lia.
  - exact Hn.
  - intros k Hk. rewrite Hw, Hsent. apply Hfail, Hk.
  - exists e, s'. unfold executeWithRetry. fold cfg. fold n.
    unfold bind. rewrite Hchk. split; [exact Hrun|].
    rewrite Hcfg, Hsl in Hslept. fold cfg in Hslept.
    assert (Hlenrev : List.length (rev (delaysFrom cfg 1 (n - 1))) = (n - 1)%nat).
    { rewrite length_rev. unfold delaysFrom. rewrite length_map, length_seq. reflexivity. }
    split; [rewrite Hlen, Hsent; reflexivity|].
    split; [|split].
    + rewrite Hslept, firstn_app, Hlenrev, Nat.sub_diag, firstn_O, app_nil_r.
      rewrite <- Hlenrev at 1. rewrite firstn_all, rev_involutive. reflexivity.
    + rewrite Hslept, skipn_app, Hlenrev, Nat.sub_diag, skipn_O.
      rewrite <- Hlenrev at 1. rewrite skipn_all. reflexivity.
    + intros Hc. rewrite Hslept. subst n. rewrite Hc. reflexivity.
Qed.

(** C6. Whatever attempt of the retry loop is about to be made, when the
    collaborator answers it with a 4xx response the loop ends there: the
    transformed error is raised, that one request is the last one sent, no
    delay is slept, and the circuit breaker (counter, time of last failure,
    state) is what it was before the attempt. *)
Theorem client_error_not_retried (req : Request B) (s : Sys)
    (remaining attempt maxAttempts : nat) (lastError : option Failure)
    (status : Z) (dataMessage dataCode : option string) (message : string)
    (latency : Z) :
  400 <= status < 500 ->
  nextReply s = (Rejected (AxiosResponse status dataMessage dataCode message), latency) ->
  let r := attempts (S remaining) attempt maxAttempts req lastError s in
  fst r = Threw (RoboticsError (serviceName (self s) ++ ": " ++ str_or dataMessage message)
                   (str_or dataCode "SERVICE_ERROR") status
                   (ServiceDetails (serviceName (self s)) message)) /\
  sent (self (snd r)) = (req :: sent (self s))%list /\
  BaseClient.slept (snd r) = BaseClient.slept s /\
  circuitBreaker (self (snd r)) = circuitBreaker (self s) /\
  transitions (self (snd r)) = transitions (self s) /\
  time (snd r) = time s + latency.
Proof.
  intros Hst Hw r. subst r. cbn [attempts].
  rewrite (transport_rejected req s _ latency Hw).
  assert (Hc : isClientError (AxiosResponse status dataMessage dataCode message) = true).
  { cbn. apply andb_true_iff. split.
    - apply negb_true_iff, Z.eqb_neq. lia.
    - apply Z.ltb_lt. lia. }
  rewrite Hc. cbn.
  assert (Hz : (status =? 0)%Z = false) by (apply Z.eqb_neq; lia).
  rewrite Hz. repeat split; reflexivity.
Qed.

(** *** The breaker as a state machine *)

Lemma traced_assign (v : BreakerState) (s : Sys) :
  traced s ->
  (BreakerState_eqb (state (circuitBreaker (self s))) v
   || codeTransition (state (circuitBreaker (self s))) v) = true ->
  traced (on_self (assign_state v) s).
Proof.
  intros [Hf Hh] Hok. unfold traced. cbn.
  destruct (transitions (self s)) as [|older rest] eqn:Hlog; [discriminate|].
  cbn in Hh. injection Hh as Hh. subst older.
  split; [|reflexivity].
  rewrite Hok. exact Hf.
Qed.

Lemma traced_frame (s s' : Sys) :
  transitions (self s') = transitions (self s) ->
  state (circuitBreaker (self s')) = state (circuitBreaker (self s)) ->
  traced s -> traced s'.
Proof. unfold traced. intros -> ->. auto. Qed.

Lemma traced_increment (s : Sys) :
  traced s -> traced (snd (incrementCircuitBreakerFailure s)).
Proof.
  intros H. unfold incrementCircuitBreakerFailure.
  destruct (THRESHOLD <=? _)%nat.
  - cbn [snd].
    apply (traced_assign OPEN
             (mkSys (time s) (BaseClient.slept s)
                (set_breaker (mkBreaker (S (failures (circuitBreaker (self s)))) (time s)
                                (state (circuitBreaker (self s)))) (self s)))).
    + eapply traced_frame; [| |exact H]; reflexivity.
    + cbn. destruct (state (circuitBreaker (self s))); reflexivity.
  - cbn [snd]. eapply traced_frame; [| |exact H]; reflexivity.
Qed.

Lemma traced_reset (s : Sys) :
  traced s -> traced (snd (resetCircuitBreaker s)).
Proof.
  intros H. unfold resetCircuitBreaker, modify. cbn [snd].
  apply (traced_assign CLOSED
           (mkSys (time s) (BaseClient.slept s)
              (set_breaker (mkBreaker 0 (lastFailureTime (circuitBreaker (self s)))
                              (state (circuitBreaker (self s)))) (self s)))).
  - eapply traced_frame; [| |exact H]; reflexivity.
  - cbn. destruct (state (circuitBreaker (self s))); reflexivity.
Qed.

Lemma traced_check (s : Sys) :
  traced s -> traced (snd (checkCircuitBreaker s)).
Proof.
  intros H. unfold checkCircuitBreaker.
  destruct (state (circuitBreaker (self s))) eqn:Hst; cbn [snd]; try exact H.
  destruct (_ <? _)%Z; cbn [snd]; [exact H|].
  apply traced_assign; [exact H|]. rewrite Hst. reflexivity.
Qed.

Lemma traced_transport (req : Request B) (s : Sys) :
  traced s -> traced (snd (transport req s)).
Proof.
  intros H. unfold transport.
  destruct (wire (self s) (List.length (sent (self s)))) as [[data|error] latency]; cbn [snd].
  - apply traced_reset. eapply traced_frame; [| |exact H]; reflexivity.
  - eapply traced_frame; [| |exact H]; reflexivity.
Qed.

Lemma traced_attempts (req : Request B) :
  forall remaining attempt maxAttempts lastError (s : Sys),
    traced s -> traced (snd (attempts remaining attempt maxAttempts req lastError s)).
Proof.
  induction remaining as [|remaining IH]; intros attempt maxAttempts lastError s H.
  - exact H.
  - cbn [attempts].
    pose proof (traced_transport req s H) as Ht.
    destruct (transport req s) as [[data|error] s1]; cbn [snd] in *; [exact Ht|].
    destruct (isClientError error); [exact Ht|].
    unfold bind at 1.
    pose proof (traced_increment s1 Ht) as Hi.
    pose proof (increment_frame s1) as Hfr. cbn in Hfr. destruct Hfr as [Hr _].
    destruct (incrementCircuitBreakerFailure s1) as [r2 s2]. cbn in Hr, Hi. subst r2.
    unfold bind at 1.
    destruct (attempt <? maxAttempts)%nat.
    + unfold sleep, modify. apply IH.
      eapply traced_frame; [| |exact Hi]; reflexivity.
    + unfold ret. apply IH. exact Hi.
Qed.

Lemma traced_execute (retries : option nat) (req : Request B) (s : Sys) :
  traced s -> traced (snd (executeWithRetry retries req s)).
Proof.
  intros H. unfold executeWithRetry, bind.
  pose proof (traced_check s H) as Hc.
  destruct (checkCircuitBreaker s) as [[[]|e] s1]; cbn [snd] in *.
  - apply traced_attempts, Hc.
  - exact Hc.
Qed.

Lemma traced_runCalls (calls : list (@Call B)) :
  forall s : Sys, traced s -> traced (runCalls calls s).
Proof.
  induction calls as [|c rest IH]; intros s H; cbn [runCalls]; [exact H|].
  apply IH, traced_execute. eapply traced_frame; [| |exact H]; reflexivity.
Qed.

(** C2, as the code has it.  Whatever calls are made on a new client and
    however the collaborator answers, the breaker state only ever changes
    CLOSED to OPEN, OPEN to HALF_OPEN, HALF_OPEN to CLOSED, HALF_OPEN to
    OPEN, or OPEN to CLOSED; in particular HALF_OPEN is entered from OPEN
    only. *)
Theorem breaker_transitions (serviceName : string) (cfg : option RetryConfig)
    (collaborator : nat -> Reply T * Z) (t0 : Z) (calls : list (@Call B)) :
  follows codeTransition
    (transitions (self (runCalls calls (mkSys t0 [] (new serviceName cfg collaborator)))))
  = true.
Proof.
  apply (traced_runCalls calls). split; reflexivity.
Qed.

Lemma failureAt_breaker (t : Z) (s : Sys) :
  failures (circuitBreaker (self (failureAt t s))) = S (failures (circuitBreaker (self s))) /\
  lastFailureTime (circuitBreaker (self (failureAt t s))) = t /\
  ((4 <= failures (circuitBreaker (self s)))%nat ->
   state (circuitBreaker (self (failureAt t s))) = OPEN).
Proof.
  unfold failureAt.
  pose proof (increment_breaker (mkSys t (BaseClient.slept s) (self s))) as H.
  cbn in H. destruct H as (Hf & Hl & Hs).
  repeat split; auto.
  intros H4. rewrite Hs.
  destruct (failures (circuitBreaker (self s))) as [|[|[|[|m]]]]; (reflexivity || lia).
Qed.

Lemma attempts_success (req : Request B) (s : Sys)
    (remaining attempt maxAttempts : nat) (lastError : option Failure)
    (data : T) (latency : Z) :
  nextReply s = (Fulfilled data, latency) ->
  let r := attempts (S remaining) attempt maxAttempts req lastError s in
  fst r = Returned data /\
  failures (circuitBreaker (self (snd r))) = 0%nat /\
  state (circuitBreaker (self (snd r))) = CLOSED /\
  sent (self (snd r)) = (req :: sent (self s))%list /\
  BaseClient.slept (snd r) = BaseClient.slept s.
Proof.
  intros Hw r. subst r. cbn [attempts].
  rewrite (transport_fulfilled req s data latency Hw).
  cbn. repeat split; reflexivity.
Qed.

(** C5, as the code has it.  Five consecutive retryable failures leave the
    breaker OPEN.  While it is OPEN, a call started less than 30 s after the
    last failure raises the breaker-open error and changes nothing: no
    request is sent.  A call started 30 s or more after the last failure
    puts the breaker in HALF_OPEN and goes on to the transport attempts.
    In HALF_OPEN a fulfilled attempt resets the counter to 0 and closes the
    breaker; a retryable failure opens it again and sets the time of last
    failure to the time of that failure, and a call whose attempts all fail
    retryably ends with the breaker OPEN and the time of last failure at the
    moment the call ends; a 4xx answer leaves it HALF_OPEN, and HALF_OPEN
    lets every later call through. *)
Theorem breaker_window :
  (forall (s : Sys) (t1 t2 t3 t4 t5 : Z),
     let s5 := failureAt t5 (failureAt t4 (failureAt t3 (failureAt t2 (failureAt t1 s)))) in
     state (circuitBreaker (self s5)) = OPEN /\
     lastFailureTime (circuitBreaker (self s5)) = t5 /\
     (5 <= failures (circuitBreaker (self s5)))%nat) /\
  (forall (s : Sys) retries req,
     state (circuitBreaker (self s)) = OPEN ->
     time s - lastFailureTime (circuitBreaker (self s)) < 30000 ->
     executeWithRetry retries req s = (Threw (breakerOpenError (serviceName (self s))), s)) /\
  (forall (s : Sys) retries req,
     state (circuitBreaker (self s)) = OPEN ->
     30000 <= time s - lastFailureTime (circuitBreaker (self s)) ->
     let n := match retries with Some n => n | None => maxAttempts (retryConfig (self s)) end in
     let h := on_self (assign_state HALF_OPEN) s in
     state (circuitBreaker (self h)) = HALF_OPEN /\
     failures (circuitBreaker (self h)) = failures (circuitBreaker (self s)) /\
     executeWithRetry retries req s = attempts n 1 n req None h) /\
  (forall (h : Sys) req remaining attempt maxAttempts lastError data latency,
     state (circuitBreaker (self h)) = HALF_OPEN ->
     nextReply h = (Fulfilled data, latency) ->
     let r := attempts (S remaining) attempt maxAttempts req lastError h in
     fst r = Returned data /\
     failures (circuitBreaker (self (snd r))) = 0%nat /\
     state (circuitBreaker (self (snd r))) = CLOSED) /\
  (forall (h : Sys) req n lastError,
     state (circuitBreaker (self h)) = HALF_OPEN ->
     (5 <= failures (circuitBreaker (self h)))%nat ->
     (1 <= n)%nat ->
     (forall k, (k < n)%nat ->
        retryable (wire (self h) (List.length (sent (self h)) + k)) = true) ->
     exists e s',
       attempts n 1 n req lastError h = (Threw e, s') /\
       state (circuitBreaker (self s')) = OPEN /\
       lastFailureTime (circuitBreaker (self s')) = time s') /\
  (forall (h : Sys) req remaining attempt maxAttempts lastError error latency,
     state (circuitBreaker (self h)) = HALF_OPEN ->
     nextReply h = (Rejected error, latency) ->
     isClientError error = true ->
     let s' := snd (attempts (S remaining) attempt maxAttempts req lastError h) in
     state (circuitBreaker (self s')) = HALF_OPEN /\
     forall ms, admits (pass ms s') = true) /\
  (forall (h : Sys) (t : Z),
     state (circuitBreaker (self h)) = HALF_OPEN ->
     (5 <= failures (circuitBreaker (self h)))%nat ->
     state (circuitBreaker (self (failureAt t h))) = OPEN /\
     lastFailureTime (circuitBreaker (self (failureAt t h))) = t).
Proof.
  split; [|split; [|split; [|split; [|split; [|split]]]]].
  - intros s t1 t2 t3 t4 t5 s5. subst s5.
    pose proof (failureAt_breaker t1 s) as (F1 & _ & _).
    pose proof (failureAt_breaker t2 (failureAt t1 s)) as (F2 & _ & _).
    pose proof (failureAt_breaker t3 (failureAt t2 (failureAt t1 s))) as (F3 & _ & _).
    pose proof (failureAt_breaker t4 (failureAt t3 (failureAt t2 (failureAt t1 s))))
      as (F4 & _ & _).
    pose proof (failureAt_breaker t5
                  (failureAt t4 (failureAt t3 (failureAt t2 (failureAt t1 s)))))
      as (F5 & L5 & O5).
    split; [apply O5; lia|]. split; [exact L5|lia].
  - intros s retries req Hst Hwin. unfold executeWithRetry, bind, checkCircuitBreaker.
    rewrite Hst. unfold RESET_TIMEOUT.
    assert (H : (time s - lastFailureTime (circuitBreaker (self s)) <? 30000)%Z = true)
      by (apply Z.ltb_lt; exact Hwin).
    rewrite H. reflexivity.
  - intros s retries req Hst Hwin n h. subst n h.
    split; [reflexivity|]. split; [reflexivity|].
    unfold executeWithRetry, bind, checkCircuitBreaker.
    rewrite Hst. unfold RESET_TIMEOUT.
    assert (H : (time s - lastFailureTime (circuitBreaker (self s)) <? 30000)%Z = false)
      by (apply Z.ltb_ge; exact Hwin).
    rewrite H. reflexivity.
  - intros h req remaining attempt maxAttempts lastError data latency _ Hw r.
    destruct (attempts_success req h remaining attempt maxAttempts lastError data latency Hw)
      as (H1 & H2 & H3 & _).
    auto.
  - intros h req n lastError _ H5 Hn Hfail.
    destruct (attempts_all_fail req n 1 n lastError h ltac:(lia) Hn Hfail)
      as (e & s' & Hrun & _ & _ & _ & Hlast & Hopen).
    exists e, s'. split; [exact Hrun|]. split; [apply Hopen; lia|exact Hlast].
  - intros h req remaining attempt maxAttempts lastError error latency Hst Hw Hc s'.
    subst s'. cbn [attempts].
    rewrite (transport_rejected req h error latency Hw), Hc. cbn [snd].
    split; [exact Hst|].
    intros ms. unfold admits. cbn. rewrite Hst. reflexivity.
  - intros h t _ H5.
    destruct (failureAt_breaker t h) as (_ & Hl & Ho).
    split; [apply Ho; lia|exact Hl].
Qed.

End BaseClientFacts.

(** * Properties of the mission controller *)

(** ** What a computation leaves alone *)

Lemma controllerView_storeView {X} (f : World -> X) : controllerView f -> storeView f.
Proof. intros H w t sl r. apply H. Qed.

Lemma preserves_ret {X A} (f : World -> X) (a : A) : preserves f (ret a).
Proof. intro w. reflexivity. Qed.

Lemma preserves_throw {X A} (f : World -> X) (e : Exn) : preserves f (@throw World A e).
Proof. intro w. reflexivity. Qed.

Lemma preserves_gets {X A} (f : World -> X) (g : World -> A) : preserves f (gets g).
Proof. intro w. reflexivity. Qed.

Lemma preserves_modify {X} (f : World -> X) (g : World -> World) :
  (forall w, f (g w) = f w) -> preserves f (modify g).
Proof. intros H w. apply H. Qed.

Lemma preserves_bind {X A C} (f : World -> X) (m : Eff World A) (k : A -> Eff World C) :
  preserves f m -> (forall a, preserves f (k a)) -> preserves f (bind m k).
Proof.
  intros Hm Hk w. unfold bind. specialize (Hm w).
  destruct (m w) as [[a|e] w1]; cbn [snd] in *.
  - rewrite Hk. exact Hm.
  - exact Hm.
Qed.

Lemma preserves_tryCatch {X A} (f : World -> X) (m : Eff World A) (h : Exn -> Eff World A) :
  preserves f m -> (forall e, preserves f (h e)) -> preserves f (tryCatch m h).
Proof.
  intros Hm Hh w. unfold tryCatch. specialize (Hm w).
  destruct (m w) as [[a|e] w1]; cbn [snd] in *.
  - exact Hm.
  - rewrite Hh. exact Hm.
Qed.

Lemma preserves_if {X A} (f : World -> X) (b : bool) (m1 m2 : Eff World A) :
  preserves f m1 -> preserves f m2 -> preserves f (if b then m1 else m2).
Proof. destruct b; auto. Qed.

Lemma preserves_viaGraphRAG {X A} (f : World -> X)
    (m : Eff (BaseClient.Sys MemoryBody unit) A) :
  storeView f -> preserves f (viaGraphRAG m).
Proof.
  intros Hf w. unfold viaGraphRAG.
  destruct (m _) as [r s]. cbn [snd]. apply Hf.
Qed.

Lemma preserves_viaVideoAgent {X A} (f : World -> X)
    (m : Eff (BaseClient.Sys VideoProcessingRequest.t VideoProcessingResponse.t) A) :
  controllerView f -> preserves f (viaVideoAgent m).
Proof.
  intros Hf w. unfold viaVideoAgent.
  destruct (m _) as [r s]. cbn [snd]. apply Hf.
Qed.

Lemma preserves_viaMageAgent {X A} (f : World -> X)
    (m : Eff (BaseClient.Sys DecisionRequest.t Decision.t) A) :
  controllerView f -> preserves f (viaMageAgent m).
Proof.
  intros Hf w. unfold viaMageAgent.
  destruct (m _) as [r s]. cbn [snd]. apply Hf.
Qed.

Lemma controllerView_mission : controllerView mission.
Proof. intros w t sl v g r. reflexivity. Qed.

Lemma controllerView_iteration : controllerView iteration.
Proof. intros w t sl v g r. reflexivity. Qed.

Lemma controllerView_worldState : controllerView worldState.
Proof. intros w t sl v g r. reflexivity. Qed.

Lemma controllerView_startTime : controllerView startTime.
Proof. intros w t sl v g r. reflexivity. Qed.

Create HintDb frame discriminated.
#[local] Hint Resolve preserves_ret preserves_throw preserves_gets preserves_bind
  preserves_tryCatch preserves_if preserves_viaGraphRAG preserves_viaVideoAgent
  preserves_viaMageAgent controllerView_mission controllerView_iteration
  controllerView_worldState controllerView_startTime : frame.

Section StoreFrames.
Context {X : Type} (f : World -> X) (Hstore : storeView f).

Lemma preserves_storeEpisode content type importance :
  preserves f (GraphRAGClient.storeEpisode content type importance).
Proof. unfold GraphRAGClient.storeEpisode. auto with frame. Qed.

Lemma preserves_storeMissionResult missionId result :
  preserves f (GraphRAGClient.storeMissionResult missionId result).
Proof.
  unfold GraphRAGClient.storeMissionResult, GraphRAGClient.storeDocument.
  auto with frame.
Qed.

Lemma preserves_storePattern missionType iterations confidence tags :
  preserves f (GraphRAGClient.storePattern missionType iterations confidence tags).
Proof. unfold GraphRAGClient.storePattern. auto with frame. Qed.

End StoreFrames.

Section ControllerFrames.
Import MissionController.
Context {X : Type} (f : World -> X) (Hview : controllerView f).

Lemma preserves_detectObjects imageUrl threshold :
  preserves f (VideoAgentClient.detectObjects imageUrl threshold).
Proof.
  unfold VideoAgentClient.detectObjects, VideoAgentClient.processFrame.
  auto 10 with frame.
Qed.

Lemma preserves_makeStrategicDecision request :
  preserves f (MageAgentClient.makeStrategicDecision request).
Proof. unfold MageAgentClient.makeStrategicDecision. auto with frame. Qed.

Lemma preserves_sleep ms : preserves f (sleep ms).
Proof. unfold sleep. apply preserves_modify. intro w. apply Hview. Qed.

End ControllerFrames.

Ltac frame_step :=
  match goal with
  | |- preserves _ (bind _ _) => apply preserves_bind; [|intro]
  | |- preserves _ (tryCatch _ _) => apply preserves_tryCatch; [|intro]
  | |- preserves _ (ret _) => apply preserves_ret
  | |- preserves _ (throw _) => apply preserves_throw
  | |- preserves _ (gets _) => apply preserves_gets
  | |- preserves _ (GraphRAGClient.storeEpisode _ _ _) => apply preserves_storeEpisode
  | |- preserves _ (GraphRAGClient.storeMissionResult _ _) =>
      apply preserves_storeMissionResult
  | |- preserves _ (GraphRAGClient.storePattern _ _ _ _) => apply preserves_storePattern
  | |- preserves _ (VideoAgentClient.detectObjects _ _) => apply preserves_detectObjects
  | |- preserves _ (MageAgentClient.makeStrategicDecision _) =>
      apply preserves_makeStrategicDecision
  | |- preserves _ (MissionController.sleep _) => apply preserves_sleep
  | |- preserves _ (match ?x with _ => _ end) => destruct x
  | |- preserves _ _ => progress cbv zeta
  end.

Ltac frame := repeat frame_step; try assumption.

Section ControllerSteps.
Import MissionController.
Context {X : Type} (f : World -> X).
Hypothesis Hview : controllerView f.
Hypothesis Hws : ignoresWorldState f.
Let Hstore : storeView f := controllerView_storeView f Hview.

Lemma preserves_set_worldState v : preserves f (modify (set_worldState v)).
Proof. apply preserves_modify. intro w. apply Hws. Qed.

Lemma preserves_assessSituation : preserves f assessSituation.
Proof. unfold assessSituation. frame. apply preserves_set_worldState. Qed.

Lemma preserves_planNextAction state : preserves f (planNextAction state).
Proof. unfold planNextAction. frame. Qed.

Lemma preserves_inspectArea : preserves f inspectArea.
Proof. unfold inspectArea. frame. Qed.

Lemma preserves_collectData : preserves f collectData.
Proof. unfold collectData. frame. Qed.

Lemma preserves_deliverPackage : preserves f deliverPackage.
Proof. unfold deliverPackage. frame. Qed.

Lemma preserves_scanForPeople : preserves f scanForPeople.
Proof. unfold scanForPeople. frame. Qed.

Lemma preserves_pauseForSafety : preserves f pauseForSafety.
Proof. unfold pauseForSafety. frame. Qed.

Lemma preserves_executeAction action : preserves f (executeAction action).
Proof.
  unfold executeAction. frame;
    first [ apply preserves_inspectArea | apply preserves_collectData
          | apply preserves_deliverPackage | apply preserves_scanForPeople
          | apply preserves_pauseForSafety ].
Qed.

Lemma preserves_observeOutcome actionResult : preserves f (observeOutcome actionResult).
Proof. unfold observeOutcome. frame. apply preserves_assessSituation. Qed.

Lemma preserves_updateWorldModel observation : preserves f (updateWorldModel observation).
Proof. unfold updateWorldModel. frame. apply preserves_set_worldState. Qed.

Lemma preserves_evaluateProgress : preserves f evaluateProgress.
Proof. unfold evaluateProgress. frame. Qed.

Lemma preserves_replanMission reason : preserves f (replanMission reason).
Proof. unfold replanMission. frame. Qed.

End ControllerSteps.

Lemma preserves_finalizeMission {X} (f : World -> X) :
  storeView f -> preserves f MissionController.finalizeMission.
Proof. intros Hstore. unfold MissionController.finalizeMission. frame. Qed.

Lemma ignoresWorldState_mission : ignoresWorldState mission.
Proof. intros v w. reflexivity. Qed.

Lemma ignoresWorldState_iteration : ignoresWorldState iteration.
Proof. intros v w. reflexivity. Qed.

Lemma ignoresWorldState_startTime : ignoresWorldState startTime.
Proof. intros v w. reflexivity. Qed.

(** ** The mission status through the loop *)

Section StatusTracking.
Import MissionController.

Lemma tracks_bind {A C : Type} (R : option Mission.t -> Outcome C -> option Mission.t -> Prop)
    (m : Eff World A) (k : A -> Eff World C) :
  preserves mission m ->
  (forall e M, R M (Threw e) M) ->
  (forall a, tracks R (k a)) ->
  tracks R (bind m k).
Proof.
  intros Hm Hthrow Hk w. unfold bind. specialize (Hm w).
  destruct (m w) as [[a|e] w1]; cbn [fst snd] in *.
  - rewrite <- Hm. apply Hk.
  - rewrite Hm. apply Hthrow.
Qed.

Lemma iterate_status : tracks passRelation iterate.
Proof.
  unfold iterate.
  apply tracks_bind;
    [apply preserves_modify; reflexivity | reflexivity | intros _].
  apply tracks_bind;
    [apply preserves_assessSituation;
       [apply controllerView_mission | apply ignoresWorldState_mission]
    | reflexivity | intros state].
  apply tracks_bind;
    [apply preserves_planNextAction, controllerView_mission | reflexivity | intros action].
  apply tracks_bind;
    [apply preserves_executeAction, controllerView_mission | reflexivity
    | intros actionResult].
  apply tracks_bind;
    [apply preserves_observeOutcome;
       [apply controllerView_mission | apply ignoresWorldState_mission]
    | reflexivity | intros observation].
  apply tracks_bind;
    [apply preserves_updateWorldModel;
       [apply controllerView_mission | apply ignoresWorldState_mission]
    | reflexivity | intros _].
  apply tracks_bind;
    [apply preserves_evaluateProgress | reflexivity | intros evaluation].
  apply tracks_bind.
  - destruct (Evaluation.needsReplanning evaluation).
    + apply preserves_replanMission, controllerView_mission.
    + apply preserves_ret.
  - reflexivity.
  - intros _ w. destruct (Evaluation.shouldAbort evaluation); reflexivity.
Qed.

Lemma iterate_iteration (w : World) :
  iteration (snd (iterate w)) = S (iteration w).
Proof.
  unfold iterate.
  unfold bind at 1. unfold modify at 1.
  match goal with
  | |- iteration (snd (?rest ?w1)) = _ =>
      assert (H : preserves iteration rest)
  end.
  { pose proof controllerView_iteration. pose proof ignoresWorldState_iteration.
    frame;
      first [ apply preserves_assessSituation | apply preserves_planNextAction
            | apply preserves_executeAction | apply preserves_observeOutcome
            | apply preserves_updateWorldModel | apply preserves_evaluateProgress
            | apply preserves_replanMission
            | apply preserves_modify; reflexivity ]; assumption. }
  rewrite H. reflexivity.
Qed.

Lemma set_status_same (m : Mission.t) : Mission.set_status (Mission.status m) m = m.
Proof. destruct m; reflexivity. Qed.

Lemma set_status_twice (a b : MissionStatus) (m : Mission.t) :
  Mission.set_status a (Mission.set_status b m) = Mission.set_status a m.
Proof. reflexivity. Qed.

Lemma bind_inv {S A C : Type} (m : Eff S A) (k : A -> Eff S C) (s s' : S) (c : C) :
  bind m k s = (Returned c, s') ->
  exists a s1, m s = (Returned a, s1) /\ k a s1 = (Returned c, s').
Proof.
  unfold bind. destruct (m s) as [[a|e] s1]; intros H.
  - exists a, s1. auto.
  - discriminate H.
Qed.

(** The evaluator reads the constraints of the mission, not its status. *)
Lemma evaluate_ignores_status (v : MissionStatus) (M : option Mission.t)
    (ws : option WorldState.t) :
  evaluate (option_map (Mission.set_status v) M) ws = evaluate M ws.
Proof. destruct M, ws; reflexivity. Qed.

(** A pass ends in [break] only when the evaluator decided to abort. *)
Lemma iterate_break (w w' : World) :
  iterate w = (Returned true, w') ->
  Evaluation.shouldAbort (evaluate (mission w') (worldState w')) = true.
Proof.
  unfold iterate. intros H.
  apply bind_inv in H. destruct H as (? & w1 & _ & H).
  apply bind_inv in H. destruct H as (state & w2 & _ & H).
  apply bind_inv in H. destruct H as (action & w3 & _ & H).
  apply bind_inv in H. destruct H as (actionResult & w4 & _ & H).
  apply bind_inv in H. destruct H as (observation & w5 & _ & H).
  apply bind_inv in H. destruct H as (? & w6 & _ & H).
  apply bind_inv in H. destruct H as (evaluation & w7 & Hev & H).
  apply bind_inv in H. destruct H as (? & w8 & Hre & H).
  unfold evaluateProgress, bind, gets, ret in Hev. injection Hev as <- <-.
  assert (Hm8 : mission w8 = mission w6).
  { destruct (Evaluation.needsReplanning _).
    - pose proof (preserves_replanMission mission controllerView_mission) as P.
      specialize (P (match Evaluation.reason (evaluate (mission w6) (worldState w6)) with
                     | Some r => r
                     | None => ReplanningRequired
                     end) w6).
      rewrite Hre in P. exact P.
    - unfold ret in Hre. assert (w8 = w6) as -> by congruence. reflexivity. }
  assert (Hw8 : worldState w8 = worldState w6).
  { destruct (Evaluation.needsReplanning _).
    - pose proof (preserves_replanMission worldState controllerView_worldState) as P.
      specialize (P (match Evaluation.reason (evaluate (mission w6) (worldState w6)) with
                     | Some r => r
                     | None => ReplanningRequired
                     end) w6).
      rewrite Hre in P. exact P.
    - unfold ret in Hre. assert (w8 = w6) as -> by congruence. reflexivity. }
  destruct (Evaluation.shouldAbort (evaluate (mission w6) (worldState w6))) eqn:Hab.
  - unfold bind, assignStatus, modify, ret in H. injection H as <-.
    cbn [mission worldState set_mission].
    rewrite evaluate_ignores_status, Hm8, Hw8. exact Hab.
  - unfold bind, sleep, modify, ret in H. discriminate H.
Qed.

(** The loop ends with the mission object it started with, or, after a
    pass in which the evaluator decided to abort, with that object in
    status ABORTED.  When it raises the mission object is the one it
    started with. *)
Lemma reactLoop_status (m0 : Mission.t) :
  forall fuel w,
    mission w = Some m0 ->
    match fst (reactLoop fuel w) with
    | Returned _ =>
        mission (snd (reactLoop fuel w)) = Some m0 \/
        (mission (snd (reactLoop fuel w)) = Some (Mission.set_status ABORTED m0) /\
         Evaluation.shouldAbort
           (evaluate (mission (snd (reactLoop fuel w)))
                     (worldState (snd (reactLoop fuel w)))) = true)
    | Threw _ => mission (snd (reactLoop fuel w)) = Some m0
    end.
Proof.
  induction fuel as [|fuel IH]; intros w Hm; cbn [reactLoop].
  - destruct (loopGuard w); cbn; auto.
  - destruct (loopGuard w); [|cbn; auto].
    unfold bind. pose proof (iterate_status w) as Hit. unfold passRelation in Hit.
    pose proof (iterate_break w) as Hbr.
    destruct (iterate w) as [[[|]|e] w1]; cbn [fst snd] in Hit.
    + cbn. right. split; [rewrite Hit, Hm; reflexivity|].
      apply Hbr. reflexivity.
    + apply IH. rewrite Hit. exact Hm.
    + cbn. rewrite Hit. exact Hm.
Qed.

(** More fuel than the passes that are left changes nothing. *)
Lemma reactLoop_enough_fuel :
  forall fuel fuel' w,
    (maxIterations - iteration w <= fuel)%nat ->
    (maxIterations - iteration w <= fuel')%nat ->
    reactLoop fuel w = reactLoop fuel' w.
Proof.
  induction fuel as [|fuel IH]; intros fuel' w H H'.
  - destruct fuel'; cbn [reactLoop]; [reflexivity|].
    destruct (loopGuard w) eqn:Hg; [|reflexivity].
    unfold loopGuard in Hg. apply andb_true_iff in Hg. destruct Hg as [Hg _].
    apply Nat.ltb_lt in Hg. lia.
  - cbn [reactLoop]. destruct (loopGuard w) eqn:Hg.
    + pose proof Hg as Hlt. unfold loopGuard in Hlt.
      apply andb_true_iff in Hlt. destruct Hlt as [Hlt _]. apply Nat.ltb_lt in Hlt.
      destruct fuel' as [|fuel']; [lia|].
      cbn [reactLoop]. rewrite Hg. unfold bind.
      pose proof (iterate_iteration w) as Hit.
      destruct (iterate w) as [[[|]|e] w1]; cbn [snd] in Hit; try reflexivity.
      apply IH; lia.
    + destruct fuel'; cbn [reactLoop]; rewrite Hg; reflexivity.
Qed.

(** With fuel for the passes that are left, the loop returns only once its
    guard is false: the objectives are complete, the status is ABORTED or
    FAILED, or [maxIterations] passes are done. *)
Lemma reactLoop_ends (m0 : Mission.t) :
  forall fuel w w',
    mission w = Some m0 ->
    (maxIterations - iteration w <= fuel)%nat ->
    reactLoop fuel w = (Returned tt, w') ->
    loopGuard w' = false.
Proof.
  induction fuel as [|fuel IH]; intros w w' Hm Hfuel; cbn [reactLoop].
  - destruct (loopGuard w) eqn:Hg.
    + unfold loopGuard in Hg. apply andb_true_iff in Hg. destruct Hg as [Hg _].
      apply Nat.ltb_lt in Hg. lia.
    + intros H. injection H as <-. exact Hg.
  - destruct (loopGuard w) eqn:Hg; [|intros H; injection H as <-; exact Hg].
    unfold bind. pose proof (iterate_status w) as Hit. unfold passRelation in Hit.
    pose proof (iterate_iteration w) as Hn.
    destruct (iterate w) as [[[|]|e] w1]; cbn [fst snd] in Hit, Hn.
    + unfold ret. intros H. injection H as <-.
      unfold loopGuard, isMissionComplete. rewrite Hit, Hm. cbn.
      rewrite orb_true_r. apply andb_false_r.
    + apply IH; [rewrite Hit; exact Hm|lia].
    + discriminate.
Qed.

End StatusTracking.

Section MissionOutcome.
Import MissionController.

Lemma bind_returned {S A C : Type} (m : Eff S A) (k : A -> Eff S C) (s : S) (c : C) :
  fst (bind m k s) = Returned c ->
  exists a s1, m s = (Returned a, s1) /\ fst (k a s1) = Returned c.
Proof.
  unfold bind. destruct (m s) as [[a|e] s1]; cbn.
  - intros H. exists a, s1. auto.
  - discriminate.
Qed.

Lemma finalizeMission_result (m : Mission.t) (w : World) (res : MissionResult.t) :
  mission w = Some m ->
  fst (finalizeMission w) = Returned res ->
  res = resultOf m w.
Proof.
  intros Hm. unfold finalizeMission.
  unfold bind at 1. unfold gets at 1. rewrite Hm.
  unfold bind at 1. unfold gets at 1.
  unfold bind at 1. unfold gets at 1.
  unfold bind at 1. unfold gets at 1.
  intros H.
  apply bind_returned in H. destruct H as (a & w1 & _ & H).
  apply bind_returned in H. destruct H as (b & w2 & _ & H).
  unfold ret in H. cbn [fst] in H. injection H as <-. reflexivity.
Qed.

Lemma executeMission_cases (m : Mission.t) (w : World) :
  executeMission m w =
    match GraphRAGClient.storeEpisode
            (MissionStarted (Mission.name m) (Mission.type m)) "mission_start" (9 # 10)
            (started m w) with
    | (Threw e, w1) => (Threw e, w1)
    | (Returned _, w1) =>
        match reactLoop maxIterations w1 with
        | (Threw e, w2) => failedWith m e w2
        | (Returned _, w2) =>
            match finalizeMission w2 with
            | (Returned res, w3) => (Returned res, w3)
            | (Threw e, w3) => failedWith m e w3
            end
        end
    end.
Proof.
  unfold executeMission, started, failedWith.
  unfold bind at 1. unfold modify at 1.
  unfold bind at 1. unfold modify at 1.
  unfold bind at 1. unfold gets at 1.
  unfold bind at 1. unfold modify at 1.
  unfold bind at 1.
  destruct (GraphRAGClient.storeEpisode _ _ _ _) as [[[]|e0] w1]; [|reflexivity].
  unfold tryCatch. unfold bind at 1.
  destruct (reactLoop maxIterations w1) as [[[]|e1] w2].
  - destruct (finalizeMission w2) as [[res|e2] w3]; reflexivity.
  - reflexivity.
Qed.

(** C9.  [executeMission] ends with the mission object it was given in
    one of three statuses: the one it had, ABORTED or FAILED; COMPLETED is
    never assigned.  When it returns a result, the result carries the
    status the mission ends with, and that is the initial status or
    ABORTED; so a result with status COMPLETED comes from a mission that
    was COMPLETED when execution began.  When it raises, the status is the
    initial one (the mission-start write raised, outside the try block) or
    FAILED.  A result whose status differs from the initial one comes from
    a world on which the evaluator decides to abort. *)
Theorem executeMission_status (m : Mission.t) (w : World) :
  let r := executeMission m w in
  (exists st,
     mission (snd r) = Some (Mission.set_status st m) /\
     (st = Mission.status m \/ st = ABORTED \/ st = FAILED)) /\
  (forall res, fst r = Returned res ->
     mission (snd r) = Some (Mission.set_status (MissionResult.status res) m) /\
     (MissionResult.status res = Mission.status m \/ MissionResult.status res = ABORTED)) /\
  (forall res, fst r = Returned res ->
     MissionResult.status res = COMPLETED -> Mission.status m = COMPLETED) /\
  (forall res, fst r = Returned res ->
     MissionResult.status res <> Mission.status m ->
     Evaluation.shouldAbort (evaluate (mission (snd r)) (worldState (snd r))) = true) /\
  (forall e, fst r = Threw e ->
     mission (snd r) = Some m \/ mission (snd r) = Some (Mission.set_status FAILED m)).
Proof.
  intros r. subst r. rewrite executeMission_cases.
  assert (Hm0 : mission (started m w) = Some m) by reflexivity.
  pose proof (preserves_storeEpisode mission
                (controllerView_storeView _ controllerView_mission)
                (MissionStarted (Mission.name m) (Mission.type m)) "mission_start" (9 # 10)
                (started m w)) as Hstart.
  destruct (GraphRAGClient.storeEpisode _ _ _ _) as [[[]|e0] w1]; cbn [snd] in Hstart;
    rewrite Hm0 in Hstart.
  2:{ cbn [fst snd]. rewrite Hstart.
      split; [exists (Mission.status m); rewrite set_status_same; auto|].
      split; [intros ? Hd; discriminate Hd|].
      split; [intros ? Hd; discriminate Hd|].
      split; [intros ? Hd; discriminate Hd|]. auto. }
  pose proof (reactLoop_status m maxIterations w1 Hstart) as Hloop.
  destruct (reactLoop maxIterations w1) as [[[]|e1] w2]; cbn [fst snd] in Hloop.
  - (* the loop came to an end: finalize *)
    assert (Hst : exists st,
              mission w2 = Some (Mission.set_status st m) /\
              (st = Mission.status m \/
               (st = ABORTED /\
                Evaluation.shouldAbort (evaluate (mission w2) (worldState w2)) = true))).
    { destruct Hloop as [H|[H Hab]].
      - exists (Mission.status m). rewrite set_status_same. auto.
      - exists ABORTED. auto. }
    destruct Hst as (st & Hm2 & Hst).
    pose proof (preserves_finalizeMission mission
                  (controllerView_storeView _ controllerView_mission) w2) as Hfin.
    pose proof (preserves_finalizeMission worldState
                  (controllerView_storeView _ controllerView_worldState) w2) as Hfws.
    pose proof (finalizeMission_result (Mission.set_status st m) w2) as Hres.
    destruct (finalizeMission w2) as [[res|e2] w3]; cbn [fst snd] in *.
    + specialize (Hres res Hm2 eq_refl). subst res.
      cbn [resultOf MissionResult.status Mission.set_status Mission.status].
      rewrite Hfws, Hfin. rewrite Hm2 in Hst. rewrite Hm2.
      split; [exists st; split; [reflexivity|tauto]|].
      split; [intros res' Hr; injection Hr as <-; cbn; tauto|].
      split; [|split; [|intros ? Hd; discriminate Hd]].
      * intros res' Hr; injection Hr as <-; cbn. intros ->.
        destruct Hst as [H|[H _]]; [symmetry; exact H|discriminate].
      * intros res' Hr; injection Hr as <-; cbn. intros Hne.
        destruct Hst as [H|[_ H]]; [contradiction|exact H].
    + unfold failedWith. cbn [fst snd mission set_mission].
      rewrite Hfin, Hm2. cbn [option_map]. rewrite set_status_twice.
      split; [exists FAILED; auto|].
      split; [intros ? Hd; discriminate Hd|].
      split; [intros ? Hd; discriminate Hd|].
      split; [intros ? Hd; discriminate Hd|]. auto.
  - (* a pass of the loop raised *)
    unfold failedWith. cbn [fst snd mission set_mission].
    rewrite Hloop. cbn [option_map].
    split; [exists FAILED; auto|].
    split; [intros ? Hd; discriminate Hd|].
    split; [intros ? Hd; discriminate Hd|].
    split; [intros ? Hd; discriminate Hd|]. auto.
Qed.

End MissionOutcome.

Section CompletedMissions.
Import MissionController.

Lemma reactLoop_guard_false (fuel : nat) (w : World) :
  loopGuard w = false -> reactLoop fuel w = (Returned tt, w).
Proof. intros H. destruct fuel; cbn [reactLoop]; rewrite H; reflexivity. Qed.

Lemma filter_all {A : Type} (p : A -> bool) (l : list A) :
  forallb p l = true -> filter p l = l.
Proof.
  induction l as [|a l IH]; cbn; [reflexivity|].
  intros H. apply andb_true_iff in H. destruct H as [Ha Hl].
  rewrite Ha, IH; auto.
Qed.

(** C4, as the code has it.  For a mission whose objectives are all
    marked completed the loop body is not entered: no pass is counted and
    the perception and reasoning clients are not used.  A returned result
    carries the status the mission was given with, all objectives as
    completed, "Took 0 iterations", and as duration the time the
    mission-start write took. *)
Theorem completed_mission_runs_no_pass (m : Mission.t) (w : World) :
  forallb MissionObjective.completed (Mission.objectives m) = true ->
  let r := executeMission m w in
  let w1 := snd (GraphRAGClient.storeEpisode
                   (MissionStarted (Mission.name m) (Mission.type m))
                   "mission_start" (9 # 10) (started m w)) in
  iteration (snd r) = 0%nat /\
  videoAgent (snd r) = videoAgent w /\
  mageAgent (snd r) = mageAgent w /\
  forall res, fst r = Returned res ->
    MissionResult.status res = Mission.status m /\
    MissionResult.objectivesCompleted res = List.length (Mission.objectives m) /\
    MissionResult.objectivesTotal res = List.length (Mission.objectives m) /\
    MissionResult.duration res = Qmake (now w1 - now w) 1000 /\
    In "Took 0 iterations" (MissionResult.lessons res).
Proof.
  intros Hall r w1. subst r w1. rewrite executeMission_cases.
  pose proof (fun X (f : World -> X) (H : storeView f) =>
                preserves_storeEpisode f H
                  (MissionStarted (Mission.name m) (Mission.type m))
                  "mission_start" (9 # 10) (started m w)) as Hfr.
  pose proof (Hfr _ mission (controllerView_storeView _ controllerView_mission)) as Hm.
  pose proof (Hfr _ iteration (controllerView_storeView _ controllerView_iteration)) as Hi.
  pose proof (Hfr _ startTime (controllerView_storeView _ controllerView_startTime)) as Hs.
  pose proof (Hfr _ videoAgent ltac:(unfold storeView; reflexivity)) as Hv.
  pose proof (Hfr _ mageAgent ltac:(unfold storeView; reflexivity)) as Hg.
  clear Hfr.
  destruct (GraphRAGClient.storeEpisode _ _ _ _) as [[[]|e0] w1]; cbn [fst snd] in *.
  2:{ split; [exact Hi|]. split; [exact Hv|]. split; [exact Hg|].
      intros ? Hd; discriminate Hd. }
  assert (Hguard : loopGuard w1 = false).
  { unfold loopGuard, isMissionComplete. rewrite Hm.
    cbn [started set_startTime set_iteration set_mission mission].
    rewrite Hall. cbn. apply andb_false_r. }
  rewrite (reactLoop_guard_false _ _ Hguard).
  pose proof (fun X (f : World -> X) (H : storeView f) =>
                preserves_finalizeMission f H w1) as Hfr.
  pose proof (Hfr _ iteration (controllerView_storeView _ controllerView_iteration)) as Hi2.
  pose proof (Hfr _ videoAgent ltac:(unfold storeView; reflexivity)) as Hv2.
  pose proof (Hfr _ mageAgent ltac:(unfold storeView; reflexivity)) as Hg2.
  clear Hfr.
  pose proof (finalizeMission_result m w1) as Hres.
  destruct (finalizeMission w1) as [[res|e2] w3]; cbn [fst snd] in *.
  - rewrite Hi2, Hi, Hv2, Hv, Hg2, Hg.
    split; [reflexivity|]. split; [reflexivity|]. split; [reflexivity|].
    intros res' Hr. injection Hr as <-.
    rewrite (Hres res Hm eq_refl). unfold resultOf.
    cbn [MissionResult.status MissionResult.objectivesCompleted
         MissionResult.objectivesTotal MissionResult.duration MissionResult.lessons].
    rewrite (filter_all _ _ Hall), Hs, Hi.
    repeat split; try reflexivity.
    right. left. reflexivity.
  - unfold failedWith. cbn [fst snd iteration videoAgent mageAgent set_mission].
    rewrite Hi2, Hi, Hv2, Hv, Hg2, Hg.
    split; [reflexivity|]. split; [reflexivity|]. split; [reflexivity|].
    intros ? Hd; discriminate Hd.
Qed.

End CompletedMissions.

Section KnowledgeStoreFailures.
Import MissionController.

Lemma bind_threw {S A C : Type} (m : Eff S A) (k : A -> Eff S C) (s s1 : S) (e : Exn) :
  m s = (Threw e, s1) -> bind m k s = (Threw e, s1).
Proof. unfold bind. intros ->. reflexivity. Qed.

Lemma bind_step {S A C : Type} (m : Eff S A) (k : A -> Eff S C) (s s1 : S) (a : A) :
  m s = (Returned a, s1) -> bind m k s = k a s1.
Proof. unfold bind. intros ->. reflexivity. Qed.

Ltac enter_handler Hm Hws :=
  unfold bind at 1; unfold gets at 1; unfold bind at 1; unfold gets at 1;
  rewrite Hm, Hws; cbv iota.

(** The handlers do not catch what their own write raises. *)
Lemma handler_write_raises (w w1 : World) (m : Mission.t) (ws : WorldState.t) (e : Exn) :
  mission w = Some m ->
  worldState w = Some ws ->
  let people := filter isPerson (WorldState.trackedObjects ws) in
  (GraphRAGClient.storeEpisode
     (AreaInspectionCompleted
        (InspectionData.mk (WorldState.position ws) (now w)
           (List.length (WorldState.trackedObjects ws)) (WorldState.environment ws)))
     "inspection" (8 # 10) w = (Threw e, w1) ->
   inspectArea w = (Threw e, w1)) /\
  (GraphRAGClient.storeEpisode
     (DataCollectedAt
        (DataCollected.mk (WorldState.position ws) (now w) (WorldState.environment ws)
           ["temperature"; "humidity"; "imagery"]))
     "data_collection" (7 # 10) w = (Threw e, w1) ->
   collectData w = (Threw e, w1)) /\
  (people <> [] ->
   GraphRAGClient.storeEpisode (PackageDeliveredAt (WorldState.position ws))
     "delivery" (9 # 10) w = (Threw e, w1) ->
   deliverPackage w = (Threw e, w1)) /\
  (people <> [] ->
   GraphRAGClient.storeEpisode
     (PeopleDetectedAt (List.length people) (WorldState.position ws))
     "person_detection" 1 w = (Threw e, w1) ->
   scanForPeople w = (Threw e, w1)) /\
  (GraphRAGClient.storeEpisode (SafetyPause (List.length people))
     "safety_pause" (8 # 10) w = (Threw e, w1) ->
   pauseForSafety w = (Threw e, w1)).
Proof.
  intros Hm Hws people. subst people.
  split; [|split; [|split; [|split]]].
  - intros H. unfold inspectArea. enter_handler Hm Hws.
    unfold bind at 1. unfold gets at 1. apply bind_threw. exact H.
  - intros H. unfold collectData. enter_handler Hm Hws.
    unfold bind at 1. unfold gets at 1. apply bind_threw. exact H.
  - intros Hp H. unfold deliverPackage. enter_handler Hm Hws.
    destruct (filter isPerson (WorldState.trackedObjects ws)); [contradiction|].
    cbn [List.length Nat.eqb]. apply bind_threw. exact H.
  - intros Hp H. unfold scanForPeople. enter_handler Hm Hws.
    destruct (filter isPerson (WorldState.trackedObjects ws)) as [|p ps] eqn:Hf;
      [contradiction|].
    apply bind_threw. exact H.
  - intros H. unfold pauseForSafety.
    unfold bind at 1. unfold gets at 1. rewrite Hws. apply bind_threw. exact H.
Qed.

(** C1, as the code has it.  A knowledge-store write that raises is not
    caught on the way up: [executeAction] raises what the write of the
    action episode raised, and each handler what its own write raised; a
    pass of the loop raises what [executeAction] raised; the loop raises
    what the pass raised; and [executeMission], when the loop or the
    finalization raises, sets the mission status to FAILED and raises a
    [MissionError] that wraps the message. *)
Theorem knowledge_store_failure_propagates :
  (forall (action : Action.t) (w w1 : World) (e : Exn),
     GraphRAGClient.storeEpisode
       (ActionExecuted (Action.type action) (Action.reasoning action)) "action" (7 # 10) w
       = (Threw e, w1) ->
     executeAction action w = (Threw e, w1)) /\
  (forall (w w1 : World) (m : Mission.t) (ws : WorldState.t) (e : Exn),
     mission w = Some m ->
     worldState w = Some ws ->
     filter isPerson (WorldState.trackedObjects ws) <> [] ->
     GraphRAGClient.storeEpisode (PackageDeliveredAt (WorldState.position ws))
       "delivery" (9 # 10) w = (Threw e, w1) ->
     deliverPackage w = (Threw e, w1)) /\
  (forall (w wa wp we : World) state action (e : Exn),
     assessSituation (set_iteration (S (iteration w)) w) = (Returned state, wa) ->
     planNextAction state wa = (Returned action, wp) ->
     executeAction action wp = (Threw e, we) ->
     iterate w = (Threw e, we)) /\
  (forall (fuel : nat) (w we : World) (e : Exn),
     loopGuard w = true ->
     iterate w = (Threw e, we) ->
     reactLoop (S fuel) w = (Threw e, we)) /\
  (forall (m : Mission.t) (w w1 w2 : World) (e : Exn),
     GraphRAGClient.storeEpisode
       (MissionStarted (Mission.name m) (Mission.type m)) "mission_start" (9 # 10)
       (started m w) = (Returned tt, w1) ->
     reactLoop maxIterations w1 = (Threw e, w2) ->
     fst (executeMission m w) =
       Threw (MissionError ("Mission execution failed: " ++ exn_message e)
                (MissionDetails (Mission.id m) (iteration w2))) /\
     mission (snd (executeMission m w)) = Some (Mission.set_status FAILED m)) /\
  (forall (m : Mission.t) (w w1 w2 w3 : World) (e : Exn),
     GraphRAGClient.storeEpisode
       (MissionStarted (Mission.name m) (Mission.type m)) "mission_start" (9 # 10)
       (started m w) = (Returned tt, w1) ->
     reactLoop maxIterations w1 = (Returned tt, w2) ->
     finalizeMission w2 = (Threw e, w3) ->
     fst (executeMission m w) =
       Threw (MissionError ("Mission execution failed: " ++ exn_message e)
                (MissionDetails (Mission.id m) (iteration w3))) /\
     option_map Mission.status (mission (snd (executeMission m w))) = Some FAILED).
Proof.
  split; [|split; [|split; [|split; [|split]]]].
  - intros action w w1 e H. unfold executeAction. apply bind_threw. exact H.
  - intros w w1 m ws e Hm Hws Hp H.
    exact (proj1 (proj2 (proj2 (handler_write_raises w w1 m ws e Hm Hws))) Hp H).
  - intros w wa wp we state action e Ha Hp He. unfold iterate.
    unfold bind at 1. unfold modify at 1.
    rewrite (bind_step _ _ _ _ _ Ha).
    rewrite (bind_step _ _ _ _ _ Hp).
    apply bind_threw. exact He.
  - intros fuel w we e Hg Hi. cbn [reactLoop]. rewrite Hg.
    apply bind_threw. exact Hi.
  - intros m w w1 w2 e Hs Hl.
    pose proof (preserves_storeEpisode mission
                  (controllerView_storeView _ controllerView_mission)
                  (MissionStarted (Mission.name m) (Mission.type m)) "mission_start" (9 # 10)
                  (started m w)) as Hm1.
    rewrite Hs in Hm1. cbn [snd] in Hm1.
    pose proof (reactLoop_status m maxIterations w1 Hm1) as Hm2.
    rewrite executeMission_cases, Hs, Hl. rewrite Hl in Hm2. cbn [fst snd] in Hm2.
    unfold failedWith. cbn [fst snd mission set_mission]. rewrite Hm2.
    split; reflexivity.
  - intros m w w1 w2 w3 e Hs Hl Hf.
    pose proof (preserves_storeEpisode mission
                  (controllerView_storeView _ controllerView_mission)
                  (MissionStarted (Mission.name m) (Mission.type m)) "mission_start" (9 # 10)
                  (started m w)) as Hm1.
    rewrite Hs in Hm1. cbn [snd] in Hm1.
    pose proof (reactLoop_status m maxIterations w1 Hm1) as Hm2.
    pose proof (preserves_finalizeMission mission
                  (controllerView_storeView _ controllerView_mission) w2) as Hm3.
    rewrite executeMission_cases, Hs, Hl, Hf. rewrite Hl in Hm2. rewrite Hf in Hm3.
    cbn [fst snd] in Hm2, Hm3.
    unfold failedWith. cbn [fst snd mission set_mission]. rewrite Hm3.
    split; [reflexivity|].
    destruct Hm2 as [-> | [-> _]]; reflexivity.
Qed.

End KnowledgeStoreFailures.

Section Handlers.
Import MissionController.

Lemma ObjectClassification_eqb_eq (a b : ObjectClassification) :
  ObjectClassification_eqb a b = true <-> a = b.
Proof. split; [destruct a, b; (reflexivity || discriminate)|intros ->; destruct b; reflexivity]. Qed.

Lemma no_person_filter (objects : list TrackedObject.t) :
  (forall obj, In obj objects -> TrackedObject.classification obj <> PERSON) ->
  filter isPerson objects = [].
Proof.
  induction objects as [|obj rest IH]; intros H; cbn; [reflexivity|].
  destruct (isPerson obj) eqn:Hp.
  - apply ObjectClassification_eqb_eq in Hp. exfalso. apply (H obj); [left; reflexivity|exact Hp].
  - apply IH. intros o Ho. apply H. right. exact Ho.
Qed.

(** C8.  When the stored world state has no tracked object classified
    PERSON, [deliverPackage] returns a result with [success = false] and
    does not raise; with a mission in place the result is the
    missing-recipient failure.  The world after is the world before: no
    request went to the knowledge store (or anywhere).  Called through
    [executeAction], the only write is the action episode that precedes the
    dispatch. *)
Theorem deliver_without_recipient (w : World) (ws : WorldState.t) :
  worldState w = Some ws ->
  (forall obj, In obj (WorldState.trackedObjects ws) ->
     TrackedObject.classification obj <> PERSON) ->
  (exists res,
     deliverPackage w = (Returned res, w) /\
     ActionResult.success res = false /\
     (mission w <> None ->
      res = ActionResult.mk false "No recipient detected, aborting delivery" NoData)) /\
  BaseClient.sent (graphRAG (snd (deliverPackage w))) = BaseClient.sent (graphRAG w) /\
  (forall reasoning confidence,
     executeAction (Action.mk "deliver_package" reasoning confidence) w =
       (GraphRAGClient.storeEpisode (ActionExecuted "deliver_package" reasoning)
          "action" (7 # 10) ;;
        ret (match mission w with
             | Some _ => ActionResult.mk false "No recipient detected, aborting delivery" NoData
             | None => noMissionOrWorldState
             end)) w).
Proof.
  intros Hws Hnone.
  pose proof (no_person_filter _ Hnone) as Hf.
  assert (Hd : forall w', mission w' = mission w -> worldState w' = worldState w ->
             deliverPackage w' =
               (Returned (match mission w with
                          | Some _ => ActionResult.mk false
                                        "No recipient detected, aborting delivery" NoData
                          | None => noMissionOrWorldState
                          end), w')).
  { intros w' Hm' Hw'. unfold deliverPackage, bind, gets. rewrite Hm', Hw', Hws.
    destruct (mission w); [|reflexivity]. rewrite Hf. reflexivity. }
  split; [|split].
  - eexists. split; [apply Hd; reflexivity|]. split.
    + destruct (mission w); reflexivity.
    + intros Hm. destruct (mission w); [reflexivity|contradiction].
  - rewrite Hd; reflexivity.
  - intros reasoning confidence. unfold executeAction. cbn [Action.type Action.reasoning].
    unfold bind.
    pose proof (preserves_storeEpisode mission
                  (controllerView_storeView _ controllerView_mission)
                  (ActionExecuted "deliver_package" reasoning) "action" (7 # 10) w) as Hm1.
    pose proof (preserves_storeEpisode worldState
                  (controllerView_storeView _ controllerView_worldState)
                  (ActionExecuted "deliver_package" reasoning) "action" (7 # 10) w) as Hw1.
    destruct (GraphRAGClient.storeEpisode _ _ _ w) as [[[]|e] w1]; cbn [snd] in *;
      [|reflexivity].
    cbn. apply Hd; assumption.
Qed.

End Handlers.

(** ** The evaluator *)

Section Evaluator.
Import MissionController.

Lemma evaluate_firstMatch (m : Mission.t) (ws : WorldState.t) :
  evaluate (Some m) (Some ws) = firstMatch precedence m ws.
Proof.
  unfold evaluate, precedence. cbn [firstMatch].
  unfold crowdingRule, highPriorityPeople.
  destruct (3 <? _)%nat; [reflexivity|].
  unfold windRule. destruct (above _ _); [reflexivity|]. cbn [option_map].
  unfold visibilityRule. destruct (below _ _); [reflexivity|]. cbn [option_map].
  unfold batteryRule, reserveOf. destruct (Qlt_bool _ _); [reflexivity|].
  unfold systemErrorsRule.
  destruct (Health.errors (WorldState.health ws)); reflexivity.
Qed.

Lemma Qlt_bool_true (a b : Q) : (a < b)%Q -> Qlt_bool a b = true.
Proof.
  intros H. unfold Qlt_bool. destruct (Qle_bool b a) eqn:E; [|reflexivity].
  apply Qle_bool_iff in E. exfalso. exact (Qlt_not_le _ _ H E).
Qed.

Lemma Qeq_bool_false (a b : Q) : ~ (a == b)%Q -> Qeq_bool a b = false.
Proof.
  intros H. destruct (Qeq_bool a b) eqn:E; [|reflexivity].
  apply Qeq_bool_iff in E. contradiction.
Qed.

Lemma above_breach (v l : Q) :
  ~ (v == 0)%Q -> ~ (l == 0)%Q -> (l < v)%Q -> above (Some v) (Some l) = Some v.
Proof.
  intros Hv Hl Hlt. unfold above.
  rewrite (Qeq_bool_false _ _ Hv), (Qeq_bool_false _ _ Hl), (Qlt_bool_true _ _ Hlt).
  reflexivity.
Qed.

(** C3, as the code has it.  The evaluator is the first match among
    crowding, wind, visibility, battery, system errors, in this order, and
    continue when none fires.  So when the wind reading exceeds the wind
    limit (both non-zero) and the battery is below the reserve, the
    decision is to abort for the wind, provided the crowding rule did not
    fire first; and whether or not it did, the reason is never the battery. *)
Theorem evaluator_precedence :
  (forall m ws, evaluate (Some m) (Some ws) = firstMatch precedence m ws) /\
  (forall m ws v l,
     Environment.windSpeed (WorldState.environment ws) = Some v ->
     WeatherLimits.maxWindSpeed (MissionConstraints.weatherLimits (Mission.constraints m))
       = Some l ->
     ~ (v == 0)%Q -> ~ (l == 0)%Q -> (l < v)%Q ->
     (Health.battery (WorldState.health ws) < reserveOf m)%Q ->
     (highPriorityPeople ws <= 3)%nat ->
     evaluate (Some m) (Some ws) = abort (WindExceedsLimits v)) /\
  (forall m ws v l,
     Environment.windSpeed (WorldState.environment ws) = Some v ->
     WeatherLimits.maxWindSpeed (MissionConstraints.weatherLimits (Mission.constraints m))
       = Some l ->
     ~ (v == 0)%Q -> ~ (l == 0)%Q -> (l < v)%Q ->
     forall b, Evaluation.reason (evaluate (Some m) (Some ws)) <> Some (LowBattery b)).
Proof.
  split; [exact evaluate_firstMatch|]. split.
  - intros m ws v l Hw Hl Hv0 Hl0 Hlt _ Hcrowd.
    rewrite evaluate_firstMatch. unfold precedence. cbn [firstMatch].
    unfold crowdingRule.
    assert (Hc : (3 <? highPriorityPeople ws)%nat = false) by (apply Nat.ltb_ge; exact Hcrowd).
    rewrite Hc. unfold windRule. rewrite Hw, Hl, (above_breach v l Hv0 Hl0 Hlt).
    reflexivity.
  - intros m ws v l Hw Hl Hv0 Hl0 Hlt b.
    rewrite evaluate_firstMatch. unfold precedence. cbn [firstMatch].
    unfold crowdingRule. destruct (3 <? highPriorityPeople ws)%nat; [discriminate|].
    unfold windRule. rewrite Hw, Hl, (above_breach v l Hv0 Hl0 Hlt).
    discriminate.
Qed.

End Evaluator.

Section Assessment.
Import MissionController.

Lemma detectObjects_returns (imageUrl : string) (threshold : Q) (w : World) :
  exists detections w1,
    VideoAgentClient.detectObjects imageUrl threshold w = (Returned detections, w1).
Proof.
  unfold VideoAgentClient.detectObjects, tryCatch.
  destruct (bind _ _ w) as [[ds|e] w1]; unfold ret; eauto.
Qed.

Lemma assessSituation_builds (w : World) :
  exists detections w1,
    VideoAgentClient.detectObjects "current_frame_url" (7 # 10) w = (Returned detections, w1) /\
    assessSituation w =
      (Returned (buildWorldState (now w) (now w1) detections),
       set_worldState (Some (buildWorldState (now w) (now w1) detections)) w1).
Proof.
  destruct (detectObjects_returns "current_frame_url" (7 # 10) w) as (ds & w1 & H).
  exists ds, w1. split; [exact H|].
  unfold assessSituation. unfold bind at 1. unfold gets at 1.
  rewrite (bind_step _ _ _ _ _ H). reflexivity.
Qed.

Lemma Qlt_bool_false (a b : Q) : (b <= a)%Q -> Qlt_bool a b = false.
Proof.
  intros H. unfold Qlt_bool. apply Qle_bool_iff in H. rewrite H. reflexivity.
Qed.

Lemma num_or_default (r d : Q) : (r == 0)%Q -> num_or r d = d.
Proof. intros H. unfold num_or. apply Qeq_bool_iff in H. rewrite H. reflexivity. Qed.

(** C10.  [assessSituation] always returns, and the snapshot it returns
    and stores has position (0, 0, 0), battery 100, no system errors, wind
    speed 5 and visibility 10000; it is the snapshot of an empty perception
    answer with the tracked objects put in.  On such a snapshot, for a
    mission whose battery reserve is 20 (or 0, which the evaluator reads as
    the default 20), the battery rule and the system-errors rule do not
    fire, and the evaluator's reason is never theirs. *)
Theorem assessed_state_has_fixed_telemetry (w : World) :
  exists ws w',
    assessSituation w = (Returned ws, w') /\
    worldState w' = Some ws /\
    Position3D.latitude (WorldState.position ws) = 0%Q /\
    Position3D.longitude (WorldState.position ws) = 0%Q /\
    Position3D.altitude (WorldState.position ws) = 0%Q /\
    Health.battery (WorldState.health ws) = 100%Q /\
    Health.errors (WorldState.health ws) = [] /\
    Environment.windSpeed (WorldState.environment ws) = Some 5%Q /\
    Environment.visibility (WorldState.environment ws) = Some 10000%Q /\
    ws = WorldState.set_trackedObjects (WorldState.trackedObjects ws)
           (buildWorldState (now w) (now w') []) /\
    forall m : Mission.t,
      (MissionConstraints.batteryReserve (Mission.constraints m) == 20 \/
       MissionConstraints.batteryReserve (Mission.constraints m) == 0)%Q ->
      batteryRule m ws = None /\
      systemErrorsRule m ws = None /\
      (forall b, Evaluation.reason (evaluate (Some m) (Some ws)) <> Some (LowBattery b)) /\
      (forall errors,
         Evaluation.reason (evaluate (Some m) (Some ws))
           <> Some (SystemErrorsDetected errors)).
Proof.
  destruct (assessSituation_builds w) as (ds & w1 & _ & H).
  eexists. eexists. split; [exact H|].
  split; [reflexivity|]. 
  do 7 (split; [reflexivity|]).
  split; [reflexivity|].
  intros m Hreserve.
  assert (Hb : Qlt_bool 100 (reserveOf m) = false).
  { apply Qlt_bool_false. unfold reserveOf. destruct Hreserve as [H20|H0].
    - unfold num_or. destruct (Qeq_bool _ 0).
      + discriminate.
      + rewrite H20. discriminate.
    - rewrite (num_or_default _ _ H0). discriminate. }
  split; [unfold batteryRule; cbn [buildWorldState WorldState.health Health.battery];
          rewrite Hb; reflexivity|].
  split; [reflexivity|].
  rewrite evaluate_firstMatch. unfold precedence. cbn [firstMatch].
  destruct (crowdingRule m _) eqn:Hc.
  { unfold crowdingRule in Hc. destruct (3 <? _)%nat; [|discriminate].
    injection Hc as <-. split; intros; discriminate. }
  destruct (windRule m _) eqn:Hw.
  { unfold windRule in Hw. destruct (above _ _); [|discriminate].
    injection Hw as <-. split; intros; discriminate. }
  destruct (visibilityRule m _) eqn:Hv.
  { unfold visibilityRule in Hv. destruct (below _ _); [|discriminate].
    injection Hv as <-. split; intros; discriminate. }
  unfold batteryRule. cbn [buildWorldState WorldState.health Health.battery].
  rewrite Hb. cbn. split; intros; discriminate.
Qed.

End Assessment.

(** ** Where the claims fail *)

(** C1 fails on the code.  The write of the action episode fails in the
    first pass (three attempts answered 500): the mission ends FAILED with a
    [MissionError], where with a knowledge store that takes every write the
    same mission returns a result. *)
Lemma knowledge_store_failure_fails_mission :
  fst (MissionController.executeMission patrol (calm storeFlaky)) =
    Threw (MissionError
             "Mission execution failed: GraphRAG: Request failed with status code 500"
             (MissionDetails "m1" 1)) /\
  option_map Mission.status
    (mission (snd (MissionController.executeMission patrol (calm storeFlaky)))) = Some FAILED /\
  (exists res, fst (MissionController.executeMission patrol (calm storeUp)) = Returned res) /\
  fst (MissionController.executeAction walk (calm (always serverError))) =
    Threw (RoboticsError "GraphRAG: Request failed with status code 500" "SERVICE_ERROR" 500
             (ServiceDetails "GraphRAG" "Request failed with status code 500")) /\
  fst (MissionController.executeAction walk (calm storeUp)) =
    Returned (ActionResult.mk true "Continuing on planned path" NoData).
Proof.
  split; [vm_compute; reflexivity|]. split; [vm_compute; reflexivity|].
  split; [eexists; vm_compute; reflexivity|].
  split; vm_compute; reflexivity.
Qed.

(** C2 fails on the code.  A new client with the default configuration,
    two calls: the three attempts of the first call fail with 500, the
    first two of the second call fail too (the fifth failure opens the
    breaker), the third attempt of the second call, made while the breaker
    is OPEN, succeeds and closes it.  The breaker went from OPEN to CLOSED
    and was never HALF_OPEN. *)
Lemma breaker_skips_half_open :
  BaseClient.transitions (BaseClient.self closedAgain)
    = [BaseClient.CLOSED; BaseClient.OPEN; BaseClient.CLOSED] /\
  follows specTransition (BaseClient.transitions (BaseClient.self closedAgain)) = false.
Proof. split; reflexivity. Qed.

(** C5 fails on the code.  Six failures open the breaker; the call made
    30 s later puts it in HALF_OPEN, is let through and is answered 404,
    which leaves the breaker HALF_OPEN; the next call is let through as
    well. *)
Lemma half_open_lets_two_calls_through :
  BaseClient.state (BaseClient.circuitBreaker (BaseClient.self reopened)) = BaseClient.OPEN /\
  letThrough None ping waited = true /\
  BaseClient.state (BaseClient.circuitBreaker (BaseClient.self probed)) = BaseClient.HALF_OPEN /\
  letThrough None ping probed = true /\
  BaseClient.state
    (BaseClient.circuitBreaker
       (BaseClient.self (snd (BaseClient.executeWithRetry None ping probed))))
    = BaseClient.HALF_OPEN.
Proof. repeat split; reflexivity. Qed.

(** C3 fails on the code.  Wind over the limit, battery under the reserve
    and four high-priority persons in view: the decision is to replan for
    the crowd, not to abort for the wind. *)
Lemma crowding_precedes_wind :
  MissionController.above (Environment.windSpeed (WorldState.environment (storm crowd)))
    (WeatherLimits.maxWindSpeed (MissionConstraints.weatherLimits (Mission.constraints patrol)))
    = Some 15%Q /\
  Qlt_bool (Health.battery (WorldState.health (storm crowd))) (reserveOf patrol) = true /\
  MissionController.evaluate (Some patrol) (Some (storm crowd)) =
    Evaluation.mk true false (Some (MultiplePeopleNearby 4 5)) /\
  MissionController.evaluate (Some patrol) (Some (storm crowd)) <>
    Evaluation.mk false true (Some (WindExceedsLimits 15)).
Proof.
  split; [reflexivity|]. split; [reflexivity|]. split; [reflexivity|].
  vm_compute. discriminate.
Qed.

(** C4 fails on the code.  A mission in status IN_PROGRESS whose only
    objective is marked completed: no pass is made and the result carries
    IN_PROGRESS, not COMPLETED. *)
Lemma completed_objectives_leave_status :
  fst (MissionController.executeMission doneMission (calm storeUp)) = Returned doneResult /\
  MissionResult.status doneResult = IN_PROGRESS /\
  MissionResult.status doneResult <> COMPLETED /\
  iteration (snd (MissionController.executeMission doneMission (calm storeUp))) = 0%nat.
Proof.
  split; [vm_compute; reflexivity|]. split; [reflexivity|].
  split; [discriminate|vm_compute; reflexivity].
Qed.



(** ** The theorems at work on concrete runs *)

Lemma retry_delay_sequence_witness :
  exists e s',
    BaseClient.executeWithRetry None ping (freshSys []) = (Threw e, s') /\
    BaseClient.slept s' = [2000; 1000].
Proof.
  destruct (retry_delay_sequence ping (freshSys [])) as (e & s' & H1 & _ & _ & _ & H5).
  - apply Nat.leb_le. reflexivity.
  - reflexivity.
  - intros k _. destruct k; reflexivity.
  - exists e, s'. split; [exact H1|]. apply H5. reflexivity.
Defined.

Lemma client_error_not_retried_witness :
  BaseClient.circuitBreaker
    (BaseClient.self
       (snd (BaseClient.attempts 3 1 3 ping None (freshSys [notFound]))))
  = BaseClient.mkBreaker 0 0 BaseClient.CLOSED.
Proof.
  destruct (client_error_not_retried ping (freshSys [notFound]) 2 1 3 None
              404 None None "Request failed with status code 404" 10)
    as (_ & _ & _ & H & _).
  - lia.
  - reflexivity.
  - exact H.
Defined.

Lemma breaker_window_witness :
  BaseClient.executeWithRetry None ping opened =
    (Threw (BaseClient.breakerOpenError "GraphRAG"), opened).
Proof.
  apply (proj1 (proj2 (@breaker_window unit unit))).
  - reflexivity.
  - vm_compute. reflexivity.
Defined.

Lemma knowledge_store_failure_propagates_witness :
  MissionController.executeAction walk (calm (always serverError)) =
    (Threw (RoboticsError "GraphRAG: Request failed with status code 500" "SERVICE_ERROR" 500
              (ServiceDetails "GraphRAG" "Request failed with status code 500")),
     snd (GraphRAGClient.storeEpisode (ActionExecuted "continue_path" "path is clear")
            "action" (7 # 10) (calm (always serverError)))).
Proof.
  apply (proj1 knowledge_store_failure_propagates).
  vm_compute. reflexivity.
Defined.

Lemma completed_mission_runs_no_pass_witness :
  iteration (snd (MissionController.executeMission doneMission (calm storeUp))) = 0%nat.
Proof.
  apply (completed_mission_runs_no_pass doneMission (calm storeUp)).
  reflexivity.
Defined.

Lemma executeMission_status_witness :
  MissionResult.status doneResult = Mission.status doneMission \/
  MissionResult.status doneResult = ABORTED.
Proof.
  apply (proj1 (proj2 (executeMission_status doneMission (calm storeUp))) doneResult).
  vm_compute. reflexivity.
Defined.

Lemma evaluator_precedence_witness :
  MissionController.evaluate (Some patrol) (Some (storm [])) = abort (WindExceedsLimits 15).
Proof.
  apply (proj1 (proj2 evaluator_precedence) patrol (storm []) 15%Q 10%Q).
  - reflexivity.
  - reflexivity.
  - discriminate.
  - discriminate.
  - reflexivity.
  - reflexivity.
  - apply Nat.leb_le. reflexivity.
Defined.

Lemma deliver_without_recipient_witness :
  MissionController.deliverPackage atDropOff =
    (Returned (ActionResult.mk false "No recipient detected, aborting delivery" NoData),
     atDropOff).
Proof.
  destruct (deliver_without_recipient atDropOff
              (MissionController.buildWorldState 0 0 [detection "vehicle"]))
    as ((res & Hrun & _ & Hres) & _).
  - reflexivity.
  - intros obj [<-|[]]. discriminate.
  - rewrite Hrun, Hres; [reflexivity|discriminate].
Defined.

Lemma assessed_state_has_fixed_telemetry_witness :
  exists ws w',
    MissionController.assessSituation (calm storeUp) = (Returned ws, w') /\
    Health.battery (WorldState.health ws) = 100%Q /\
    forall b,
      Evaluation.reason (MissionController.evaluate (Some patrol) (Some ws))
        <> Some (LowBattery b).
Proof.
  destruct (assessed_state_has_fixed_telemetry (calm storeUp))
    as (ws & w' & H & _ & _ & _ & _ & Hb & _ & _ & _ & _ & Hm).
  exists ws, w'. split; [exact H|]. split; [exact Hb|].
  apply (Hm patrol). left. reflexivity.
Defined.


(** * Further properties of the resilient client *)

Section ClientHistory.
Context {B T : Type}.
Import BaseClient.
Let Sys : Type := BaseClient.Sys B T.

Lemma repeat_cons_app {A : Type} (x : A) (k : nat) (l : list A) :
  (repeat x k ++ x :: l)%list = (repeat x (S k) ++ l)%list.
Proof.
  induction k as [|k IH]; cbn; [reflexivity|]. rewrite IH. reflexivity.
Qed.

(** What the retry loop leaves alone and how far it can go: the
    collaborator, the name and the configuration are untouched; every
    request put on the wire is [req], at most [remaining] of them; a delay
    is slept only after a request, and never after the last attempt the
    loop is allowed. *)
Lemma attempts_frame (req : Request B) :
  forall (remaining attempt maxAttempts : nat) (lastError : option Failure)
         (s s' : Sys) (r : Outcome T),
    attempts remaining attempt maxAttempts req lastError s = (r, s') ->
    wire (self s') = wire (self s) /\
    serviceName (self s') = serviceName (self s) /\
    retryConfig (self s') = retryConfig (self s) /\
    exists sentNow sleptNow,
      sent (self s') = (repeat req sentNow ++ sent (self s))%list /\
      (sentNow <= remaining)%nat /\
      BaseClient.slept s' = (sleptNow ++ BaseClient.slept s)%list /\
      (List.length sleptNow <= sentNow)%nat /\
      ((attempt + remaining = S maxAttempts)%nat ->
       (List.length sleptNow <= remaining - 1)%nat).
Proof.
  induction remaining as [|remaining IH]; intros attempt maxAttempts lastError s s' r H.
  - cbn in H. injection H as <- <-. repeat split.
    exists 0%nat, []. cbn. repeat split; lia.
  - cbn [attempts] in H.
    destruct (wire (self s) (List.length (sent (self s)))) as [reply latency] eqn:Hw.
    destruct reply as [data|error].
    + rewrite (transport_fulfilled req s data latency Hw) in H.
      injection H as <- <-. cbn. repeat split.
      exists 1%nat, []. cbn. repeat split; lia.
    + rewrite (transport_rejected req s error latency Hw) in H.
      destruct (isClientError error).
      * injection H as <- <-. cbn. repeat split.
        exists 1%nat, []. cbn. repeat split; lia.
      * unfold bind at 1 in H.
        pose proof (increment_frame (afterSend req latency s)) as Hfr.
        destruct (incrementCircuitBreakerFailure (afterSend req latency s)) as [r1 s1].
        cbn in Hfr. destruct Hfr as (-> & Htime & Hslept & Hwire & Hsent & Hcfg & Hname).
        unfold bind at 1 in H.
        destruct (attempt <? maxAttempts)%nat eqn:Hlt.
        -- unfold sleep, modify in H.
           apply IH in H. cbn [self BaseClient.slept] in H.
           destruct H as (Hw3 & Hn3 & Hc3 & k & sl & Hs3 & Hk & Hsl3 & Hle & Hlen).
           rewrite Hw3, Hn3, Hc3, Hwire, Hname, Hcfg. repeat split.
           exists (S k),
             (sl ++ [retryDelay (retryConfig (self (afterSend req latency s))) attempt])%list.
           rewrite Hs3, Hsent, Hsl3, Hslept. cbn [afterSend self sent BaseClient.slept].
           split; [apply repeat_cons_app|]. split; [lia|].
           split; [rewrite <- app_assoc; reflexivity|].
           rewrite length_app. cbn [List.length].
           apply Nat.ltb_lt in Hlt.
           split; [lia|]. intros Hsum. specialize (Hlen ltac:(lia)). lia.
        -- unfold ret in H.
           apply IH in H.
           destruct H as (Hw3 & Hn3 & Hc3 & k & sl & Hs3 & Hk & Hsl3 & Hle & Hlen).
           rewrite Hw3, Hn3, Hc3, Hwire, Hname, Hcfg. repeat split.
           exists (S k), sl.
           rewrite Hs3, Hsent, Hsl3, Hslept. cbn [afterSend self sent BaseClient.slept].
           split; [apply repeat_cons_app|]. split; [lia|].
           split; [reflexivity|]. split; [lia|].
           intros Hsum. apply Nat.ltb_ge in Hlt.
           assert (remaining = 0)%nat by lia. subst remaining.
           cbn in Hk |- *. lia.
Qed.


Lemma check_rejects (s : Sys) :
  admits s = false ->
  checkCircuitBreaker s = (Threw (breakerOpenError (serviceName (self s))), s).
Proof.
  unfold admits, checkCircuitBreaker.
  destruct (state (circuitBreaker (self s))); try discriminate.
  intros H. apply negb_false_iff in H. rewrite H. reflexivity.
Qed.

Lemma execute_sends (retries : option nat) (req : Request B) (s : Sys) :
  exists sentNow,
    sent (self (snd (executeWithRetry retries req s)))
    = (repeat req sentNow ++ sent (self s))%list.
Proof.
  unfold executeWithRetry, bind.
  destruct (admits s) eqn:Hadm.
  - destruct (check_admits s Hadm) as (s1 & Hchk & _ & _ & _ & Hsent & _).
    rewrite Hchk.
    destruct (attempts _ 1 _ req None s1) as [r s2] eqn:Hrun.
    apply attempts_frame in Hrun.
    destruct Hrun as (_ & _ & _ & k & sl & Hs2 & _).
    exists k. cbn [snd]. rewrite Hs2, Hsent. reflexivity.
  - rewrite (check_rejects s Hadm). exists 0%nat. reflexivity.
Qed.

(** X1.  A call sends the same request every time, at most [n] times for
    [n] allowed attempts, and sleeps at most [n - 1] delays, each after a
    request; it never touches the collaborator's name or the retry
    configuration.  A call the breaker rejects sends nothing and sleeps
    nothing. *)
Theorem call_is_bounded (retries : option nat) (req : Request B) (s : Sys) :
  let n := match retries with Some n => n | None => maxAttempts (retryConfig (self s)) end in
  let s' := snd (executeWithRetry retries req s) in
  serviceName (self s') = serviceName (self s) /\
  retryConfig (self s') = retryConfig (self s) /\
  (exists sentNow sleptNow,
     sent (self s') = (repeat req sentNow ++ sent (self s))%list /\
     (sentNow <= n)%nat /\
     BaseClient.slept s' = (sleptNow ++ BaseClient.slept s)%list /\
     (List.length sleptNow <= n - 1)%nat /\
     (List.length sleptNow <= sentNow)%nat) /\
  (admits s = false -> s' = s).
Proof.
  intros n s'. subst s'. unfold executeWithRetry. fold n. unfold bind.
  destruct (admits s) eqn:Hadm.
  - destruct (check_admits s Hadm) as (s1 & Hchk & Ht & Hsl & Hw & Hsent & Hcfg & Hname & _).
    rewrite Hchk.
    destruct (attempts n 1 n req None s1) as [r s2] eqn:Hrun.
    apply attempts_frame in Hrun.
    destruct Hrun as (Hw2 & Hn2 & Hc2 & k & sl & Hs2 & Hk & Hsl2 & Hle & Hlen).
    cbn [snd]. rewrite Hn2, Hc2, Hname, Hcfg.
    split; [reflexivity|]. split; [reflexivity|]. split; [|discriminate].
    exists k, sl. rewrite Hs2, Hsl2, Hsent, Hsl.
    repeat split; try assumption. apply Hlen. lia.
  - rewrite (check_rejects s Hadm). cbn [snd].
    split; [reflexivity|]. split; [reflexivity|]. split; [|reflexivity].
    exists 0%nat, []. cbn. repeat split; lia.
Qed.

(** A call that returns got a fulfilled answer to its last request.  *)
Lemma attempts_returned (req : Request B) :
  forall (remaining attempt maxAttempts : nat) (lastError : option Failure)
         (s s' : Sys) (data : T),
    attempts remaining attempt maxAttempts req lastError s = (Returned data, s') ->
    state (circuitBreaker (self s')) = CLOSED /\
    failures (circuitBreaker (self s')) = 0%nat /\
    exists k latency,
      sent (self s') = (repeat req (S k) ++ sent (self s))%list /\
      wire (self s) (k + List.length (sent (self s))) = (Fulfilled data, latency).
Proof.
  induction remaining as [|remaining IH]; intros attempt maxAttempts lastError s s' data H.
  - cbn in H. discriminate H.
  - cbn [attempts] in H.
    destruct (nextReply s) as [reply latency] eqn:Hw.
    destruct reply as [d|error].
    + rewrite (transport_fulfilled req s d latency Hw) in H.
      injection H as <- <-. cbn. repeat split.
      exists 0%nat, latency. split; [reflexivity|exact Hw].
    + rewrite (transport_rejected req s error latency Hw) in H.
      destruct (isClientError error); [discriminate H|].
      unfold bind at 1 in H.
      pose proof (increment_frame (afterSend req latency s)) as Hfr.
      destruct (incrementCircuitBreakerFailure (afterSend req latency s)) as [r1 s1].
      cbn [fst snd] in Hfr. destruct Hfr as (-> & _ & _ & Hwire & Hsent & _).
      unfold bind at 1 in H.
      assert (exists s2, attempts remaining (S attempt) maxAttempts req (Some error) s2
                         = (Returned data, s') /\
                         wire (self s2) = wire (self s1) /\ sent (self s2) = sent (self s1))
        as (s2 & H2 & Hw2 & Hs2).
      { destruct (attempt <? maxAttempts)%nat.
        - unfold sleep, modify in H. eexists. split; [exact H|]. split; reflexivity.
        - unfold ret in H. eexists. split; [exact H|]. split; reflexivity. }
      apply IH in H2. destruct H2 as (Hst & Hf & k & lat & Hsent' & Hreply).
      split; [exact Hst|]. split; [exact Hf|].
      exists (S k), lat. rewrite Hsent', Hs2, Hsent. cbn [afterSend self sent].
      split; [apply repeat_cons_app|].
      rewrite Hw2, Hwire, Hs2, Hsent in Hreply. cbn [afterSend self sent wire] in Hreply.
      cbn [List.length] in Hreply.
      replace (S k + List.length (sent (self s)))%nat
        with (k + S (List.length (sent (self s))))%nat by lia.
      exact Hreply.
Qed.

Lemma returned_call_state (retries : option nat) (req : Request B)
    (s s' : Sys) (data : T) :
  executeWithRetry retries req s = (Returned data, s') ->
  state (circuitBreaker (self s')) = CLOSED /\
  failures (circuitBreaker (self s')) = 0%nat /\
  exists k latency,
    sent (self s') = (repeat req (S k) ++ sent (self s))%list /\
    wire (self s) (k + List.length (sent (self s))) = (Fulfilled data, latency).
Proof.
  unfold executeWithRetry, bind. intros H.
  destruct (admits s) eqn:Hadm.
  - destruct (check_admits s Hadm) as (s1 & Hchk & _ & _ & Hw & Hsent & Hcfg & _).
    rewrite Hchk in H.
    apply attempts_returned in H.
    rewrite Hw, Hsent in H. exact H.
  - rewrite (check_rejects s Hadm) in H. discriminate H.
Qed.

(** X2.  A call that returns has closed the breaker and cleared the
    failure counter, whatever state it started in, and what it returns is
    the collaborator's answer to the last request it sent. *)
Theorem returned_call_closes_breaker (retries : option nat) (req : Request B)
    (s s' : Sys) (data : T) :
  executeWithRetry retries req s = (Returned data, s') ->
  state (circuitBreaker (self s')) = CLOSED /\
  failures (circuitBreaker (self s')) = 0%nat /\
  exists k latency,
    sent (self s') = (repeat req (S k) ++ sent (self s))%list /\
    wire (self s) (k + List.length (sent (self s))) = (Fulfilled data, latency).
Proof.
  unfold executeWithRetry, bind. intros H.
  destruct (admits s) eqn:Hadm.
  - destruct (check_admits s Hadm) as (s1 & Hchk & _ & _ & Hw & Hsent & _).
    rewrite Hchk in H.
    apply attempts_returned in H.
    destruct H as (Hst & Hf & k & latency & Hs' & Hreply).
    split; [exact Hst|]. split; [exact Hf|].
    exists k, latency. rewrite <- Hsent, <- Hw. split; [exact Hs'|exact Hreply].
  - rewrite (check_rejects s Hadm) in H. discriminate H.
Qed.


(** *** The breaker state and the failure counter *)

Lemma counted_increment (s : Sys) :
  counted s -> counted (snd (incrementCircuitBreakerFailure s)).
Proof.
  unfold counted. intros H.
  destruct (increment_breaker s) as (Hf & _ & Hst). cbv zeta in Hf, Hst.
  rewrite Hf, Hst. unfold THRESHOLD in *.
  destruct (4 <=? failures (circuitBreaker (self s)))%nat eqn:Hle.
  - apply Nat.leb_le in Hle. lia.
  - apply Nat.leb_gt in Hle.
    destruct (state (circuitBreaker (self s))); lia.
Qed.

Lemma counted_check (s s1 : Sys) (r : Outcome unit) :
  counted s -> checkCircuitBreaker s = (r, s1) -> counted s1.
Proof.
  unfold counted, checkCircuitBreaker. intros H.
  destruct (state (circuitBreaker (self s))) eqn:Hst.
  - intros [= _ <-]. rewrite Hst. exact H.
  - destruct (_ <? _)%Z; intros [= _ <-]; [rewrite Hst; exact H|exact H].
  - intros [= _ <-]. rewrite Hst. exact H.
Qed.

Lemma counted_attempts (req : Request B) :
  forall (remaining attempt maxAttempts : nat) (lastError : option Failure)
         (s s' : Sys) (r : Outcome T),
    counted s ->
    attempts remaining attempt maxAttempts req lastError s = (r, s') ->
    counted s'.
Proof.
  induction remaining as [|remaining IH];
    intros attempt maxAttempts lastError s s' r Hc H.
  - cbn in H. injection H as _ <-. exact Hc.
  - cbn [attempts] in H.
    destruct (nextReply s) as [reply latency] eqn:Hw.
    destruct reply as [d|error].
    + rewrite (transport_fulfilled req s d latency Hw) in H.
      injection H as _ <-. unfold counted, THRESHOLD. cbn. lia.
    + rewrite (transport_rejected req s error latency Hw) in H.
      destruct (isClientError error); [injection H as _ <-; exact Hc|].
      unfold bind at 1 in H.
      pose proof (counted_increment (afterSend req latency s) Hc) as Hc1.
      pose proof (increment_frame (afterSend req latency s)) as Hfr.
      destruct (incrementCircuitBreakerFailure (afterSend req latency s)) as [r1 s1].
      cbn [fst snd] in Hfr, Hc1. destruct Hfr as (-> & _).
      unfold bind at 1 in H.
      destruct (attempt <? maxAttempts)%nat.
      * unfold sleep, modify in H. apply IH in H; [exact H|exact Hc1].
      * unfold ret in H. apply IH in H; [exact H|exact Hc1].
Qed.

Lemma counted_execute (retries : option nat) (req : Request B) (s : Sys) :
  counted s -> counted (snd (executeWithRetry retries req s)).
Proof.
  intros Hc. unfold executeWithRetry, bind.
  destruct (checkCircuitBreaker s) as [[[]|e] s1] eqn:Hchk.
  - apply counted_check in Hchk; [|exact Hc].
    destruct (attempts _ 1 _ req None s1) as [r s2] eqn:Hrun.
    apply counted_attempts in Hrun; assumption.
  - apply counted_check in Hchk; assumption.
Qed.

Lemma counted_runCalls (calls : list (@Call B)) :
  forall s : Sys, counted s -> counted (runCalls calls s).
Proof.
  induction calls as [|c rest IH]; intros s Hc; cbn [runCalls]; [exact Hc|].
  apply IH. apply counted_execute. exact Hc.
Qed.

(** X3.  On a client whose breaker is CLOSED exactly when fewer than five
    failures are counted, every sequence of calls keeps it so, whatever
    the collaborator answers and however long the calls are apart: CLOSED
    goes with a counter below the threshold, OPEN and HALF_OPEN with a
    counter that reached it. *)
Theorem breaker_closed_iff_below_threshold (calls : list (@Call B)) (s : Sys) :
  counted s -> counted (runCalls calls s).
Proof.
  revert s. induction calls as [|c rest IH]; intros s Hc; cbn [runCalls].
  - exact Hc.
  - apply IH. unfold executeWithRetry, bind.
    destruct (checkCircuitBreaker (pass (elapsed c) s)) as [[[]|e] s1] eqn:Hchk.
    + apply counted_check in Hchk; [|exact Hc].
      destruct (attempts _ 1 _ (request c) None s1) as [r s2] eqn:Hrun.
      apply counted_attempts in Hrun; assumption.
    + apply counted_check in Hchk; assumption.
Qed.

(** *** The failure counter as a function of the answers *)

Lemma replies_afterSend (req : Request B) (latency : Z) (s : Sys) :
  replies (afterSend req latency s) = (replies s ++ [fst (nextReply s)])%list.
Proof.
  unfold replies, afterSend, nextReply. cbn [self sent wire List.length].
  rewrite seq_S, map_app. reflexivity.
Qed.

Lemma tally_snoc (history : list (Reply T)) (r : Reply T) :
  tally (history ++ [r]) = countReply (tally history) r.
Proof. unfold tally. rewrite fold_left_app. reflexivity. Qed.

Lemma tallied_attempts (req : Request B) :
  forall (remaining attempt maxAttempts : nat) (lastError : option Failure)
         (s s' : Sys) (r : Outcome T),
    tallied s ->
    attempts remaining attempt maxAttempts req lastError s = (r, s') ->
    tallied s'.
Proof.
  induction remaining as [|remaining IH];
    intros attempt maxAttempts lastError s s' r Hc H.
  - cbn in H. injection H as _ <-. exact Hc.
  - cbn [attempts] in H.
    destruct (nextReply s) as [reply latency] eqn:Hw.
    pose proof (replies_afterSend req latency s) as Hrep. rewrite Hw in Hrep.
    cbn [fst] in Hrep.
    destruct reply as [d|error].
    + rewrite (transport_fulfilled req s d latency Hw) in H.
      injection H as _ <-. unfold tallied.
      match goal with
      | |- _ = tally (replies ?x) =>
          assert (replies x = replies (afterSend req latency s)) as -> by reflexivity
      end.
      rewrite Hrep, tally_snoc. reflexivity.
    + rewrite (transport_rejected req s error latency Hw) in H.
      destruct (isClientError error) eqn:Hce.
      * injection H as _ <-. unfold tallied.
        rewrite Hrep, tally_snoc. cbn [countReply]. rewrite Hce. exact Hc.
      * unfold bind at 1 in H.
        pose proof (increment_breaker (afterSend req latency s)) as (Hf & _).
        pose proof (increment_frame (afterSend req latency s)) as Hfr.
        destruct (incrementCircuitBreakerFailure (afterSend req latency s)) as [r1 s1].
        cbn [fst snd] in Hfr, Hf. destruct Hfr as (-> & _ & _ & Hwire & Hsent & _).
        assert (tallied s1) as Hc1.
        { unfold tallied. rewrite Hf.
          assert (replies s1 = replies (afterSend req latency s)) as ->
            by (unfold replies; rewrite Hsent; apply map_ext; intros k; rewrite Hwire;
                reflexivity).
          rewrite Hrep, tally_snoc. cbn [countReply]. rewrite Hce.
          f_equal. exact Hc. }
        unfold bind at 1 in H.
        destruct (attempt <? maxAttempts)%nat.
        -- unfold sleep, modify in H. apply IH in H; [exact H|exact Hc1].
        -- unfold ret in H. apply IH in H; [exact H|exact Hc1].
Qed.

Lemma tallied_execute (retries : option nat) (req : Request B) (s : Sys) :
  tallied s -> tallied (snd (executeWithRetry retries req s)).
Proof.
  intros Hc. unfold executeWithRetry, bind.
  destruct (admits s) eqn:Hadm.
  - destruct (check_admits s Hadm) as (s1 & Hchk & _ & _ & Hw & Hsent & _ & _ & Hf & _).
    rewrite Hchk.
    destruct (attempts _ 1 _ req None s1) as [r s2] eqn:Hrun.
    apply tallied_attempts in Hrun; [exact Hrun|].
    unfold tallied. rewrite Hf.
    assert (replies s1 = replies s) as ->
      by (unfold replies; rewrite Hsent; apply map_ext; intros k; rewrite Hw;
          reflexivity).
    exact Hc.
  - rewrite (check_rejects s Hadm). exact Hc.
Qed.

Lemma tallied_runCalls (calls : list (@Call B)) :
  forall s : Sys, tallied s -> tallied (runCalls calls s).
Proof.
  induction calls as [|c rest IH]; intros s Hc; cbn [runCalls]; [exact Hc|].
  apply IH. apply tallied_execute. exact Hc.
Qed.

(** X4.  On a client used from its construction on, the failure counter
    is a function of the collaborator's answers alone: the number of
    rejections that were not client errors since the last fulfilled
    answer.  A client error (a response with a status below 500) neither
    counts nor interrupts the run, and neither does the time between
    calls or a stay in OPEN or HALF_OPEN; the breaker is CLOSED exactly
    when that number is below five. *)
Theorem failure_counter_is_tally (name : string) (cfg : option RetryConfig)
    (answers : nat -> Reply T * Z) (start : Z) (calls : list (@Call B)) :
  let s := runCalls calls (mkSys start [] (new name cfg answers)) in
  failures (circuitBreaker (self s)) = tally (replies s) /\
  (state (circuitBreaker (self s)) = CLOSED <-> (tally (replies s) < THRESHOLD)%nat).
Proof.
  intros s.
  assert (tallied s) as Ht by (apply tallied_runCalls; reflexivity).
  assert (counted s) as Hc.
  { apply counted_runCalls. unfold counted, THRESHOLD. cbn. lia. }
  split; [exact Ht|]. unfold tallied in Ht. unfold counted in Hc.
  rewrite <- Ht. destruct (state (circuitBreaker (self s))).
  - split; [intros _; exact Hc|reflexivity].
  - split; [discriminate|lia].
  - split; [discriminate|lia].
Qed.


(** *** What a call raises *)

Lemma attempts_threw (req : Request B) :
  forall (remaining attempt maxAttempts : nat) (lastError : option Failure)
         (s s' : Sys) (e : Exn),
    attempts remaining attempt maxAttempts req lastError s = (Threw e, s') ->
    (remaining = 0%nat /\ s' = s /\
     e = transformError (serviceName (self s)) lastError) \/
    (exists k f latency,
       sent (self s') = (repeat req (S k) ++ sent (self s))%list /\
       wire (self s) (k + List.length (sent (self s))) = (Rejected f, latency) /\
       e = transformError (serviceName (self s)) (Some f) /\
       (isClientError f = true \/ S k = remaining)).
Proof.
  induction remaining as [|remaining IH];
    intros attempt maxAttempts lastError s s' e H.
  - cbn in H. injection H as <- <-. left. repeat split.
  - right. cbn [attempts] in H.
    destruct (nextReply s) as [reply latency] eqn:Hw.
    destruct reply as [d|error].
    + rewrite (transport_fulfilled req s d latency Hw) in H. discriminate H.
    + rewrite (transport_rejected req s error latency Hw) in H.
      destruct (isClientError error) eqn:Hce.
      * injection H as <- <-. exists 0%nat, error, latency.
        split; [reflexivity|]. split; [exact Hw|]. split; [reflexivity|].
        left. exact Hce.
      * unfold bind at 1 in H.
        pose proof (increment_frame (afterSend req latency s)) as Hfr.
        destruct (incrementCircuitBreakerFailure (afterSend req latency s)) as [r1 s1].
        cbn [fst snd] in Hfr.
        destruct Hfr as (-> & _ & _ & Hwire & Hsent & _ & Hname).
        unfold bind at 1 in H.
        assert (exists s2,
                   attempts remaining (S attempt) maxAttempts req (Some error) s2
                   = (Threw e, s') /\
                   wire (self s2) = wire (self s1) /\ sent (self s2) = sent (self s1) /\
                   serviceName (self s2) = serviceName (self s1))
          as (s2 & H2 & Hw2 & Hs2 & Hn2).
        { destruct (attempt <? maxAttempts)%nat.
          - unfold sleep, modify in H. eexists. split; [exact H|]. repeat split.
          - unfold ret in H. eexists. split; [exact H|]. repeat split. }
        apply IH in H2.
        destruct H2 as [(-> & -> & ->)|(k & f & lat & Hsent' & Hreply & -> & Hlast)].
        -- exists 0%nat, error, latency. rewrite Hs2, Hsent, Hn2, Hname.
           split; [reflexivity|]. split; [exact Hw|]. split; [reflexivity|].
           right. reflexivity.
        -- exists (S k), f, lat. rewrite Hsent', Hs2, Hsent, Hn2, Hname.
           cbn [afterSend self sent serviceName].
           split; [apply repeat_cons_app|].
           rewrite Hw2, Hwire, Hs2, Hsent in Hreply.
           cbn [afterSend self sent wire List.length] in Hreply.
           replace (S k + List.length (sent (self s)))%nat
             with (k + S (List.length (sent (self s))))%nat by lia.
           split; [exact Hreply|]. split; [reflexivity|].
           destruct Hlast as [Hcl|Hk]; [left; exact Hcl|right; lia].
Qed.

(** X5.  What a call raises is one of three things.  Rejected by the
    breaker: the breaker-open error, with the client left exactly as it
    was.  Let through with zero attempts allowed: nothing is sent and the
    error is the runtime's TypeError for reading [message] of
    [undefined], not a RoboticsError.  Otherwise: the transformed
    rejection of the last request sent, which was either a client error
    (a response with a status below 500) or the answer to the last
    allowed attempt. *)
Theorem raised_error_is_last_rejection (retries : option nat) (req : Request B)
    (s s' : Sys) (e : Exn) :
  let n := match retries with Some n => n | None => maxAttempts (retryConfig (self s)) end in
  executeWithRetry retries req s = (Threw e, s') ->
  (admits s = false /\ s' = s /\ e = breakerOpenError (serviceName (self s))) \/
  (admits s = true /\ n = 0%nat /\ sent (self s') = sent (self s) /\
   e = TypeError "Cannot read properties of undefined (reading 'message')") \/
  (admits s = true /\
   exists k f latency,
     sent (self s') = (repeat req (S k) ++ sent (self s))%list /\
     wire (self s) (k + List.length (sent (self s))) = (Rejected f, latency) /\
     e = transformError (serviceName (self s)) (Some f) /\
     (isClientError f = true \/ S k = n)).
Proof.
  intros n. unfold executeWithRetry. fold n. unfold bind. intros H.
  destruct (admits s) eqn:Hadm.
  - right.
    destruct (check_admits s Hadm) as (s1 & Hchk & _ & _ & Hw & Hsent & _ & Hname & _).
    rewrite Hchk in H. apply attempts_threw in H.
    rewrite Hw, Hsent, Hname in H.
    destruct H as [(Hn & -> & ->)|H].
    + left. split; [reflexivity|]. split; [exact Hn|]. split; [exact Hsent|].
      reflexivity.
    + right. split; [reflexivity|]. exact H.
  - left. rewrite (check_rejects s Hadm) in H. injection H as <- <-.
    repeat split.
Qed.

(** *** Health check *)

(** X6.  The health check never raises: it answers [true] or [false].
    It answers [true] only after sending a request, and the breaker is
    then CLOSED with no failure counted; while the breaker rejects calls
    it answers [false] without sending anything and leaves the client as
    it was.  In every case it leaves the state its GET of /health
    leaves, retries and failure counting included. *)
Theorem healthCheck_never_raises (s : Sys) :
  let s' := snd (healthCheck s) in
  s' = snd (get "/health" s) /\
  (exists up : bool,
     fst (healthCheck s) = Returned up /\
     (up = true ->
      state (circuitBreaker (self s')) = CLOSED /\
      failures (circuitBreaker (self s')) = 0%nat /\
      (List.length (sent (self s)) < List.length (sent (self s')))%nat)) /\
  (admits s = false -> healthCheck s = (Returned false, s)).
Proof.
  cbv zeta. unfold healthCheck, tryCatch, bind, get.
  destruct (executeWithRetry None (mkRequest "GET" "/health" None) s)
    as [[data|e] s1] eqn:Hget.
  - cbn [fst snd ret]. split; [reflexivity|]. split.
    + exists true. split; [reflexivity|]. intros _.
      apply returned_call_state in Hget.
      destruct Hget as (Hst & Hf & k & latency & Hsent & _).
      split; [exact Hst|]. split; [exact Hf|].
      rewrite Hsent, length_app, repeat_length. lia.
    + intros Hadm. unfold executeWithRetry, bind in Hget.
      rewrite (check_rejects s Hadm) in Hget. discriminate Hget.
  - cbn [fst snd ret]. split; [reflexivity|]. split.
    + exists false. split; [reflexivity|]. discriminate.
    + intros Hadm. unfold executeWithRetry, bind in Hget.
      rewrite (check_rejects s Hadm) in Hget. injection Hget as _ <-.
      reflexivity.
Qed.

(** *** How long a call takes *)





End ClientHistory.

(** * Further properties of the mission controller *)

Section MissionPasses.
Import MissionController.

Lemma reactLoop_iteration_bound :
  forall fuel w,
    (iteration w <= maxIterations)%nat ->
    (iteration (snd (reactLoop fuel w)) <= maxIterations)%nat.
Proof.
  induction fuel as [|fuel IH]; intros w Hle; cbn [reactLoop].
  - destruct (loopGuard w); exact Hle.
  - destruct (loopGuard w) eqn:Hg; [|exact Hle].
    unfold loopGuard in Hg. apply andb_true_iff in Hg. destruct Hg as [Hlt _].
    apply Nat.ltb_lt in Hlt.
    unfold bind. pose proof (iterate_iteration w) as Hn.
    destruct (iterate w) as [[[|]|e] w1]; unfold ret; cbn [snd] in Hn |- *.
    + lia.
    + apply IH. lia.
    + lia.
Qed.

Lemma MissionStatus_eqb_neq (a b : MissionStatus) :
  a <> b -> MissionStatus_eqb a b = false.
Proof. destruct a, b; intros H; try reflexivity; contradiction H; reflexivity. Qed.

Lemma MissionStatus_eqb_eq (a b : MissionStatus) :
  MissionStatus_eqb a b = true -> a = b.
Proof. destruct a, b; intros H; try reflexivity; discriminate H. Qed.

Lemma iterate_startTime (w : World) : startTime (snd (iterate w)) = startTime w.
Proof.
  assert (H : preserves startTime iterate).
  { unfold iterate.
    pose proof controllerView_startTime. pose proof ignoresWorldState_startTime.
    frame;
      first [ apply preserves_assessSituation | apply preserves_planNextAction
            | apply preserves_executeAction | apply preserves_observeOutcome
            | apply preserves_updateWorldModel | apply preserves_evaluateProgress
            | apply preserves_replanMission
            | apply preserves_modify; reflexivity ]; assumption. }
  apply H.
Qed.

(** The worlds [executeMission] goes through: after the mission-start
    write, after the loop, after the finalization. *)
Lemma start_frame (m : Mission.t) (w : World) :
  let w1 := snd (GraphRAGClient.storeEpisode
                   (MissionStarted (Mission.name m) (Mission.type m))
                   "mission_start" (9 # 10) (started m w)) in
  mission w1 = Some m /\ iteration w1 = 0%nat /\ startTime w1 = now w /\
  videoAgent w1 = videoAgent w /\ mageAgent w1 = mageAgent w.
Proof.
  pose proof (fun X (f : World -> X) (H : storeView f) =>
                preserves_storeEpisode f H
                  (MissionStarted (Mission.name m) (Mission.type m))
                  "mission_start" (9 # 10) (started m w)) as Hfr.
  cbv zeta.
  rewrite (Hfr _ mission (controllerView_storeView _ controllerView_mission)).
  rewrite (Hfr _ iteration (controllerView_storeView _ controllerView_iteration)).
  rewrite (Hfr _ startTime (controllerView_storeView _ controllerView_startTime)).
  rewrite (Hfr _ videoAgent ltac:(unfold storeView; reflexivity)).
  rewrite (Hfr _ mageAgent ltac:(unfold storeView; reflexivity)).
  repeat split.
Qed.

(** X8.  [executeMission] never counts more than [maxIterations] passes.
    Nothing in the loop marks an objective completed, so a mission that
    comes with an open objective and is neither aborted nor failed runs
    all fifty passes before it returns a result, and the result still
    shows the objective open. *)
Theorem open_mission_runs_all_passes (m : Mission.t) (w : World) :
  let r := executeMission m w in
  (iteration (snd r) <= maxIterations)%nat /\
  forall res,
    fst r = Returned res ->
    forallb MissionObjective.completed (Mission.objectives m) = false ->
    Mission.status m <> FAILED ->
    MissionResult.status res <> ABORTED ->
    iteration (snd r) = maxIterations /\
    MissionResult.status res = Mission.status m /\
    In ("Took " ++ show_nat maxIterations ++ " iterations") (MissionResult.lessons res).
Proof.
  cbv zeta. rewrite executeMission_cases.
  destruct (start_frame m w) as (Hm & Hi & _).
  destruct (GraphRAGClient.storeEpisode _ _ _ _) as [[[]|e0] w1]; cbn [fst snd] in *.
  2:{ split; [unfold maxIterations; lia|]. intros ? Hd; discriminate Hd. }
  pose proof (reactLoop_iteration_bound maxIterations w1 ltac:(lia)) as Hbound.
  pose proof (reactLoop_status m maxIterations w1 Hm) as Hst.
  pose proof (reactLoop_ends m maxIterations w1) as Hends.
  destruct (reactLoop maxIterations w1) as [[[]|e1] w2]; cbn [fst snd] in *.
  2:{ unfold failedWith. cbn [fst snd iteration set_mission].
      split; [exact Hbound|]. intros ? Hd; discriminate Hd. }
  specialize (Hends w2 Hm ltac:(lia) eq_refl).
  pose proof (preserves_finalizeMission iteration
                (controllerView_storeView _ controllerView_iteration) w2) as Hfi.
  pose proof (fun m2 => finalizeMission_result m2 w2) as Hres.
  destruct (finalizeMission w2) as [[res|e2] w3]; cbn [fst snd] in *.
  2:{ unfold failedWith. cbn [fst snd iteration set_mission]. rewrite Hfi.
      split; [exact Hbound|]. intros ? Hd; discriminate Hd. }
  rewrite Hfi. split; [exact Hbound|].
  intros res' Hr Hopen Hnf Hna. injection Hr as <-.
  destruct Hst as [Hm2|[Hm2 _]].
  - rewrite (Hres m res Hm2 eq_refl) in Hna |- *.
    cbn [resultOf MissionResult.status MissionResult.lessons] in Hna |- *.
    unfold loopGuard, isMissionComplete in Hends. rewrite Hm2, Hopen in Hends.
    rewrite (MissionStatus_eqb_neq _ _ Hna), (MissionStatus_eqb_neq _ _ Hnf) in Hends.
    cbn [orb negb] in Hends. rewrite andb_true_r in Hends. apply Nat.ltb_ge in Hends.
    assert (iteration w2 = maxIterations) as Hit by lia.
    split; [exact Hit|]. split; [reflexivity|].
    rewrite Hit. right. left. reflexivity.
  - rewrite (Hres _ res Hm2 eq_refl) in Hna.
    cbn [resultOf MissionResult.status Mission.set_status Mission.status] in Hna.
    contradiction Hna. reflexivity.
Qed.

(** X9.  What a returned result reports about the mission is what the
    mission came with: its identifier, the number of its objectives and
    the number of them that were already marked completed.  Distance and
    energy are always 0 and the telemetry is empty; the start time the
    duration is measured from is the clock at invocation, and the mission
    object ends with the objectives it came with. *)
Theorem result_reports_mission_as_given (m : Mission.t) (w : World)
    (res : MissionResult.t) :
  let r := executeMission m w in
  fst r = Returned res ->
  MissionResult.missionId res = Mission.id m /\
  MissionResult.objectivesTotal res = List.length (Mission.objectives m) /\
  MissionResult.objectivesCompleted res =
    List.length (filter MissionObjective.completed (Mission.objectives m)) /\
  (MissionResult.objectivesCompleted res <= MissionResult.objectivesTotal res)%nat /\
  MissionResult.distanceTraveled res = 0%Q /\
  MissionResult.energyConsumed res = 0%Q /\
  MissionResult.telemetry res = [] /\
  startTime (snd r) = now w /\
  option_map Mission.objectives (mission (snd r)) = Some (Mission.objectives m).
Proof.
  cbv zeta. rewrite executeMission_cases.
  destruct (start_frame m w) as (Hm & _ & Hs & _).
  destruct (GraphRAGClient.storeEpisode _ _ _ _) as [[[]|e0] w1]; cbn [fst snd] in *;
    [|intros Hd; discriminate Hd].
  pose proof (reactLoop_status m maxIterations w1 Hm) as Hst.
  assert (startTime (snd (reactLoop maxIterations w1)) = startTime w1) as Hs2.
  { generalize w1. generalize maxIterations at 1.
    induction n as [|fuel IH]; intros w0; cbn [reactLoop].
    - destruct (loopGuard w0); reflexivity.
    - destruct (loopGuard w0); [|reflexivity].
      pose proof (iterate_startTime w0) as Hit. unfold bind.
      destruct (iterate w0) as [[[|]|e] w0']; cbn [snd] in Hit |- *;
        [exact Hit| |exact Hit].
      rewrite IH. exact Hit. }
  destruct (reactLoop maxIterations w1) as [[[]|e1] w2]; cbn [fst snd] in *;
    [|intros Hd; discriminate Hd].
  pose proof (preserves_finalizeMission startTime
                (controllerView_storeView _ controllerView_startTime) w2) as Hfs.
  pose proof (preserves_finalizeMission mission
                (controllerView_storeView _ controllerView_mission) w2) as Hfm.
  pose proof (fun m2 => finalizeMission_result m2 w2) as Hres.
  destruct (finalizeMission w2) as [[res'|e2] w3]; cbn [fst snd] in *;
    [|intros Hd; discriminate Hd].
  intros Hr. injection Hr as ->.
  rewrite Hfs, Hs2, Hs, Hfm.
  assert (exists st, mission w2 = Some (Mission.set_status st m)) as (st & Hm2).
  { destruct Hst as [H|[H _]].
    - exists (Mission.status m). rewrite set_status_same. exact H.
    - exists ABORTED. exact H. }
  rewrite (Hres _ res Hm2 eq_refl), Hm2.
  cbn [resultOf MissionResult.missionId MissionResult.objectivesTotal
       MissionResult.objectivesCompleted MissionResult.distanceTraveled
       MissionResult.energyConsumed MissionResult.telemetry
       Mission.set_status Mission.id Mission.objectives option_map].
  repeat split. apply filter_length_le.
Qed.

(** X10.  [executeMission] does not reset the status it is given: a
    mission handed over as ABORTED or FAILED runs no pass of the loop,
    uses neither perception nor reasoning, and a returned result carries
    that very status. *)
Theorem ended_mission_runs_no_pass (m : Mission.t) (w : World) :
  Mission.status m = ABORTED \/ Mission.status m = FAILED ->
  let r := executeMission m w in
  iteration (snd r) = 0%nat /\
  videoAgent (snd r) = videoAgent w /\
  mageAgent (snd r) = mageAgent w /\
  forall res, fst r = Returned res -> MissionResult.status res = Mission.status m.
Proof.
  intros Hended. cbv zeta. rewrite executeMission_cases.
  destruct (start_frame m w) as (Hm & Hi & _ & Hv & Hg).
  destruct (GraphRAGClient.storeEpisode _ _ _ _) as [[[]|e0] w1]; cbn [fst snd] in *.
  2:{ split; [exact Hi|]. split; [exact Hv|]. split; [exact Hg|].
      intros ? Hd; discriminate Hd. }
  assert (Hguard : loopGuard w1 = false).
  { unfold loopGuard, isMissionComplete. rewrite Hm.
    destruct Hended as [-> | ->]; cbn; rewrite ?orb_true_r; apply andb_false_r. }
  rewrite (reactLoop_guard_false _ _ Hguard).
  pose proof (fun X (f : World -> X) (H : storeView f) =>
                preserves_finalizeMission f H w1) as Hfr.
  pose proof (Hfr _ iteration (controllerView_storeView _ controllerView_iteration)) as Hi2.
  pose proof (Hfr _ videoAgent ltac:(unfold storeView; reflexivity)) as Hv2.
  pose proof (Hfr _ mageAgent ltac:(unfold storeView; reflexivity)) as Hg2.
  clear Hfr.
  pose proof (finalizeMission_result m w1) as Hres.
  destruct (finalizeMission w1) as [[res|e2] w3]; cbn [fst snd] in *.
  - rewrite Hi2, Hi, Hv2, Hv, Hg2, Hg.
    split; [reflexivity|]. split; [reflexivity|]. split; [reflexivity|].
    intros res' Hr. injection Hr as <-.
    rewrite (Hres res Hm eq_refl). reflexivity.
  - unfold failedWith. cbn [fst snd iteration videoAgent mageAgent set_mission].
    rewrite Hi2, Hi, Hv2, Hv, Hg2, Hg.
    split; [reflexivity|]. split; [reflexivity|]. split; [reflexivity|].
    intros ? Hd; discriminate Hd.
Qed.

End MissionPasses.

Section Perception.
Import MissionController.

(** X11.  The safety priority of a detection is a function of its
    classification: HIGH for a person or a vehicle, MEDIUM for a bicycle
    and LOW for everything else, the categories [categoryMap] does not
    know included. *)
Theorem priority_follows_classification (category : string) :
  calculateSafetyPriority category =
    match mapToObjectClassification category with
    | PERSON | VEHICLE => HIGH
    | BICYCLE => MEDIUM
    | _ => LOW
    end.
Proof.
  unfold calculateSafetyPriority, mapToObjectClassification. cbv zeta.
  destruct (String.eqb (toLowerCase category) "person"); [reflexivity|].
  destruct (String.eqb (toLowerCase category) "vehicle"); [reflexivity|].
  destruct (String.eqb (toLowerCase category) "bicycle"); [reflexivity|].
  repeat match goal with
         | |- context [if ?b then _ else _] => destruct b
         end; reflexivity.
Qed.



Lemma detectObjects_filtered (imageUrl : string) (threshold : Q) (w : World) :
  exists detections w1,
    VideoAgentClient.detectObjects imageUrl threshold w = (Returned detections, w1) /\
    Forall (fun d => Qle_bool threshold (Detection.confidence d) = true) detections.
Proof.
  unfold VideoAgentClient.detectObjects, tryCatch, bind.
  destruct (VideoAgentClient.processFrame _ w) as [[response|e] w1]; unfold ret.
  - eexists. eexists. split; [reflexivity|].
    apply Forall_forall. intros d Hin. apply filter_In in Hin. apply Hin.
  - eexists. eexists. split; [reflexivity|]. constructor.
Qed.



(** X13.  [detectObjects] never raises.  Every detection it returns
    reaches the threshold and comes from the perception answer, in the
    answer's order; when the perception call raises, or the answer has no
    detections, it returns the empty list.  It uses the perception client
    only. *)
Theorem detectObjects_degrades (imageUrl : string) (threshold : Q) (w : World) :
  let request := VideoProcessingRequest.mk imageUrl ["object_detection"] "fast" in
  exists detections w1,
    VideoAgentClient.detectObjects imageUrl threshold w = (Returned detections, w1) /\
    w1 = snd (VideoAgentClient.processFrame request w) /\
    Forall (fun d => Qle_bool threshold (Detection.confidence d) = true) detections /\
    match fst (VideoAgentClient.processFrame request w) with
    | Returned response =>
        detections =
          filter (fun d => Qle_bool threshold (Detection.confidence d))
            (match VideoProcessingResponse.detections response with
             | Some ds => ds
             | None => []
             end)
    | Threw _ => detections = []
    end /\
    mageAgent w1 = mageAgent w /\ graphRAG w1 = graphRAG w /\
    mission w1 = mission w /\ worldState w1 = worldState w /\
    iteration w1 = iteration w.
Proof.
  cbv zeta.
  destruct (detectObjects_filtered imageUrl threshold w) as (ds & w1 & Hrun & Hall).
  exists ds, w1. split; [exact Hrun|].
  unfold VideoAgentClient.detectObjects, tryCatch, bind in Hrun.
  pose proof (preserves_detectObjects mission controllerView_mission imageUrl threshold w)
    as Hm.
  pose proof (preserves_detectObjects worldState controllerView_worldState
                imageUrl threshold w) as Hws.
  pose proof (preserves_detectObjects iteration controllerView_iteration
                imageUrl threshold w) as Hi.
  assert (Hclients : forall request,
            mageAgent (snd (VideoAgentClient.processFrame request w)) = mageAgent w /\
            graphRAG (snd (VideoAgentClient.processFrame request w)) = graphRAG w).
  { intros request. unfold VideoAgentClient.processFrame, tryCatch, viaVideoAgent, throw.
    destruct (BaseClient.post _ _ _) as [[r|e] s]; cbn; split; reflexivity. }
  specialize (Hclients (VideoProcessingRequest.mk imageUrl ["object_detection"] "fast")).
  unfold VideoAgentClient.detectObjects, tryCatch, bind in Hm, Hws, Hi.
  destruct (VideoAgentClient.processFrame _ w) as [[response|e] w2];
    unfold ret in *; cbn [fst snd] in *; injection Hrun as <- <-;
    (split; [reflexivity|]); (split; [exact Hall|]); (split; [reflexivity|]);
    destruct Hclients as (Hg & Hr); auto.
Qed.

End Perception.

Section Actions.
Import MissionController.

Lemma storeView_sleep {X} (f : World -> X) (ms : Z) :
  storeView f -> preserves f (sleep ms).
Proof.
  intros Hf. unfold sleep. apply preserves_modify. intro w.
  apply (Hf w (now w + ms) (ms :: slept w) (graphRAG w)).
Qed.

Lemma storeView_executeAction {X} (f : World -> X) (action : Action.t) :
  storeView f -> preserves f (executeAction action).
Proof.
  intros Hstore. unfold executeAction.
  apply preserves_bind; [apply preserves_storeEpisode; exact Hstore|intros _].
  cbv zeta.
  repeat match goal with
         | |- preserves _ (if ?b then _ else _) => destruct b
         end;
    try apply preserves_ret.
  - unfold inspectArea. frame.
  - unfold collectData. frame.
  - unfold deliverPackage. frame.
  - unfold scanForPeople. frame.
  - unfold pauseForSafety.
    apply preserves_bind; [apply preserves_gets|intros ws].
    destruct ws; [|apply preserves_ret].
    apply preserves_bind; [apply preserves_storeEpisode; exact Hstore|intros _].
    apply preserves_bind; [apply storeView_sleep; exact Hstore|intros _].
    apply preserves_ret.
Qed.

(** X14.  No action moves anything but the clock, the sleep log and the
    knowledge-store client: whatever the action type and however the
    store answers, [executeAction] leaves the mission (status and
    objectives included), the world state, the pass counter, the start
    time and the perception and reasoning clients as they were.  In
    particular the "abort" action does not abort the mission. *)
Theorem executeAction_only_writes_memory (action : Action.t) (w : World) :
  exists t sl store,
    snd (executeAction action w) =
      mkWorld t sl (videoAgent w) (mageAgent w) store (mission w) (worldState w)
        (iteration w) (startTime w).
Proof.
  pose proof (storeView_executeAction
                (fun w => (videoAgent w, mageAgent w, mission w, worldState w,
                           iteration w, startTime w))
                action ltac:(unfold storeView; reflexivity) w) as H.
  destruct (snd (executeAction action w)) as [t sl v g r m ws i st].
  cbn in H. injection H as -> -> -> -> -> ->.
  exists t, sl, r. reflexivity.
Qed.

Lemma evaluate_shapes (m : option Mission.t) (ws : option WorldState.t) :
  (exists reason,
     evaluate m ws = Evaluation.mk true false (Some reason) /\
     isReplanReason reason = true) \/
  (exists reason,
     evaluate m ws = Evaluation.mk false true (Some reason) /\
     isReplanReason reason = false) \/
  evaluate m ws = continueEvaluation.
Proof.
  unfold evaluate.
  destruct m as [mission|], ws as [worldState|];
    try (right; left; eexists; split; reflexivity).
  cbv zeta.
  destruct (3 <? _)%nat; [left; eexists; split; reflexivity|].
  destruct (above _ _); [right; left; eexists; split; reflexivity|].
  destruct (below _ _); [right; left; eexists; split; reflexivity|].
  destruct (Qlt_bool _ _); [right; left; eexists; split; reflexivity|].
  destruct (0 <? _)%nat; [left; eexists; split; reflexivity|].
  right. right. reflexivity.
Qed.

(** X15.  The evaluator never asks for replanning and for an abort at
    once, and gives a reason exactly when it asks for one of them.
    Replanning is asked for crowding or system errors only, an abort
    never for these; without a mission or a world state it asks for an
    abort. *)
Theorem evaluation_is_exclusive (m : option Mission.t) (ws : option WorldState.t) :
  let e := evaluate m ws in
  Evaluation.needsReplanning e && Evaluation.shouldAbort e = false /\
  (Evaluation.reason e = None <->
   Evaluation.needsReplanning e = false /\ Evaluation.shouldAbort e = false) /\
  (forall reason, Evaluation.reason e = Some reason ->
     Evaluation.needsReplanning e = isReplanReason reason /\
     Evaluation.shouldAbort e = negb (isReplanReason reason)) /\
  ((m = None \/ ws = None) ->
   e = Evaluation.mk false true (Some NoMissionOrWorldState)).
Proof.
  cbv zeta. split; [|split; [|split]].
  - destruct (evaluate_shapes m ws) as [(r & -> & _)|[(r & -> & _)| ->]]; reflexivity.
  - destruct (evaluate_shapes m ws) as [(r & -> & _)|[(r & -> & _)| ->]]; cbn;
      split; try discriminate; try (intros [H1 H2]; discriminate); auto.
  - intros reason.
    destruct (evaluate_shapes m ws) as [(r & -> & Hr)|[(r & -> & Hr)| ->]]; cbn;
      intros H; try discriminate H; injection H as <-; rewrite Hr; split; reflexivity.
  - intros [-> | ->]; [reflexivity|]. destruct m; reflexivity.
Qed.

End Actions.

Section ServerRoutes.
Import MissionController.

(** X16.  The server's priority table and the controller's agree except
    on bicycles and animals, which the server ranks one step higher:
    HIGH instead of MEDIUM for a bicycle, MEDIUM instead of LOW for an
    animal. *)
Theorem server_priority_differs_on_bicycle_and_animal (category : string) :
  Server.determineSafetyPriority category =
    match mapToObjectClassification category with
    | BICYCLE => HIGH
    | ANIMAL => MEDIUM
    | _ => calculateSafetyPriority category
    end.
Proof.
  unfold Server.determineSafetyPriority, calculateSafetyPriority,
    mapToObjectClassification. cbv zeta.
  destruct (String.eqb (toLowerCase category) "person"); [reflexivity|].
  destruct (String.eqb (toLowerCase category) "vehicle"); [reflexivity|].
  destruct (String.eqb (toLowerCase category) "bicycle"); [reflexivity|].
  destruct (String.eqb (toLowerCase category) "animal"); [reflexivity|].
  cbn [orb].
  repeat match goal with
         | |- context [if ?b then _ else _] => destruct b
         end; reflexivity.
Qed.



End ServerRoutes.

Section StatusMachine.
Import MissionController.



End StatusMachine.

(** * Properties of the task polling loop *)

Section TaskPolling.
Context {B : Type}.
Import BaseClient MageAgentTasks.
Let Sys : Type := BaseClient.Sys B TaskResponse.t.

Lemma retryDelay_nonneg (cfg : RetryConfig) (attempt : nat) :
  0 <= delayMs cfg -> 0 <= backoffMultiplier cfg -> 0 <= retryDelay cfg attempt.
Proof.
  intros Hd Hm. unfold retryDelay. apply Z.mul_nonneg_nonneg; [exact Hd|].
  apply Z.pow_nonneg. exact Hm.
Qed.

Lemma attempts_time_mono {T : Type} (req : Request B) :
  forall (remaining attempt maxAttempts : nat) (lastError : option Failure)
         (s s' : BaseClient.Sys B T) (r : Outcome T),
    punctual s ->
    attempts remaining attempt maxAttempts req lastError s = (r, s') ->
    time s <= time s'.
Proof.
  induction remaining as [|remaining IH];
    intros attempt maxAttempts lastError s s' r Hp H.
  - cbn in H. injection H as _ <-. lia.
  - cbn [attempts] in H.
    pose proof Hp as (Hlat & Hd & Hm).
    destruct (nextReply s) as [reply latency] eqn:Hw.
    assert (0 <= latency) as Hl.
    { specialize (Hlat (List.length (sent (self s)))). unfold nextReply in Hw.
      rewrite Hw in Hlat. exact Hlat. }
    destruct reply as [d|error].
    + rewrite (transport_fulfilled req s d latency Hw) in H.
      injection H as _ <-. cbn. lia.
    + rewrite (transport_rejected req s error latency Hw) in H.
      destruct (isClientError error).
      * injection H as _ <-. cbn. lia.
      * unfold bind at 1 in H.
        pose proof (increment_frame (afterSend req latency s)) as Hfr.
        destruct (incrementCircuitBreakerFailure (afterSend req latency s)) as [r1 s1].
        cbn [fst snd] in Hfr.
        destruct Hfr as (-> & Htime & _ & Hwire & _ & Hcfg & _).
        cbn [afterSend time self wire retryConfig] in Htime, Hwire, Hcfg.
        unfold bind at 1 in H.
        destruct (attempt <? maxAttempts)%nat.
        -- unfold sleep, modify in H. apply IH in H.
           ++ cbn [time] in H. rewrite Htime in H.
              pose proof (retryDelay_nonneg (retryConfig (self s)) attempt Hd Hm).
              cbn [afterSend self retryConfig] in H. lia.
           ++ unfold punctual. cbn [self]. rewrite Hwire, Hcfg. exact Hp.
        -- unfold ret in H. apply IH in H.
           ++ rewrite Htime in H. lia.
           ++ unfold punctual. rewrite Hwire, Hcfg. exact Hp.
Qed.

Lemma getTask_frame (taskId : string) (s : Sys) :
  let s' := snd (getTask taskId s) in
  wire (self s') = wire (self s) /\
  retryConfig (self s') = retryConfig (self s) /\
  (exists k, sent (self s') = (repeat (taskRequest taskId) k ++ sent (self s))%list) /\
  (punctual s -> time s <= time s').
Proof.
  cbv zeta. unfold getTask, tryCatch, get, throw.
  assert (snd (match executeWithRetry None (mkRequest "GET" ("/api/tasks/" ++ taskId) None) s
               with
               | (Returned a, s') => (Returned a, s')
               | (Threw e, s') => (Threw e, s')
               end)
          = snd (executeWithRetry None (mkRequest "GET" ("/api/tasks/" ++ taskId) None) s))
    as -> by (destruct (executeWithRetry _ _ s) as [[a|e] s1]; reflexivity).
  unfold executeWithRetry, bind.
  destruct (admits s) eqn:Hadm.
  - destruct (check_admits s Hadm) as (s1 & Hchk & Ht & _ & Hw & Hsent & Hcfg & _).
    rewrite Hchk.
    destruct (attempts _ 1 _ _ None s1) as [r s2] eqn:Hrun. cbn [snd].
    pose proof (attempts_frame _ _ _ _ _ _ _ _ Hrun)
      as (Hw2 & _ & Hc2 & k & sl & Hs2 & _).
    rewrite Hw2, Hc2, Hw, Hcfg, Hs2, Hsent.
    split; [reflexivity|]. split; [reflexivity|].
    split; [exists k; reflexivity|].
    intros Hp. apply attempts_time_mono in Hrun; [lia|].
    unfold punctual. rewrite Hw, Hcfg. exact Hp.
  - rewrite (check_rejects s Hadm). cbn [snd].
    split; [reflexivity|]. split; [reflexivity|].
    split; [exists 0%nat; reflexivity|]. intros _. lia.
Qed.

Lemma getTask_returned (taskId : string) (s : Sys) (task : TaskResponse.t) :
  fst (getTask taskId s) = Returned task ->
  exists k latency,
    List.length (sent (self (snd (getTask taskId s)))) = S k /\
    wire (self s) k = (Fulfilled task, latency).
Proof.
  unfold getTask, tryCatch, get, throw.
  destruct (executeWithRetry None (mkRequest "GET" ("/api/tasks/" ++ taskId) None) s)
    as [[a|e] s1] eqn:Hrun; cbn [fst snd]; [|discriminate].
  intros [= ->].
  apply returned_call_state in Hrun.
  destruct Hrun as (_ & _ & k & latency & Hsent & Hreply).
  exists (k + List.length (sent (self s)))%nat, latency.
  split; [|exact Hreply].
  rewrite Hsent, length_app, repeat_length. lia.
Qed.

Lemma waitLoop_ends (taskId : string) (timeoutMs startTime : Z) :
  forall (fuel : nat) (s : Sys),
    punctual s ->
    timeoutMs - (time s - startTime) <= 1000 * Z.of_nat fuel ->
    (exists r, fst (waitLoop fuel taskId timeoutMs startTime s) = Some r) /\
    forall fuel',
      timeoutMs - (time s - startTime) <= 1000 * Z.of_nat fuel' ->
      waitLoop fuel' taskId timeoutMs startTime s
      = waitLoop fuel taskId timeoutMs startTime s.
Proof.
  induction fuel as [|fuel IH]; intros s Hp Hfuel.
  - assert ((time s - startTime <? timeoutMs)%Z = false) as Hg
      by (apply Z.ltb_ge; lia).
    split.
    + cbn [waitLoop]. rewrite Hg. eexists. reflexivity.
    + intros fuel' _. destruct fuel'; cbn [waitLoop]; rewrite Hg; reflexivity.
  - destruct (time s - startTime <? timeoutMs)%Z eqn:Hg.
    2:{ split.
        - cbn [waitLoop]. rewrite Hg. eexists. reflexivity.
        - intros fuel' _. destruct fuel'; cbn [waitLoop]; rewrite Hg; reflexivity. }
    apply Z.ltb_lt in Hg.
    destruct (getTask_frame taskId s) as (Hw & Hcfg & _ & Hmono).
    specialize (Hmono Hp).
    assert (forall s1, s1 = snd (getTask taskId s) ->
              punctual (snd (sleep 1000 s1)) /\
              timeoutMs - (time (snd (sleep 1000 s1)) - startTime)
                <= 1000 * Z.of_nat fuel) as Hnext.
    { intros s1 ->. unfold sleep, modify. cbn [snd time self].
      split; [unfold punctual; cbn [self]; rewrite Hw, Hcfg; exact Hp|]. lia. }
    split.
    + cbn [waitLoop]. apply Z.ltb_lt in Hg. rewrite Hg.
      destruct (getTask taskId s) as [[task|e] s1]; cbn [snd] in *.
      * destruct (isSettled task); [eexists; reflexivity|].
        destruct (Hnext s1 eq_refl) as (Hp1 & Hf1).
        apply (IH _ Hp1 Hf1).
      * eexists. reflexivity.
    + intros fuel' Hfuel'. destruct fuel' as [|fuel']; [lia|].
      cbn [waitLoop]. apply Z.ltb_lt in Hg. rewrite Hg.
      destruct (getTask taskId s) as [[task|e] s1]; cbn [snd] in *; [|reflexivity].
      destruct (isSettled task); [reflexivity|].
      destruct (Hnext s1 eq_refl) as (Hp1 & Hf1).
      apply (proj2 (IH _ Hp1 Hf1)).
      unfold sleep, modify in *. cbn [snd time] in *. lia.
Qed.

(** X19.  When the collaborator answers in no negative time and the
    retry delays are not negative, [waitForTask] comes to an end: a round
    that does not end the loop waits a full second, so one round for
    every started second of the timeout is enough, and more rounds of
    fuel change nothing.  With a timeout of 0 or less it reports the
    timeout at once, without polling. *)
Theorem waitForTask_ends (fuel : nat) (taskId : string) (timeoutMs : option Z)
    (s : Sys) :
  let limit := match timeoutMs with Some t => t | None => 60000 end in
  (punctual s ->
   limit <= 1000 * Z.of_nat fuel ->
   (exists r, fst (waitForTask fuel taskId timeoutMs s) = Some r) /\
   forall fuel', limit <= 1000 * Z.of_nat fuel' ->
     waitForTask fuel' taskId timeoutMs s = waitForTask fuel taskId timeoutMs s) /\
  (limit <= 0 ->
   waitForTask fuel taskId timeoutMs s = (Some (TaskTimeout taskId limit), s)).
Proof.
  cbv zeta. unfold waitForTask. split.
  - intros Hp Hfuel.
    destruct (waitLoop_ends taskId
                (match timeoutMs with Some t => t | None => 60000 end)
                (time s) fuel s Hp ltac:(lia)) as (Hex & Hsame).
    split; [exact Hex|]. intros fuel' Hfuel'. apply Hsame. lia.
  - intros Hle.
    assert ((time s - time s <?
             match timeoutMs with Some t => t | None => 60000 end)%Z = false) as Hg
      by (apply Z.ltb_ge; lia).
    destruct fuel; cbn [waitLoop]; rewrite Hg; reflexivity.
Qed.

Lemma waitLoop_result (taskId : string) (timeoutMs startTime : Z) :
  forall (fuel : nat) (s s' : Sys) (r : Waited),
    waitLoop fuel taskId timeoutMs startTime s = (Some r, s') ->
    (exists k, sent (self s') = (repeat (taskRequest taskId) k ++ sent (self s))%list) /\
    match r with
    | TaskResolved task =>
        isSettled task = true /\
        exists k latency,
          List.length (sent (self s')) = S k /\
          wire (self s) k = (Fulfilled task, latency)
    | TaskRejected _ => True
    | TaskTimeout taskId' timeoutMs' =>
        taskId' = taskId /\ timeoutMs' = timeoutMs /\
        timeoutMs <= time s' - startTime
    end.
Proof.
  induction fuel as [|fuel IH]; intros s s' r; cbn [waitLoop].
  - destruct (time s - startTime <? timeoutMs)%Z eqn:Hg; [discriminate|].
    intros [= <- <-]. split; [exists 0%nat; reflexivity|].
    apply Z.ltb_ge in Hg. repeat split. exact Hg.
  - destruct (time s - startTime <? timeoutMs)%Z eqn:Hg.
    2:{ intros [= <- <-]. split; [exists 0%nat; reflexivity|].
        apply Z.ltb_ge in Hg. repeat split. exact Hg. }
    destruct (getTask_frame taskId s) as (Hw & _ & (k & Hsent) & _).
    pose proof (getTask_returned taskId s) as Hret.
    destruct (getTask taskId s) as [[task|e] s1]; cbn [snd] in *.
    + destruct (isSettled task) eqn:Hset.
      * intros [= <- <-]. split; [exists k; exact Hsent|].
        split; [exact Hset|]. apply (Hret task eq_refl).
      * intros H. apply IH in H. cbn [sleep modify snd self] in H.
        destruct H as ((k' & Hs') & Hr).
        split.
        -- exists (k' + k)%nat. rewrite Hs', Hsent, repeat_app, app_assoc. reflexivity.
        -- destruct r as [task'|e'|id' t']; [|exact I|exact Hr].
           rewrite Hw in Hr. exact Hr.
    + intros [= <- <-]. split; [exists k; exact Hsent|]. exact I.
Qed.

(** X20.  However [waitForTask] ends, it has only sent GET requests for
    the task.  A task it returns is settled (completed or failed) and is
    the collaborator's answer to the last request sent; a timeout is only
    reported once the timeout has passed on the clock, and names the task
    and the timeout it was called with. *)
Theorem waitForTask_result (fuel : nat) (taskId : string) (timeoutMs : option Z)
    (s s' : Sys) (r : Waited) :
  let limit := match timeoutMs with Some t => t | None => 60000 end in
  waitForTask fuel taskId timeoutMs s = (Some r, s') ->
  (exists k, sent (self s') = (repeat (taskRequest taskId) k ++ sent (self s))%list) /\
  match r with
  | TaskResolved task =>
      isSettled task = true /\
      exists k latency,
        List.length (sent (self s')) = S k /\
        wire (self s) k = (Fulfilled task, latency)
  | TaskRejected _ => True
  | TaskTimeout taskId' timeoutMs' =>
      taskId' = taskId /\ timeoutMs' = limit /\ limit <= time s' - time s
  end.
Proof. cbv zeta. unfold waitForTask. apply waitLoop_result. Qed.

End TaskPolling.

(** * The pattern writes of a mission *)

Section PatternWrites.
Import MissionController.

Lemma filter_repeat_false {A : Type} (p : A -> bool) (x : A) (k : nat) (l : list A) :
  p x = false -> filter p (repeat x k ++ l) = filter p l.
Proof.
  intros Hx. induction k as [|k IH]; cbn; [reflexivity|]. rewrite Hx. exact IH.
Qed.

Lemma quiet_post (url : string) (data : MemoryBody) :
  isPatternWrite (BaseClient.mkRequest "POST" url (Some data)) = false ->
  preserves patternWrites (viaGraphRAG (BaseClient.post url data)).
Proof.
  intros Hq w. unfold viaGraphRAG, BaseClient.post.
  destruct (execute_sends None (BaseClient.mkRequest "POST" url (Some data))
              (BaseClient.mkSys (now w) (slept w) (graphRAG w))) as (k & Hk).
  destruct (BaseClient.executeWithRetry _ _ _) as [r s]. cbn [snd] in *.
  unfold patternWrites. cbn [graphRAG]. rewrite Hk. cbn [BaseClient.self].
  apply filter_repeat_false. exact Hq.
Qed.

Lemma quiet_storeEpisode content type importance :
  preserves patternWrites (GraphRAGClient.storeEpisode content type importance).
Proof.
  unfold GraphRAGClient.storeEpisode.
  apply preserves_bind; [apply preserves_gets|intros t].
  apply quiet_post. reflexivity.
Qed.

Lemma quiet_storeMissionResult missionId result :
  preserves patternWrites (GraphRAGClient.storeMissionResult missionId result).
Proof.
  unfold GraphRAGClient.storeMissionResult, GraphRAGClient.storeDocument.
  apply preserves_bind; [apply preserves_gets|intros t].
  apply quiet_post. reflexivity.
Qed.

Lemma quiet_viaVideoAgent {A}
    (m : Eff (BaseClient.Sys VideoProcessingRequest.t VideoProcessingResponse.t) A) :
  preserves patternWrites (viaVideoAgent m).
Proof. intros w. unfold viaVideoAgent. destruct (m _) as [r s]. reflexivity. Qed.

Lemma quiet_viaMageAgent {A}
    (m : Eff (BaseClient.Sys DecisionRequest.t Decision.t) A) :
  preserves patternWrites (viaMageAgent m).
Proof. intros w. unfold viaMageAgent. destruct (m _) as [r s]. reflexivity. Qed.

Lemma quiet_detectObjects imageUrl threshold :
  preserves patternWrites (VideoAgentClient.detectObjects imageUrl threshold).
Proof.
  unfold VideoAgentClient.detectObjects, VideoAgentClient.processFrame.
  apply preserves_tryCatch; [|intros; apply preserves_ret].
  apply preserves_bind; [|intros; apply preserves_ret].
  apply preserves_tryCatch; [apply quiet_viaVideoAgent|intros; apply preserves_throw].
Qed.

Lemma quiet_makeStrategicDecision request :
  preserves patternWrites (MageAgentClient.makeStrategicDecision request).
Proof.
  unfold MageAgentClient.makeStrategicDecision.
  apply preserves_tryCatch; [apply quiet_viaMageAgent|intros; apply preserves_throw].
Qed.

Ltac quiet_step :=
  match goal with
  | |- preserves _ (bind _ _) => apply preserves_bind; [|intro]
  | |- preserves _ (tryCatch _ _) => apply preserves_tryCatch; [|intro]
  | |- preserves _ (ret _) => apply preserves_ret
  | |- preserves _ (throw _) => apply preserves_throw
  | |- preserves _ (gets _) => apply preserves_gets
  | |- preserves _ (modify _) => apply preserves_modify; reflexivity
  | |- preserves _ (sleep _) => apply preserves_modify; reflexivity
  | |- preserves _ (assignStatus _) => apply preserves_modify; reflexivity
  | |- preserves _ (GraphRAGClient.storeEpisode _ _ _) => apply quiet_storeEpisode
  | |- preserves _ (GraphRAGClient.storeMissionResult _ _) =>
      apply quiet_storeMissionResult
  | |- preserves _ (VideoAgentClient.detectObjects _ _) => apply quiet_detectObjects
  | |- preserves _ (MageAgentClient.makeStrategicDecision _) =>
      apply quiet_makeStrategicDecision
  | |- preserves _ (match ?x with _ => _ end) => destruct x
  | |- preserves _ _ => progress cbv zeta
  end.

Ltac quiet := repeat quiet_step.

Lemma quiet_assessSituation : preserves patternWrites assessSituation.
Proof. unfold assessSituation. quiet. Qed.

Lemma quiet_executeAction action : preserves patternWrites (executeAction action).
Proof.
  unfold executeAction, inspectArea, collectData, deliverPackage, scanForPeople,
    pauseForSafety.
  quiet.
Qed.

Lemma quiet_iterate : preserves patternWrites iterate.
Proof.
  unfold iterate, planNextAction, observeOutcome, updateWorldModel, evaluateProgress,
    replanMission.
  repeat first [ apply quiet_assessSituation | apply quiet_executeAction | quiet_step ].
Qed.

Lemma quiet_reactLoop (fuel : nat) : preserves patternWrites (reactLoop fuel).
Proof.
  induction fuel as [|fuel IH]; intros w; cbn [reactLoop].
  - destruct (loopGuard w); reflexivity.
  - destruct (loopGuard w); [|reflexivity].
    unfold bind. pose proof (quiet_iterate w) as Hit.
    destruct (iterate w) as [[[|]|e] w1]; cbn [snd] in Hit |- *.
    + exact Hit.
    + rewrite IH. exact Hit.
    + exact Hit.
Qed.

Lemma quiet_finalizeMission (m : Mission.t) (w : World) :
  mission w = Some m ->
  Mission.status m <> COMPLETED ->
  patternWrites (snd (finalizeMission w)) = patternWrites w.
Proof.
  intros Hm Hst.
  unfold finalizeMission.
  unfold bind at 1. unfold gets at 1. rewrite Hm.
  unfold bind at 1. unfold gets at 1.
  unfold bind at 1. unfold gets at 1.
  unfold bind at 1. unfold gets at 1.
  cbv zeta. cbn [MissionResult.status].
  rewrite (MissionStatus_eqb_neq _ _ Hst).
  match goal with
  | |- patternWrites (snd (?rest w)) = _ => assert (preserves patternWrites rest) as H
  end.
  { quiet. }
  apply H.
Qed.

(** X21.  A mission that is not handed over as COMPLETED never stores a
    success pattern: whatever the collaborators answer, [executeMission]
    sends no pattern write to the knowledge store.  (The status never
    becomes COMPLETED during execution, and the pattern is only stored
    for a result with that status.) *)
Theorem unfinished_mission_stores_no_pattern (m : Mission.t) (w : World) :
  Mission.status m <> COMPLETED ->
  patternWrites (snd (executeMission m w)) = patternWrites w.
Proof.
  intros Hst. rewrite executeMission_cases.
  destruct (start_frame m w) as (Hm & _).
  pose proof (quiet_storeEpisode (MissionStarted (Mission.name m) (Mission.type m))
                "mission_start" (9 # 10) (started m w)) as Hstart.
  assert (patternWrites (started m w) = patternWrites w) as Hw by reflexivity.
  rewrite Hw in Hstart. clear Hw.
  destruct (GraphRAGClient.storeEpisode _ _ _ _) as [[[]|e0] w1]; cbn [fst snd] in *;
    [|exact Hstart].
  pose proof (quiet_reactLoop maxIterations w1) as Hloop.
  pose proof (reactLoop_status m maxIterations w1 Hm) as Hstatus.
  destruct (reactLoop maxIterations w1) as [[[]|e1] w2]; cbn [fst snd] in *.
  - assert (exists m2, mission w2 = Some m2 /\ Mission.status m2 <> COMPLETED)
      as (m2 & Hm2 & Hst2).
    { destruct Hstatus as [H|[H _]].
      - exists m. auto.
      - exists (Mission.set_status ABORTED m). split; [exact H|discriminate]. }
    pose proof (quiet_finalizeMission m2 w2 Hm2 Hst2) as Hfin.
    destruct (finalizeMission w2) as [[res|e2] w3]; cbn [fst snd] in *.
    + rewrite Hfin, Hloop. exact Hstart.
    + unfold failedWith. cbn [snd].
      assert (forall M w0, patternWrites (set_mission M w0) = patternWrites w0) as Hset
        by reflexivity.
      rewrite Hset, Hfin, Hloop. exact Hstart.
  - unfold failedWith. cbn [snd].
    assert (forall M w0, patternWrites (set_mission M w0) = patternWrites w0) as Hset
      by reflexivity.
    rewrite Hset, Hloop. exact Hstart.
Qed.

End PatternWrites.

(** * The further properties at work *)

Lemma call_is_bounded_witness :
  snd (BaseClient.executeWithRetry None ping opened) = opened.
Proof.
  pose proof (call_is_bounded None ping opened) as H. cbv zeta in H.
  destruct H as (_ & _ & _ & H). apply H. reflexivity.
Defined.

Lemma returned_call_closes_breaker_witness :
  BaseClient.state (BaseClient.circuitBreaker (BaseClient.self
    (snd (BaseClient.executeWithRetry None ping
            (freshSys [serverError; BaseClient.Fulfilled tt])))))
  = BaseClient.CLOSED.
Proof.
  apply (returned_call_closes_breaker None ping
           (freshSys [serverError; BaseClient.Fulfilled tt]) _ tt).
  vm_compute. reflexivity.
Defined.

Lemma breaker_closed_iff_below_threshold_witness : counted opened.
Proof.
  apply (breaker_closed_iff_below_threshold [callAfter 0; callAfter 0] (freshSys [])).
  unfold counted, BaseClient.THRESHOLD. cbn. lia.
Defined.

Lemma failure_counter_is_tally_witness :
  BaseClient.failures (BaseClient.circuitBreaker (BaseClient.self opened))
  = tally (replies opened).
Proof.
  apply (failure_counter_is_tally "GraphRAG" None (scripted []) 0
           [callAfter 0; callAfter 0]).
Defined.

Lemma raised_error_is_last_rejection_witness :
  exists k f latency,
    BaseClient.wire (BaseClient.self (freshSys [notFound])) k
    = (BaseClient.Rejected f, latency) /\
    BaseClient.transformError "GraphRAG" (Some f)
    = RoboticsError "GraphRAG: Request failed with status code 404" "SERVICE_ERROR" 404
        (ServiceDetails "GraphRAG" "Request failed with status code 404").
Proof.
  destruct (raised_error_is_last_rejection None ping (freshSys [notFound])
              (snd (BaseClient.executeWithRetry None ping (freshSys [notFound])))
              (RoboticsError "GraphRAG: Request failed with status code 404"
                 "SERVICE_ERROR" 404
                 (ServiceDetails "GraphRAG" "Request failed with status code 404")))
    as [(H & _)|[(_ & H & _)|(_ & k & f & latency & _ & Hw & He & _)]].
  - vm_compute. reflexivity.
  - discriminate H.
  - discriminate H.
  - eexists. exists f, latency. split; [exact Hw|]. symmetry. exact He.
Defined.

Lemma healthCheck_never_raises_witness :
  BaseClient.healthCheck opened = (Returned false, opened).
Proof.
  apply (proj2 (proj2 (healthCheck_never_raises opened))). reflexivity.
Defined.

Lemma open_mission_runs_all_passes_witness :
  iteration (snd (MissionController.executeMission patrol (calm storeUp)))
  = MissionController.maxIterations.
Proof.
  apply (proj2 (open_mission_runs_all_passes patrol (calm storeUp)) patrolResult).
  - vm_compute. reflexivity.
  - reflexivity.
  - discriminate.
  - discriminate.
Defined.

Lemma result_reports_mission_as_given_witness :
  MissionResult.objectivesCompleted patrolResult = 0%nat.
Proof.
  assert (fst (MissionController.executeMission patrol (calm storeUp))
          = Returned patrolResult) as Hrun by (vm_compute; reflexivity).
  apply (proj1 (proj2 (proj2
           (result_reports_mission_as_given patrol (calm storeUp) patrolResult Hrun)))).
Defined.

Lemma ended_mission_runs_no_pass_witness :
  iteration (snd (MissionController.executeMission abortedPatrol (calm storeUp))) = 0%nat.
Proof.
  apply (ended_mission_runs_no_pass abortedPatrol (calm storeUp)).
  left. reflexivity.
Defined.

Lemma evaluation_is_exclusive_witness :
  MissionController.evaluate None (Some (storm []))
  = Evaluation.mk false true (Some NoMissionOrWorldState).
Proof.
  apply (proj2 (proj2 (proj2 (evaluation_is_exclusive None (Some (storm [])))))).
  left. reflexivity.
Defined.



Lemma waitForTask_ends_witness :
  exists r, fst (MageAgentTasks.waitForTask 60 "t1" None taskService) = Some r.
Proof.
  apply (proj1 (waitForTask_ends 60 "t1" None taskService)).
  - split; [intros k; apply Z.leb_le; reflexivity|].
    split; apply Z.leb_le; reflexivity.
  - apply Z.leb_le. reflexivity.
Defined.

Lemma waitForTask_result_witness :
  MageAgentTasks.isSettled (job completed) = true.
Proof.
  apply (proj2 (waitForTask_result 60 "t1" None taskService
                  (snd (MageAgentTasks.waitForTask 60 "t1" None taskService))
                  (TaskResolved (job completed)) ltac:(vm_compute; reflexivity))).
Defined.

Lemma unfinished_mission_stores_no_pattern_witness :
  patternWrites (snd (MissionController.executeMission patrol (calm storeUp))) = [].
Proof.
  apply (unfinished_mission_stores_no_pattern patrol (calm storeUp)). discriminate.
Defined.
